(** * FastOrder backend: order lifecycle, payments and ticket redemption

    A shallow embedding of the Express/MySQL server of the repository
    (the route handlers of the main server file and, in [Module Variant],
    of the second, smaller server file).  The relational store is a record
    of tables, each a list of rows in insertion order together with its
    AUTO_INCREMENT counter; every handler is a function from the store and
    the request to a response and the new store.

    Conventions of the model:
    - ids, prices, quantities and amounts are integers ([Z]), each the
      value of the JavaScript number that holds it; what the handlers
      compute with them is computed as JavaScript does, in binary64
      ([number]);
    - JavaScript strings are the byte strings of their UTF-8 encoding;
      where the code units matter (the order of [sort]) they are read off
      that encoding;
    - a query never fails: store errors (the [catch] branches answering
      500) are outside the model, except where a handler throws by itself
      or hands a statement a number that is not finite;
    - what the platform provides and the repository does not define (the
      HMAC-SHA512 primitive, the process environment, the way MySQL compares
      a text parameter with a column) is gathered in [Env]. *)

From Stdlib Require Import ZArith List String Ascii Bool Lia.
From Stdlib Require Import DecimalString Sorted Permutation OrderedTypeEx.
From Stdlib Require Import DecimalZ DecimalPos.
Import ListNotations.
Open Scope Z_scope.

(** ** Data model *)

Inductive Role := Admin | Customer.

(** [req.user], the decoded token put in place by [authMiddleware]. *)
Record User := { user_id : Z; user_role : Role }.

Inductive OrderStatus :=
  OPending | OConfirmed | OCompleted | OScanned | OCancelled.

Inductive PaymentStatus := PPending | PCompleted | PFailed | PCancelled.

Inductive Method := Cash | Online.

Record Food := {
  f_id : Z; f_name : string; f_price : Z; f_category_id : Z }.

Record Order := {
  o_id : Z; o_user_id : Z; o_total_price : Z; o_status : OrderStatus }.

Record OrderItem := {
  oi_id : Z; oi_order_id : Z; oi_food_id : Z;
  oi_quantity : Z; oi_unit_price : Z }.

Record Payment := {
  p_payment_id : Z; p_order_id : Z; p_method : Method; p_amount : Z;
  p_status : PaymentStatus; p_transaction_id : option string }.

Record Ticket := {
  t_id : Z; t_order_id : Z; t_ticket_code : string; t_is_used : bool }.

(** The store: the five tables the handlers below read and write, each with
    the next value of its AUTO_INCREMENT key ([result.insertId]).  A SELECT
    returns the rows in the order of the table. *)
Record DB := {
  food : list Food;
  orders : list Order;
  order_items : list OrderItem;
  payments : list Payment;
  tickets : list Ticket;
  next_food : Z;
  next_order : Z;
  next_item : Z;
  next_payment : Z;
  next_ticket : Z }.

Definition empty_db : DB :=
  {| food := []; orders := []; order_items := []; payments := [];
     tickets := []; next_food := 1; next_order := 1; next_item := 1;
     next_payment := 1; next_ticket := 1 |}.

Definition OrderStatus_eqb (a b : OrderStatus) : bool :=
  match a, b with
  | OPending, OPending | OConfirmed, OConfirmed | OCompleted, OCompleted
  | OScanned, OScanned | OCancelled, OCancelled => true
  | _, _ => false
  end.

Definition PaymentStatus_eqb (a b : PaymentStatus) : bool :=
  match a, b with
  | PPending, PPending | PCompleted, PCompleted
  | PFailed, PFailed | PCancelled, PCancelled => true
  | _, _ => false
  end.

Definition is_admin (u : User) : bool :=
  match user_role u with Admin => true | Customer => false end.

(** ** SQL statements on one table *)

Definition sql_select {A} (p : A -> bool) (t : list A) : list A := filter p t.

Definition sql_update {A} (p : A -> bool) (f : A -> A) (t : list A) : list A :=
  map (fun r => if p r then f r else r) t.

Definition sql_delete {A} (p : A -> bool) (t : list A) : list A :=
  filter (fun r => negb (p r)) t.

(** [result.affectedRows] of an UPDATE or DELETE. *)
Definition affectedRows {A} (p : A -> bool) (t : list A) : nat :=
  List.length (filter p t).

Definition set_o_status (s : OrderStatus) (o : Order) : Order :=
  {| o_id := o_id o; o_user_id := o_user_id o;
     o_total_price := o_total_price o; o_status := s |}.

Definition set_p_status (s : PaymentStatus) (p : Payment) : Payment :=
  {| p_payment_id := p_payment_id p; p_order_id := p_order_id p;
     p_method := p_method p; p_amount := p_amount p; p_status := s;
     p_transaction_id := p_transaction_id p |}.

Definition set_t_is_used (b : bool) (t : Ticket) : Ticket :=
  {| t_id := t_id t; t_order_id := t_order_id t;
     t_ticket_code := t_ticket_code t; t_is_used := b |}.

Definition with_food (d : DB) (l : list Food) (n : Z) : DB :=
  {| food := l; orders := orders d; order_items := order_items d;
     payments := payments d; tickets := tickets d; next_food := n;
     next_order := next_order d; next_item := next_item d;
     next_payment := next_payment d; next_ticket := next_ticket d |}.

Definition with_orders (d : DB) (l : list Order) (n : Z) : DB :=
  {| food := food d; orders := l; order_items := order_items d;
     payments := payments d; tickets := tickets d; next_food := next_food d;
     next_order := n; next_item := next_item d;
     next_payment := next_payment d; next_ticket := next_ticket d |}.

Definition with_order_items (d : DB) (l : list OrderItem) (n : Z) : DB :=
  {| food := food d; orders := orders d; order_items := l;
     payments := payments d; tickets := tickets d; next_food := next_food d;
     next_order := next_order d; next_item := n;
     next_payment := next_payment d; next_ticket := next_ticket d |}.

Definition with_payments (d : DB) (l : list Payment) (n : Z) : DB :=
  {| food := food d; orders := orders d; order_items := order_items d;
     payments := l; tickets := tickets d; next_food := next_food d;
     next_order := next_order d; next_item := next_item d;
     next_payment := n; next_ticket := next_ticket d |}.

Definition with_tickets (d : DB) (l : list Ticket) (n : Z) : DB :=
  {| food := food d; orders := orders d; order_items := order_items d;
     payments := payments d; tickets := l; next_food := next_food d;
     next_order := next_order d; next_item := next_item d;
     next_payment := next_payment d; next_ticket := n |}.

(** UPDATE orders SET status = ? WHERE id = ? *)
Definition update_order_status (s : OrderStatus) (oid : Z) (d : DB) : DB :=
  with_orders d
    (sql_update (fun o => o_id o =? oid) (set_o_status s) (orders d))
    (next_order d).

(** INSERT INTO orders (user_id, total_price, status, created_at) *)
Definition insert_order (uid total : Z) (s : OrderStatus) (d : DB) : Z * DB :=
  let id := next_order d in
  (id, with_orders d
         (orders d ++ [{| o_id := id; o_user_id := uid;
                          o_total_price := total; o_status := s |}])
         (id + 1)).

(** INSERT INTO order_items (order_id, food_id, quantity, unit_price) *)
Definition insert_order_item (oid fid qty price : Z) (d : DB) : DB :=
  let id := next_item d in
  with_order_items d
    (order_items d ++ [{| oi_id := id; oi_order_id := oid; oi_food_id := fid;
                          oi_quantity := qty; oi_unit_price := price |}])
    (id + 1).

(** Modelled from the spec: the table definitions are not in the
    repository, so the default of the column [tickets.is_used], which two
    of the three INSERT statements leave out, is the one of the ticket
    issuer of the specification, "inserts Ticket(is_used=false,
    issued_at=now)". *)
Definition default_is_used : bool := false.

(** INSERT INTO tickets (order_id, ticket_code, issued_at, is_used) *)
Definition insert_ticket (oid : Z) (code : string) (is_used : bool) (d : DB)
    : DB :=
  let id := next_ticket d in
  with_tickets d
    (tickets d ++ [{| t_id := id; t_order_id := oid; t_ticket_code := code;
                      t_is_used := is_used |}])
    (id + 1).

(** INSERT INTO payments (order_id, method, amount, status, transaction_id,
    created_at) *)
Definition insert_payment (oid : Z) (m : Method) (amount : Z)
    (s : PaymentStatus) (txn : option string) (d : DB) : Z * DB :=
  let id := next_payment d in
  (id, with_payments d
         (payments d ++ [{| p_payment_id := id; p_order_id := oid;
                            p_method := m; p_amount := amount; p_status := s;
                            p_transaction_id := txn |}])
         (id + 1)).

(** ** JavaScript numbers

    A Number is an IEEE-754 binary64 value.  The handlers multiply and add
    integers, so a number is given by its integer value, or it is not
    finite.  Every operation rounds its exact result to the nearest
    binary64 value, ties to the even significand, and overflows to an
    infinity.  The sign of a zero is not kept: nothing here tells the two
    zeros apart. *)
Inductive number :=
  | Finite (value : Z)
  | Infinity (negative : bool)
  | NaN.

(** The binary64 value nearest to an integer: the integer itself up to
    2^53 in magnitude; beyond, its 53 leading bits rounded to nearest, ties
    to even; an infinity when that reaches 2^1024. *)
Definition round_binary64 (x : Z) : number :=
  let a := Z.abs x in
  let e := Z.log2 a - 52 in
  if e <=? 0 then Finite x
  else
    let q := a / 2 ^ e in
    let r := a mod 2 ^ e in
    let half := 2 ^ (e - 1) in
    let q' := if ((half <? r) || ((r =? half) && Z.odd q))%bool
              then q + 1 else q in
    if 2 ^ 1024 <=? q' * 2 ^ e then Infinity (x <? 0)
    else Finite (Z.sgn x * (q' * 2 ^ e)).

(** The number an integer of a request or of a row is read as. *)
Definition Number (z : Z) : number := round_binary64 z.

(** [a * b] *)
Definition num_mul (a b : number) : number :=
  match a, b with
  | NaN, _ | _, NaN => NaN
  | Finite x, Finite y => round_binary64 (x * y)
  | Infinity s, Finite y | Finite y, Infinity s =>
      if y =? 0 then NaN else Infinity (xorb s (y <? 0))
  | Infinity s, Infinity s' => Infinity (xorb s s')
  end.

(** [a + b] *)
Definition num_add (a b : number) : number :=
  match a, b with
  | NaN, _ | _, NaN => NaN
  | Finite x, Finite y => round_binary64 (x + y)
  | Infinity s, Finite _ | Finite _, Infinity s => Infinity s
  | Infinity s, Infinity s' => if Bool.eqb s s' then Infinity s else NaN
  end.

(** ** Responses *)

Inductive Body :=
  | BError (error : string)
  | BMessage (message : string)
  | BMessageOrder (message : string) (order_id : Z)
  | BOrder (order_id total_price : Z) (status : OrderStatus)
           (ticket_code : string)
  | BPayment (payment_id order_id amount : Z) (method : Method)
             (status : PaymentStatus) (transaction_id : option string)
             (payment_url : option string)
  | BFood (id : Z) (name : string) (price category_id : Z).

Inductive Response :=
  | Reply (code : Z) (body : Body)
  | Redirect (url : string).

(** ** JavaScript values and strings *)

(** The values a parameter object holds here.  A field of the query
    string or of the body is a string; an absent property reads
    [undefined]; [JOther] stands for any other value (the array or object
    the query parser builds out of repeated or bracketed names, a number)
    and carries what [String(v)] makes of it. *)
Inductive jsval :=
  | JUndefined
  | JNull
  | JStr (s : string)
  | JOther (to_string : string).

(** A plain object, as the list of its own properties in insertion order;
    the first pair of a key is the property. *)
Definition jsobj := list (string * jsval).

Definition obj_get (o : jsobj) (k : string) : jsval :=
  match find (fun kv => String.eqb (fst kv) k) o with
  | Some kv => snd kv
  | None => JUndefined
  end.

(** [delete o[k]] *)
Definition obj_delete (o : jsobj) (k : string) : jsobj :=
  filter (fun kv => negb (String.eqb (fst kv) k)) o.

(** [o[k] = v] *)
Definition obj_set (o : jsobj) (k : string) (v : jsval) : jsobj :=
  match find (fun kv => String.eqb (fst kv) k) o with
  | Some _ => map (fun kv => if String.eqb (fst kv) k then (k, v) else kv) o
  | None => o ++ [(k, v)]
  end.

Definition Object_keys (o : jsobj) : list string :=
  nodup string_dec (map fst o).

(** [String(v)], as template literals and [encodeURIComponent] apply it. *)
Definition js_to_string (v : jsval) : string :=
  match v with
  | JUndefined => "undefined"
  | JNull => "null"
  | JStr s => s
  | JOther s => s
  end.

Definition of_env (v : option string) : jsval :=
  match v with Some s => JStr s | None => JUndefined end.

(** [v !== ''], [v !== null], [v !== undefined] *)
Definition not_empty (v : jsval) : bool :=
  match v with JStr EmptyString => false | _ => true end.

Definition not_null (v : jsval) : bool :=
  match v with JNull => false | _ => true end.

Definition not_undefined (v : jsval) : bool :=
  match v with JUndefined => false | _ => true end.

(** Strict equality of a value with a string. *)
Definition js_eq_str (v : jsval) (s : string) : bool :=
  match v with JStr x => String.eqb x s | _ => false end.

(** The decimal digits of an integer. *)
Definition digits (z : Z) : string := NilZero.string_of_int (Z.to_int z).

(** Whether the decimal [s * 10^p] reads as the number of value [v]. *)
Definition reads_as (s p v : Z) : bool :=
  match round_binary64 (s * 10 ^ p) with
  | Finite w => w =? v
  | _ => false
  end.

(** For a positive [v] of [n] decimal places: the [s] of [k] places such
    that [s * 10^(n-k)] reads as [v], the nearest to [v] when there are
    two, the even one of two that are as near. *)
Definition digits_of_places (v n k : Z) : option Z :=
  let p := n - k in
  let lo := v / 10 ^ p in
  let hi := lo + 1 in
  match reads_as lo p v, reads_as hi p v with
  | true, true =>
      let dl := v - lo * 10 ^ p in
      let dh := hi * 10 ^ p - v in
      Some (if dl <? dh then lo
            else if dh <? dl then hi
            else if Z.even lo then lo else hi)
  | true, false => Some lo
  | false, true => Some hi
  | false, false => None
  end.

(** The fewest places that do, from [k] on. *)
Fixpoint shortest_digits (fuel : nat) (v n k : Z) : Z * Z :=
  match fuel with
  | O => (v, n)
  | S fuel' =>
      match digits_of_places v n k with
      | Some s => (s, k)
      | None => shortest_digits fuel' v n (k + 1)
      end
  end.

Fixpoint zeros (n : nat) : string :=
  match n with
  | O => EmptyString
  | S n' => String "0" (zeros n')
  end.

(** [String(v)] for a positive integer value: the shortest digits that
    read back as [v], filled up with zeros below 10^21 and followed by an
    exponent from there on. *)
Definition positive_to_string (v : Z) : string :=
  let n := Z.of_nat (String.length (digits v)) in
  let (s, k) := shortest_digits (Z.to_nat n) v n 1 in
  let carry := s =? 10 ^ k in
  let s' := if carry then 1 else s in
  let k' := if carry then 1 else k in
  let n' := if carry then n + 1 else n in
  if n' <=? 21 then String.append (digits s') (zeros (Z.to_nat (n' - k')))
  else
    match digits s' with
    | String d rest =>
        String d
          (String.append
             (if String.eqb rest "" then "" else String "." rest)
             (String.append "e+" (digits (n' - 1))))
    | EmptyString => EmptyString
    end.

(** [String(x)], [`${x}`], [x.toString()]: up to 2^53 in magnitude the
    decimal digits of the integer. *)
Definition number_to_string (x : number) : string :=
  match x with
  | NaN => "NaN"
  | Infinity false => "Infinity"
  | Infinity true => "-Infinity"
  | Finite z =>
      if Z.abs z <=? 2 ^ 53 then digits z
      else if z <? 0 then String "-" (positive_to_string (- z))
      else positive_to_string z
  end.

(** The text of the number an integer is held as. *)
Definition dec (n : Z) : string := number_to_string (Number n).

(** [String(n).padStart(2, '0')] *)
Definition pad2 (n : Z) : string :=
  let s := dec n in
  if (String.length s <? 2)%nat then String.append "0" s else s.

(** [s.split(c)] for a one-character separator. *)
Fixpoint split_on (c : ascii) (s : string) : list string :=
  match s with
  | EmptyString => [EmptyString]
  | String a r =>
      let l := split_on c r in
      if Ascii.eqb a c then EmptyString :: l
      else match l with
           | h :: t => String a h :: t
           | [] => [String a EmptyString]
           end
  end.

(** The string of the given bytes. *)
Definition string_of_bytes (l : list nat) : string :=
  string_of_list_ascii (map ascii_of_nat l).

Definition string_rev (s : string) : string :=
  string_of_list_ascii (rev (list_ascii_of_string s)).

(** The white space and line terminators of ECMAScript, in UTF-8: TAB, LF,
    VT, FF, CR, SP, U+00A0, U+1680, U+2000 to U+200A, U+2028, U+2029,
    U+202F, U+205F, U+3000 and U+FEFF. *)
Definition white_space : list string :=
  map string_of_bytes
    [ [9]; [10]; [11]; [12]; [13]; [32]; [194; 160]; [225; 154; 128];
      [226; 128; 128]; [226; 128; 129]; [226; 128; 130]; [226; 128; 131];
      [226; 128; 132]; [226; 128; 133]; [226; 128; 134]; [226; 128; 135];
      [226; 128; 136]; [226; 128; 137]; [226; 128; 138]; [226; 128; 168];
      [226; 128; 169]; [226; 128; 175]; [226; 129; 159]; [227; 128; 128];
      [239; 187; 191] ]%nat.

(** [s] without its prefix [p], when it starts with [p]. *)
Fixpoint strip_prefix (p s : string) : option string :=
  match p, s with
  | EmptyString, _ => Some s
  | String a p', String b s' =>
      if Ascii.eqb a b then strip_prefix p' s' else None
  | String _ _, EmptyString => None
  end.

Fixpoint strip_first (ws : list string) (s : string) : option string :=
  match ws with
  | [] => None
  | w :: rest =>
      match strip_prefix w s with
      | Some r => Some r
      | None => strip_first rest s
      end
  end.

(** Strings of [ws] are taken off the front of [s] as long as there is
    one; [n] bounds the number of steps. *)
Fixpoint strip_all (ws : list string) (n : nat) (s : string) : string :=
  match n with
  | O => s
  | S n' =>
      match strip_first ws s with
      | Some r => strip_all ws n' r
      | None => s
      end
  end.

Definition trim_start (s : string) : string :=
  strip_all white_space (String.length s) s.

Definition trim_end (s : string) : string :=
  string_rev
    (strip_all (map string_rev white_space) (String.length s)
       (string_rev s)).

(** [s.trim()] *)
Definition trim (s : string) : string := trim_end (trim_start s).

Definition hex_digit (n : nat) : ascii :=
  match n with
  | 0 => "0" | 1 => "1" | 2 => "2" | 3 => "3" | 4 => "4" | 5 => "5"
  | 6 => "6" | 7 => "7" | 8 => "8" | 9 => "9" | 10 => "A" | 11 => "B"
  | 12 => "C" | 13 => "D" | 14 => "E" | _ => "F"
  end%nat%char.

(** The characters [encodeURIComponent] leaves as they are:
    A-Z a-z 0-9 - _ . ! ~ * ' ( ) *)
Definition unreserved (c : ascii) : bool :=
  let n := nat_of_ascii c in
  ((65 <=? n) && (n <=? 90) || (97 <=? n) && (n <=? 122)
   || (48 <=? n) && (n <=? 57)
   || (n =? 45) || (n =? 95) || (n =? 46) || (n =? 33) || (n =? 126)
   || (n =? 42) || (n =? 39) || (n =? 40) || (n =? 41))%nat.

Definition percent (c : ascii) : string :=
  let n := nat_of_ascii c in
  String "%" (String (hex_digit (n / 16)) (String (hex_digit (n mod 16))
    EmptyString)).

Definition encode_char (c : ascii) : string :=
  if unreserved c then String c EmptyString else percent c.

(** [encodeURIComponent(s)]: every byte of the UTF-8 encoding that is not
    unreserved becomes %XX. *)
Fixpoint encodeURIComponent (s : string) : string :=
  match s with
  | EmptyString => EmptyString
  | String c r => String.append (encode_char c) (encodeURIComponent r)
  end.

(** [s.replace(/%20/g, '+')] *)
Fixpoint replace_pct20 (s : string) : string :=
  match s with
  | EmptyString => EmptyString
  | String c r =>
      match r with
      | String c1 (String c2 r') =>
          if (Ascii.eqb c "%" && Ascii.eqb c1 "2" && Ascii.eqb c2 "0")%bool
          then String "+" (replace_pct20 r')
          else String c (replace_pct20 r)
      | _ => String c (replace_pct20 r)
      end
  end.

(** The code points of a UTF-8 text; a byte that starts no well-formed
    sequence reads as U+FFFD. *)
Definition is_continuation (b : N) : bool :=
  ((128 <=? b) && (b <? 192))%N.

Fixpoint code_points (l : list N) : list N :=
  match l with
  | [] => []
  | b0 :: r0 =>
      if (b0 <? 128)%N then b0 :: code_points r0
      else
        match r0 with
        | b1 :: r1 =>
            if ((194 <=? b0) && (b0 <? 224) && is_continuation b1)%N
            then ((b0 - 192) * 64 + (b1 - 128))%N :: code_points r1
            else
              match r1 with
              | b2 :: r2 =>
                  if ((224 <=? b0) && (b0 <? 240) && is_continuation b1
                      && is_continuation b2)%N
                  then ((b0 - 224) * 4096 + (b1 - 128) * 64 + (b2 - 128))%N
                       :: code_points r2
                  else
                    match r2 with
                    | b3 :: r3 =>
                        if ((240 <=? b0) && (b0 <? 245)
                            && is_continuation b1 && is_continuation b2
                            && is_continuation b3)%N
                        then ((b0 - 240) * 262144 + (b1 - 128) * 4096
                              + (b2 - 128) * 64 + (b3 - 128))%N
                             :: code_points r3
                        else 65533%N :: code_points r0
                    | [] => 65533%N :: code_points r0
                    end
              | [] => 65533%N :: code_points r0
              end
        | [] => [65533%N]
        end
  end.

(** The UTF-16 code units of a code point: itself in the Basic
    Multilingual Plane, a surrogate pair beyond. *)
Definition code_units (cp : N) : list N :=
  if (cp <? 65536)%N then [cp]
  else [ (55296 + (cp - 65536) / 1024)%N; (56320 + (cp - 65536) mod 1024)%N ].

(** The code units of a JavaScript string, read off its UTF-8 encoding. *)
Definition utf16 (s : string) : list N :=
  flat_map code_units (code_points (map N_of_ascii (list_ascii_of_string s))).

(** Code unit by code unit: [a] is not after [b]. *)
Fixpoint units_leb (a b : list N) : bool :=
  match a, b with
  | [], _ => true
  | _ :: _, [] => false
  | x :: a', y :: b' =>
      if (x <? y)%N then true
      else if (y <? x)%N then false
      else units_leb a' b'
  end.

(** The order of [Array.prototype.sort] without a comparator: strings
    compare by their UTF-16 code units. *)
Definition js_leb (a b : string) : bool := units_leb (utf16 a) (utf16 b).

(** [xs.sort()] on strings. *)
Fixpoint insert_sorted (k : string) (l : list string) : list string :=
  match l with
  | [] => [k]
  | h :: t => if js_leb k h then k :: l else h :: insert_sorted k t
  end.

Definition js_sort (l : list string) : list string :=
  fold_right insert_sorted [] l.

(** ** The platform *)

Record Env := {
  (** [crypto.createHmac('sha512', key).update(data).digest('hex')] *)
  hmac_sha512_hex : string -> string -> string;
  VNPAY_HASH_SECRET : string;
  VNPAY_RETURN_URL : option string;
  VNPAY_TMN_CODE : option string;
  VNPAY_URL : option string;
  (** [column = ?] for a text column and a text parameter, under the
      collation of the column *)
  sql_text_eq : string -> string -> bool;
  (** [column = ?] for an integer column and a text parameter *)
  sql_int_eq_text : Z -> string -> bool }.

(** What [new Date()] and the two calls of [Date.now()] of the payment
    handler read. *)
Record Clock := {
  getFullYear : Z; getMonth : Z; getDate : Z;
  getHours : Z; getMinutes : Z; getSeconds : Z;
  now_txn : Z; now_ticket : Z }.

(** ** Payment adapter: [createVnpaySignature] (lines 744-796) *)

Definition canonical_keys : list string :=
  [ "vnp_Amount"; "vnp_Command"; "vnp_CreateDate"; "vnp_CurrCode";
    "vnp_IpAddr"; "vnp_Locale"; "vnp_OrderInfo"; "vnp_OrderType";
    "vnp_ReturnUrl"; "vnp_TmnCode"; "vnp_TxnRef"; "vnp_Version";
    "vnp_ExpireDate"; "vnp_Bill_Mobile"; "vnp_Bill_Email";
    "vnp_Bill_FirstName"; "vnp_Bill_LastName"; "vnp_Bill_Address";
    "vnp_Bill_City"; "vnp_Bill_Country"; "vnp_Bill_State"; "vnp_Inv_Phone";
    "vnp_Inv_Email"; "vnp_Inv_Customer"; "vnp_Inv_Address";
    "vnp_Inv_Company"; "vnp_Inv_Taxcode"; "vnp_Inv_Type";
    "vnp_BankCode" ]%string.

(** The keys that take part in the signature. *)
Definition orderedKeys (params : jsobj) (isCallback : bool) : list string :=
  if isCallback then
    js_sort
      (filter (fun key =>
                 negb (String.eqb key "vnp_SecureHash")
                 && negb (String.eqb key "vnp_SecureHashType")
                 && not_empty (obj_get params key)
                 && not_null (obj_get params key))
              (Object_keys params))
  else
    filter (fun key =>
              not_undefined (obj_get params key)
              && not_empty (obj_get params key)
              && not_null (obj_get params key))
           canonical_keys.

(** [`${key}=${encodeURIComponent(params[key]).replace(/%20/g, '+')}`] *)
Definition query_pair (params : jsobj) (key : string) : string :=
  String.append key
    (String.append "="
       (replace_pct20
          (encodeURIComponent (js_to_string (obj_get params key))))).

Definition signData (params : jsobj) (keys : list string) : string :=
  String.concat "&" (map (query_pair params) keys).

Definition createVnpaySignature (env : Env) (params : jsobj)
    (secretKey : string) (isCallback : bool) : string :=
  hmac_sha512_hex env secretKey
    (signData params (orderedKeys params isCallback)).

(** ** Route handlers of the main server

    The line numbers are those of src/API_DOCUMENTATION.md, which holds the
    two server files one after the other. *)

Definition server_error : Response := Reply 500 (BError "Server error").
Definition unauthorized : Response := Reply 403 (BError "Unauthorized").

(** *** POST /api/foods, PUT /api/foods/:id, DELETE /api/foods/:id
    (lines 242-308) *)

Definition post_foods (u : User) (name : string) (price category_id : Z)
    (d : DB) : Response * DB :=
  if negb (is_admin u) then (unauthorized, d)
  else if (String.eqb name "" || (price =? 0) || (category_id =? 0))%bool
  then (Reply 400 (BError "Name, price, and category_id are required"), d)
  else
    let id := next_food d in
    (Reply 200 (BFood id name price category_id),
     with_food d
       (food d ++ [{| f_id := id; f_name := name; f_price := price;
                      f_category_id := category_id |}])
       (id + 1)).

Definition put_foods (u : User) (id : Z) (name : string)
    (price category_id : Z) (d : DB) : Response * DB :=
  if negb (is_admin u) then (unauthorized, d)
  else if (String.eqb name "" || (price =? 0) || (category_id =? 0))%bool
  then (Reply 400 (BError "Name, price, and category_id are required"), d)
  else
    let d' :=
      with_food d
        (sql_update (fun f => f_id f =? id)
           (fun _ => {| f_id := id; f_name := name; f_price := price;
                        f_category_id := category_id |})
           (food d))
        (next_food d) in
    if Nat.eqb (affectedRows (fun f => f_id f =? id) (food d)) 0
    then (Reply 404 (BError "Food not found"), d')
    else (Reply 200 (BFood id name price category_id), d').

Definition delete_foods (u : User) (id : Z) (d : DB) : Response * DB :=
  if negb (is_admin u) then (unauthorized, d)
  else
    let d' :=
      with_food d (sql_delete (fun f => f_id f =? id) (food d))
        (next_food d) in
    if Nat.eqb (affectedRows (fun f => f_id f =? id) (food d)) 0
    then (Reply 404 (BError "Food not found"), d')
    else (Reply 200 (BMessage "Food deleted successfully"), d').

(** *** POST /api/orders (lines 311-361) *)

Record Item := { food_id : Z; quantity : Z }.

(** An entry of [itemsWithPrice]: [{ ...item, unit_price }]. *)
Record PricedItem := { pi_item : Item; pi_unit_price : Z }.

(** The first loop: the price of every item is read and the total summed,
    [total_price += unit_price * item.quantity]; [inl id] is the early
    return on a food that does not exist. *)
Fixpoint price_items (foods : list Food) (items : list Item)
    (total_price : number) (itemsWithPrice : list PricedItem)
    : Z + number * list PricedItem :=
  match items with
  | [] => inr (total_price, itemsWithPrice)
  | item :: rest =>
      match sql_select (fun f => f_id f =? food_id item) foods with
      | [] => inl (food_id item)
      | f :: _ =>
          let unit_price := f_price f in
          price_items foods rest
            (num_add total_price
               (num_mul (Number unit_price) (Number (quantity item))))
            (itemsWithPrice
               ++ [{| pi_item := item; pi_unit_price := unit_price |}])
      end
  end.

(** The second loop: one row of order_items per priced item. *)
Definition insert_items (order_id : Z) (l : list PricedItem) (d : DB) : DB :=
  fold_left
    (fun d it =>
       insert_order_item order_id (food_id (pi_item it))
         (quantity (pi_item it)) (pi_unit_price it) d)
    l d.

(** [ticket_code] is the value [randomBytes(8).toString('hex')] draws.
    A total that is not finite is written into the INSERT as [Infinity] or
    [NaN], which MySQL does not take for a value: the query throws before
    any row is written and the [catch] branch answers. *)
Definition post_orders (u : User) (items : list Item) (ticket_code : string)
    (d : DB) : Response * DB :=
  match items with
  | [] => (Reply 400 (BError "Items are required"), d)
  | _ =>
      match price_items (food d) items (Number 0) [] with
      | inl fid =>
          (Reply 404
             (BError (String.append "Food with id "
                        (String.append (dec fid) " not found"))), d)
      | inr (Finite total_price, itemsWithPrice) =>
          let (insertId, d1) := insert_order (user_id u) total_price OPending d in
          let d2 := insert_items insertId itemsWithPrice d1 in
          let d3 := insert_ticket insertId ticket_code false d2 in
          (Reply 200 (BOrder insertId total_price OPending ticket_code), d3)
      | inr (_, _) => (server_error, d)
      end
  end.

(** *** POST /api/tickets/verify (lines 363-400) *)

(** SELECT t.*, p.status as payment_status FROM tickets t
    JOIN payments p ON t.order_id = p.order_id
    WHERE t.ticket_code = ? AND t.is_used = ? *)
Definition tickets_join_payments (env : Env) (ticket_code : string)
    (is_used : bool) (d : DB) : list (Ticket * PaymentStatus) :=
  flat_map
    (fun t =>
       map (fun p => (t, p_status p))
         (sql_select (fun p => p_order_id p =? t_order_id t) (payments d)))
    (sql_select
       (fun t => sql_text_eq env (t_ticket_code t) ticket_code
                 && Bool.eqb (t_is_used t) is_used)
       (tickets d)).

Definition post_tickets_verify (env : Env) (u : User) (ticket_code : string)
    (d : DB) : Response * DB :=
  if negb (is_admin u) then (unauthorized, d)
  else if String.eqb ticket_code ""
  then (Reply 400 (BError "Ticket code is required"), d)
  else
    match tickets_join_payments env ticket_code false d with
    | [] => (Reply 400 (BError "Ticket not found or already used"), d)
    | (t, payment_status) :: _ =>
        if negb (PaymentStatus_eqb payment_status PCompleted)
        then (Reply 400 (BError "Payment not completed. Please complete payment before receiving your order."), d)
        else
          (Reply 200 (BMessageOrder "Ticket verified successfully"
                        (t_order_id t)),
           with_tickets d
             (sql_update
                (fun t => sql_text_eq env (t_ticket_code t) ticket_code)
                (set_t_is_used true) (tickets d))
             (next_ticket d))
    end.

(** *** POST /api/payments/confirm (lines 402-442) *)

Definition is_cash (m : Method) : bool :=
  match m with Cash => true | Online => false end.

Definition post_payments_confirm (u : User) (payment_id : Z) (d : DB)
    : Response * DB :=
  if negb (is_admin u) then (unauthorized, d)
  else if payment_id =? 0
  then (Reply 400 (BError "Payment ID is required"), d)
  else
    match sql_select
            (fun p => (p_payment_id p =? payment_id) && is_cash (p_method p))
            (payments d) with
    | [] => (Reply 404 (BError "Payment not found or not a cash payment"), d)
    | p :: _ =>
        if PaymentStatus_eqb (p_status p) PCompleted
        then (Reply 400 (BError "Payment already completed"), d)
        else
          (Reply 200 (BMessage "Payment confirmed successfully"),
           with_payments d
             (sql_update (fun p => p_payment_id p =? payment_id)
                (set_p_status PCompleted) (payments d))
             (next_payment d))
    end.

(** *** PUT /api/admin/orders/:orderId/status (lines 657-685) *)

(** [['pending', 'confirmed', 'completed'].includes(status)] *)
Definition admin_status (status : string) : option OrderStatus :=
  if String.eqb status "pending" then Some OPending
  else if String.eqb status "confirmed" then Some OConfirmed
  else if String.eqb status "completed" then Some OCompleted
  else None.

Definition put_admin_orders_status (u : User) (orderId : Z) (status : string)
    (d : DB) : Response * DB :=
  if negb (is_admin u) then (unauthorized, d)
  else
    match admin_status status with
    | None => (Reply 400 (BError "Invalid status"), d)
    | Some s =>
        match sql_select (fun o => o_id o =? orderId) (orders d) with
        | [] => (Reply 404 (BError "Order not found"), d)
        | _ :: _ =>
            (Reply 200 (BMessage "Order status updated successfully"),
             update_order_status s orderId d)
        end
    end.

(** *** DELETE /api/orders/:orderId/cancel (lines 710-735) *)

(** SELECT * FROM orders WHERE id = ? AND user_id = ? *)
Definition orders_of_user (orderId uid : Z) (d : DB) : list Order :=
  sql_select (fun o => (o_id o =? orderId) && (o_user_id o =? uid)) (orders d).

Definition delete_orders_cancel (u : User) (orderId : Z) (d : DB)
    : Response * DB :=
  match orders_of_user orderId (user_id u) d with
  | [] => (Reply 404 (BError "Order not found or not authorized"), d)
  | o :: _ =>
      if negb (OrderStatus_eqb (o_status o) OPending)
      then (Reply 400 (BError "Only pending orders can be cancelled"), d)
      else
        let d1 := with_tickets d
                    (sql_delete (fun t => t_order_id t =? orderId) (tickets d))
                    (next_ticket d) in
        let d2 := with_order_items d1
                    (sql_delete (fun i => oi_order_id i =? orderId)
                       (order_items d1))
                    (next_item d1) in
        let d3 := with_payments d2
                    (sql_delete (fun p => p_order_id p =? orderId)
                       (payments d2))
                    (next_payment d2) in
        let d4 := with_orders d3
                    (sql_delete (fun o => o_id o =? orderId) (orders d3))
                    (next_order d3) in
        (Reply 200 (BMessage "Order cancelled successfully"), d4)
  end.

(** *** DELETE /api/orders/:orderId (lines 1148-1162) *)

Definition delete_orders (u : User) (orderId : Z) (d : DB) : Response * DB :=
  match orders_of_user orderId (user_id u) d with
  | [] => (Reply 404 (BError "Order not found or not authorized"), d)
  | _ :: _ =>
      (Reply 200 (BMessage "Order cancelled successfully"),
       update_order_status OCancelled orderId d)
  end.

(** *** POST /api/payments (lines 799-991) *)

(** The body of the request and [req.ip].  A field whose default is the
    empty string is that string when it is absent; the three fields with
    another default are optional. *)
Record PaymentReq := {
  order_id : Z; method : string; amount : Z;
  order_desc : option string; order_type : option string;
  language : option string;
  bank_code : string; txtexpire : string; txt_billing_mobile : string;
  txt_billing_email : string; txt_billing_fullname : string;
  txt_inv_addr1 : string; txt_bill_city : string; txt_bill_country : string;
  txt_bill_state : string; txt_inv_mobile : string; txt_inv_email : string;
  txt_inv_customer : string; txt_inv_company : string;
  txt_inv_taxcode : string; cbo_inv_type : string;
  ip : string }.

Definition or_default (v : option string) (dflt : string) : string :=
  match v with Some s => s | None => dflt end.

(** [...(v && { k: v })] *)
Definition spread_if (k v : string) : jsobj :=
  if String.eqb v "" then [] else [(k, JStr v)].

(** [vnp_Bill_FirstName] and [vnp_Bill_LastName] out of the full name. *)
Definition billing_names (fullname : string) : string * string :=
  if (negb (String.eqb fullname "") && negb (String.eqb (trim fullname) ""))%bool
  then
    match split_on " " (trim fullname) with
    | first :: rest => (first, last rest EmptyString)
    | [] => (EmptyString, EmptyString)
    end
  else (EmptyString, EmptyString).

Definition createDate (c : Clock) : string :=
  String.concat ""
    [ dec (getFullYear c); pad2 (getMonth c + 1); pad2 (getDate c);
      pad2 (getHours c); pad2 (getMinutes c); pad2 (getSeconds c) ].

Definition vnpParams_of (env : Env) (c : Clock) (r : PaymentReq) : jsobj :=
  let names := billing_names (txt_billing_fullname r) in
  [ ("vnp_Amount",
     JStr (number_to_string (num_mul (Number (amount r)) (Number 100))));
    ("vnp_Command", JStr "pay");
    ("vnp_CreateDate", JStr (createDate c));
    ("vnp_CurrCode", JStr "VND");
    ("vnp_IpAddr", JStr (if String.eqb (ip r) "" then "127.0.0.1" else ip r));
    ("vnp_Locale", JStr (or_default (language r) "vn"));
    ("vnp_OrderInfo",
     JStr (or_default (order_desc r)
             (String.append "Thanh toan don hang " (dec (order_id r)))));
    ("vnp_OrderType", JStr (or_default (order_type r) "billpayment"));
    ("vnp_ReturnUrl", of_env (VNPAY_RETURN_URL env));
    ("vnp_TmnCode", of_env (VNPAY_TMN_CODE env));
    ("vnp_TxnRef",
     JStr (String.concat "_" ["ORDER"; dec (order_id r); dec (now_txn c)]));
    ("vnp_Version", JStr "2.1.0") ]%string
  ++ spread_if "vnp_ExpireDate" (txtexpire r)
  ++ spread_if "vnp_Bill_Mobile" (txt_billing_mobile r)
  ++ spread_if "vnp_Bill_Email" (txt_billing_email r)
  ++ spread_if "vnp_Bill_FirstName" (fst names)
  ++ spread_if "vnp_Bill_LastName" (snd names)
  ++ spread_if "vnp_Bill_Address" (txt_inv_addr1 r)
  ++ spread_if "vnp_Bill_City" (txt_bill_city r)
  ++ spread_if "vnp_Bill_Country" (txt_bill_country r)
  ++ spread_if "vnp_Bill_State" (txt_bill_state r)
  ++ spread_if "vnp_Inv_Phone" (txt_inv_mobile r)
  ++ spread_if "vnp_Inv_Email" (txt_inv_email r)
  ++ spread_if "vnp_Inv_Customer" (txt_inv_customer r)
  ++ spread_if "vnp_Inv_Address" (txt_inv_addr1 r)
  ++ spread_if "vnp_Inv_Company" (txt_inv_company r)
  ++ spread_if "vnp_Inv_Taxcode" (txt_inv_taxcode r)
  ++ spread_if "vnp_Inv_Type" (cbo_inv_type r)
  ++ spread_if "vnp_BankCode" (bank_code r).

(** The online branch: the signed parameters, the redirect URL and the
    transaction reference. *)
Definition build_redirect (env : Env) (c : Clock) (r : PaymentReq)
    : string * string :=
  let vnpParams := vnpParams_of env c r in
  let vnpParams :=
    obj_set vnpParams "vnp_SecureHash"
      (JStr (createVnpaySignature env vnpParams (VNPAY_HASH_SECRET env) false)) in
  let keys :=
    filter (fun key =>
              not_undefined (obj_get vnpParams key)
              && not_empty (obj_get vnpParams key)
              && not_null (obj_get vnpParams key))
           (canonical_keys ++ ["vnp_SecureHash"%string]) in
  let querystring := signData vnpParams keys in
  (String.append (js_to_string (of_env (VNPAY_URL env)))
     (String.append "?" querystring),
   js_to_string (obj_get vnpParams "vnp_TxnRef")).

(** The rows of an order purged before a new attempt is recorded. *)
Definition purge_stale (oid : Z) (d : DB) : DB :=
  match sql_select (fun p => p_order_id p =? oid) (payments d) with
  | [] => d
  | payment :: _ =>
      match p_status payment with
      | PPending | PFailed | PCancelled =>
          with_payments d
            (sql_delete (fun p => p_order_id p =? oid) (payments d))
            (next_payment d)
      | PCompleted => d
      end
  end.

(** "Tạo vé nếu chưa có": a ticket is issued when the order has none. *)
Definition ensure_ticket (oid : Z) (now : Z) (d : DB) : DB :=
  match sql_select (fun t => t_order_id t =? oid) (tickets d) with
  | [] =>
      insert_ticket oid
        (String.concat "_" ["TICKET"; dec oid; dec now]%string)
        default_is_used d
  | _ :: _ => d
  end.

Definition has_completed_first (oid : Z) (d : DB) : bool :=
  match sql_select (fun p => p_order_id p =? oid) (payments d) with
  | payment :: _ => PaymentStatus_eqb (p_status payment) PCompleted
  | [] => false
  end.

Definition post_payments (env : Env) (c : Clock) (u : User) (r : PaymentReq)
    (d : DB) : Response * DB :=
  if ((order_id r =? 0) || String.eqb (method r) "" || (amount r =? 0))%bool
  then (Reply 400 (BError "order_id, method, and amount are required"), d)
  else if amount r <=? 0
  then (Reply 400 (BError "Amount must be greater than 0"), d)
  else
    match orders_of_user (order_id r) (user_id u) d with
    | [] => (Reply 404 (BError "Order not found or not authorized"), d)
    | _ :: _ =>
        if has_completed_first (order_id r) d
        then (Reply 400 (BError "Payment already completed for this order"), d)
        else
          let d1 := purge_stale (order_id r) d in
          if String.eqb (method r) "cash" then
            let (insertId, d2) :=
              insert_payment (order_id r) Cash (amount r) PPending None d1 in
            let d3 := update_order_status OConfirmed (order_id r) d2 in
            let d4 := ensure_ticket (order_id r) (now_ticket c) d3 in
            (Reply 200 (BPayment insertId (order_id r) (amount r) Cash
                          PPending None None), d4)
          else if String.eqb (method r) "online" then
            let (payment_url, transaction_id) := build_redirect env c r in
            let (insertId, d2) :=
              insert_payment (order_id r) Online (amount r) PPending
                (Some transaction_id) d1 in
            let d4 := ensure_ticket (order_id r) (now_ticket c) d2 in
            (Reply 200 (BPayment insertId (order_id r) (amount r) Online
                          PPending (Some transaction_id) (Some payment_url)),
             d4)
          else (Reply 400 (BError "Invalid payment method"), d1)
    end.

(** *** GET /api/vnpay/return (lines 994-1030) *)

(** [WHERE column = ?] with the second piece of the transaction reference;
    a reference without that piece binds [undefined], sent as NULL, which
    equals no row. *)
Definition ref_matches (env : Env) (order_id : option string) (id : Z) : bool :=
  match order_id with
  | Some s => sql_int_eq_text env id s
  | None => false
  end.

Definition get_vnpay_return (env : Env) (query : jsobj) (d : DB)
    : Response * DB :=
  let secureHash := obj_get query "vnp_SecureHash" in
  let vnpParams :=
    obj_delete (obj_delete query "vnp_SecureHash") "vnp_SecureHashType" in
  let calculatedHash :=
    createVnpaySignature env vnpParams (VNPAY_HASH_SECRET env) true in
  if negb (js_eq_str secureHash calculatedHash)
  then (Reply 400 (BError "Invalid signature"), d)
  else
    match obj_get vnpParams "vnp_TxnRef" with
    | JStr ref =>
        (* vnpParams.vnp_TxnRef.split('_')[1] *)
        let order_id := nth_error (split_on "_" ref) 1 in
        if js_eq_str (obj_get vnpParams "vnp_ResponseCode") "00" then
          let d1 :=
            with_payments d
              (sql_update (fun p => ref_matches env order_id (p_order_id p))
                 (set_p_status PCompleted) (payments d))
              (next_payment d) in
          let d2 :=
            with_orders d1
              (sql_update (fun o => ref_matches env order_id (o_id o))
                 (set_o_status OCompleted) (orders d1))
              (next_order d1) in
          (Redirect "http://localhost:3001/orders?payment=success", d2)
        else
          let d1 :=
            with_payments d
              (sql_update (fun p => ref_matches env order_id (p_order_id p))
                 (set_p_status PCancelled) (payments d))
              (next_payment d) in
          (Redirect "http://localhost:3001/orders?payment=cancelled", d1)
    | _ =>
        (* [split] of a value that is not a string throws *)
        (server_error, d)
    end.

(** *** POST /api/admin/scan-qr (lines 1061-1104) *)

(** SELECT t.*, o.status FROM tickets t JOIN orders o ON t.order_id = o.id
    WHERE t.ticket_code = ? *)
Definition tickets_join_orders (env : Env) (ticket_code : string) (d : DB)
    : list (Ticket * OrderStatus) :=
  flat_map
    (fun t =>
       map (fun o => (t, o_status o))
         (sql_select (fun o => o_id o =? t_order_id t) (orders d)))
    (sql_select (fun t => sql_text_eq env (t_ticket_code t) ticket_code)
       (tickets d)).

Definition already_used : Response :=
  Reply 400 (BMessage "Mã đã qua sử dụng. Vui lòng đặt đơn hàng mới.").

Definition post_admin_scan_qr (env : Env) (u : User) (ticket_code : string)
    (d : DB) : Response * DB :=
  if negb (is_admin u) then (unauthorized, d)
  else if String.eqb ticket_code ""
  then (Reply 400 (BError "Ticket code is required"), d)
  else
    match tickets_join_orders env ticket_code d with
    | [] => (Reply 404 (BError "Ticket not found"), d)
    | (ticket, orderStatus) :: _ =>
        if (t_is_used ticket || OrderStatus_eqb orderStatus OScanned)%bool
        then (already_used, d)
        else
          match orderStatus with
          | OPending =>
              (Reply 400 (BMessage "Đơn hàng của bạn chưa được xác nhận."), d)
          | OConfirmed =>
              (Reply 400
                 (BMessage "Vui lòng thanh toán trước khi nhận đồ ăn."), d)
          | OCompleted =>
              let d1 := update_order_status OScanned (t_order_id ticket) d in
              let d2 :=
                with_tickets d1
                  (sql_update (fun t => t_id t =? t_id ticket)
                     (set_t_is_used true) (tickets d1))
                  (next_ticket d1) in
              (Reply 200
                 (BMessage "Xác nhận thành công, chúc quý khách ngon miệng!"),
               d2)
          | _ => (Reply 400 (BError "Invalid order status"), d)
          end
    end.

(** ** The second server file: POST /api/orders (lines 1410-1461) *)

Module Variant.

Inductive Priced :=
  | BadItem
  | NoFood (food_id : Z)
  | Total (total_price : number).

(** The first loop of this version checks every item before it reads the
    price. *)
Fixpoint price_items (foods : list Food) (items : list Item)
    (total_price : number) : Priced :=
  match items with
  | [] => Total total_price
  | item :: rest =>
      if ((food_id item =? 0) || (quantity item =? 0)
          || (quantity item <=? 0))%bool
      then BadItem
      else
        match sql_select (fun f => f_id f =? food_id item) foods with
        | [] => NoFood (food_id item)
        | f :: _ =>
            price_items foods rest
              (num_add total_price
                 (num_mul (Number (f_price f)) (Number (quantity item))))
        end
  end.

(** The second loop reads the price again for every row it writes;
    [None] is the exception of [foods[0].price] on a missing food. *)
Fixpoint insert_items (order_id : Z) (items : list Item) (d : DB)
    : option DB :=
  match items with
  | [] => Some d
  | item :: rest =>
      match sql_select (fun f => f_id f =? food_id item) (food d) with
      | [] => None
      | f :: _ =>
          insert_items order_id rest
            (insert_order_item order_id (food_id item) (quantity item)
               (f_price f) d)
      end
  end.

Definition post_orders (u : User) (items : list Item) (ticket_code : string)
    (d : DB) : Response * DB :=
  match items with
  | [] =>
      (Reply 400
         (BError "Items are required and must be a non-empty array"), d)
  | _ =>
      match price_items (food d) items (Number 0) with
      | BadItem =>
          (Reply 400
             (BError "Each item must have food_id and quantity > 0"), d)
      | NoFood fid =>
          (Reply 400
             (BError (String.append "Food "
                        (String.append (dec fid) " not found"))), d)
      | Total (Infinity _) | Total NaN => (server_error, d)
      | Total (Finite total_price) =>
          let (insertId, d1) :=
            insert_order (user_id u) total_price OPending d in
          match insert_items insertId items d1 with
          | None => (server_error, d1)
          | Some d2 =>
              let d3 :=
                insert_ticket insertId ticket_code default_is_used d2 in
              (Reply 200 (BOrder insertId total_price OPending ticket_code),
               d3)
          end
      end
  end.

End Variant.

(** ** The server as a transition system *)

Inductive Op :=
  | PostFoods (u : User) (name : string) (price category_id : Z)
  | PutFoods (u : User) (id : Z) (name : string) (price category_id : Z)
  | DeleteFoods (u : User) (id : Z)
  | PostOrders (u : User) (items : list Item) (ticket_code : string)
  | PostTicketsVerify (u : User) (ticket_code : string)
  | PostPaymentsConfirm (u : User) (payment_id : Z)
  | PutAdminOrdersStatus (u : User) (orderId : Z) (status : string)
  | DeleteOrdersCancel (u : User) (orderId : Z)
  | PostPayments (c : Clock) (u : User) (r : PaymentReq)
  | GetVnpayReturn (query : jsobj)
  | PostAdminScanQr (u : User) (ticket_code : string)
  | DeleteOrders (u : User) (orderId : Z).

Definition handle (env : Env) (op : Op) (d : DB) : Response * DB :=
  match op with
  | PostFoods u name price cat => post_foods u name price cat d
  | PutFoods u id name price cat => put_foods u id name price cat d
  | DeleteFoods u id => delete_foods u id d
  | PostOrders u items code => post_orders u items code d
  | PostTicketsVerify u code => post_tickets_verify env u code d
  | PostPaymentsConfirm u pid => post_payments_confirm u pid d
  | PutAdminOrdersStatus u oid status => put_admin_orders_status u oid status d
  | DeleteOrdersCancel u oid => delete_orders_cancel u oid d
  | PostPayments c u r => post_payments env c u r d
  | GetVnpayReturn query => get_vnpay_return env query d
  | PostAdminScanQr u code => post_admin_scan_qr env u code d
  | DeleteOrders u oid => delete_orders u oid d
  end.

(** The stores the main server reaches from the empty one, one request
    after the other. *)
Inductive reachable (env : Env) : DB -> Prop :=
  | reach_empty : reachable env empty_db
  | reach_step d op :
      reachable env d -> reachable env (snd (handle env op d)).

Definition run (env : Env) (ops : list Op) (d : DB) : DB :=
  fold_left (fun d op => snd (handle env op d)) ops d.

(** ** Lookups by order id *)

Definition order_by_id (oid : Z) (d : DB) : list Order :=
  sql_select (fun o => o_id o =? oid) (orders d).

Definition items_by_order (oid : Z) (d : DB) : list OrderItem :=
  sql_select (fun i => oi_order_id i =? oid) (order_items d).

Definition payments_by_order (oid : Z) (d : DB) : list Payment :=
  sql_select (fun p => p_order_id p =? oid) (payments d).

Definition tickets_by_order (oid : Z) (d : DB) : list Ticket :=
  sql_select (fun t => t_order_id t =? oid) (tickets d).

(** ** A concrete platform, for running the handlers on examples

    The signature primitive is replaced by a stand-in that keeps the signed
    string readable; text is compared byte by byte and an id with its
    decimal writing. *)
Definition sample_env : Env :=
  {| hmac_sha512_hex := fun key data =>
       String.append key (String.append ":" data);
     VNPAY_HASH_SECRET := "SECRET";
     VNPAY_RETURN_URL := Some "http://localhost:3000/api/vnpay/return"%string;
     VNPAY_TMN_CODE := Some "TMN00001"%string;
     VNPAY_URL := Some "https://sandbox.vnpayment.vn/paymentv2/vpcpay.html"%string;
     sql_text_eq := String.eqb;
     sql_int_eq_text := fun id s => String.eqb (digits id) s |}.

Definition admin : User := {| user_id := 1; user_role := Admin |}.
Definition alice : User := {| user_id := 2; user_role := Customer |}.

Definition cash_req (oid amt : Z) : PaymentReq :=
  {| order_id := oid; method := "cash"; amount := amt;
     order_desc := None; order_type := None; language := None;
     bank_code := ""; txtexpire := ""; txt_billing_mobile := "";
     txt_billing_email := ""; txt_billing_fullname := "";
     txt_inv_addr1 := ""; txt_bill_city := ""; txt_bill_country := "";
     txt_bill_state := ""; txt_inv_mobile := ""; txt_inv_email := "";
     txt_inv_customer := ""; txt_inv_company := ""; txt_inv_taxcode := "";
     cbo_inv_type := ""; ip := "" |}.

Definition noon : Clock :=
  {| getFullYear := 2025; getMonth := 4; getDate := 9; getHours := 12;
     getMinutes := 0; getSeconds := 7;
     now_txn := 1746792007000; now_ticket := 1746792007003 |}.

(** ** Vocabulary of the statements *)

Definition status_code (r : Response) : Z :=
  match r with
  | Reply code _ => code
  | Redirect _ => 302
  end.

(** The check of GET /api/vnpay/return: the supplied [vnp_SecureHash]
    against the signature recomputed over the other parameters. *)
Definition signature_valid (env : Env) (query : jsobj) : bool :=
  js_eq_str (obj_get query "vnp_SecureHash")
    (createVnpaySignature env
       (obj_delete (obj_delete query "vnp_SecureHash") "vnp_SecureHashType")
       (VNPAY_HASH_SECRET env) true).

(** SELECT price FROM food WHERE id = ?, first row. *)
Definition food_price (d : DB) (fid : Z) : option Z :=
  match sql_select (fun f => f_id f =? fid) (food d) with
  | f :: _ => Some (f_price f)
  | [] => None
  end.

(** Sum over the items of catalog price times quantity. *)
Definition order_total (d : DB) (items : list Item) : Z :=
  fold_right
    (fun it acc =>
       match food_price d (food_id it) with
       | Some price => price * quantity it + acc
       | None => acc
       end)
    0 items.

(** The integers that binary64 holds without a gap: up to 2^53 in
    magnitude. *)
Definition safe_integer (z : Z) : Prop := Z.abs z <= 2 ^ 53.

(** Sum over the items of the magnitude of price times quantity: a bound
    on every line amount and on every running total of the order. *)
Definition order_magnitude (d : DB) (items : list Item) : Z :=
  fold_right
    (fun it acc =>
       match food_price d (food_id it) with
       | Some price => Z.abs (price * quantity it) + acc
       | None => acc
       end)
    0 items.

(** The line a line item stores for an item of the request. *)
Definition line_of (d : DB) (oid : Z) (it : Item) : Z * Z * Z * option Z :=
  (oid, food_id it, quantity it, food_price d (food_id it)).

Definition line_of_row (r : OrderItem) : Z * Z * Z * option Z :=
  (oi_order_id r, oi_food_id r, oi_quantity r, Some (oi_unit_price r)).

Definition is_food_op (op : Op) : bool :=
  match op with
  | PostFoods _ _ _ _ | PutFoods _ _ _ _ _ | DeleteFoods _ _ => true
  | _ => false
  end.





(** The invariants of the reachable stores: keys are unique and below the
    counter of their table, and an order has at most one payment row. *)
Definition keys_ok {A} (key : A -> Z) (t : list A) (next : Z) : Prop :=
  NoDup (map key t) /\ forall r, In r t -> key r < next.

Definition one_payment_per_order (t : list Payment) : Prop :=
  forall oid : Z,
    (List.length (filter (fun p => Z.eqb (p_order_id p) oid) t) <= 1)%nat.

Definition Inv (d : DB) : Prop :=
  keys_ok t_id (tickets d) (next_ticket d)
  /\ keys_ok o_id (orders d) (next_order d)
  /\ one_payment_per_order (payments d).

(** *** The serialization of the signed string, in the words of the
    specification

    Nothing below uses the definitions of the adapter but the canonical
    list of the outbound fields, which the specification names and does
    not spell out. *)














(** The row of a scan after a successful redemption of ticket [tid] of
    order [oid]. *)
Definition scan_row (oid tid : Z) (r : Ticket * OrderStatus)
    : Ticket * OrderStatus :=
  (if t_id (fst r) =? tid then set_t_is_used true (fst r) else fst r,
   if t_order_id (fst r) =? oid then OScanned else snd r).

(** ** Sample runs *)

(** A dish, an order of two of it by alice, paid in cash at the counter:
    the payment is confirmed by the admin, the order is still at
    [confirmed]. *)
Definition cash_paid_ops : list Op :=
  [ PostFoods admin "pho" 50000 1;
    PostOrders alice [{| food_id := 1; quantity := 2 |}] "ab12";
    PostPayments noon alice (cash_req 1 100000);
    PostPaymentsConfirm admin 1 ].

Definition cash_paid_db : DB := run sample_env cash_paid_ops empty_db.

(** An order that the admin moved to [completed] and that was picked up,
    with no payment on record. *)
Definition picked_up_ops : list Op :=
  [ PostFoods admin "pho" 50000 1;
    PostOrders alice [{| food_id := 1; quantity := 2 |}] "ab12";
    PutAdminOrdersStatus admin 1 "completed";
    PostAdminScanQr admin "ab12" ].

Definition picked_up_db : DB := run sample_env picked_up_ops empty_db.

(** An order with an online payment under way. *)
Definition online_req (oid amt : Z) : PaymentReq :=
  {| order_id := oid; method := "online"; amount := amt;
     order_desc := None; order_type := None; language := None;
     bank_code := "NCB"; txtexpire := ""; txt_billing_mobile := "";
     txt_billing_email := ""; txt_billing_fullname := "";
     txt_inv_addr1 := ""; txt_bill_city := ""; txt_bill_country := "";
     txt_bill_state := ""; txt_inv_mobile := ""; txt_inv_email := "";
     txt_inv_customer := ""; txt_inv_company := ""; txt_inv_taxcode := "";
     cbo_inv_type := ""; ip := "" |}.

Definition online_pending_ops : list Op :=
  [ PostFoods admin "pho" 50000 1;
    PostOrders alice [{| food_id := 1; quantity := 2 |}] "ab12";
    PostPayments noon alice (online_req 1 100000) ].

Definition online_pending_db : DB :=
  run sample_env online_pending_ops empty_db.

(** What the gateway sends back: the parameters and their signature. *)
Definition gateway_callback (env : Env) (params : jsobj) : jsobj :=
  params
  ++ [("vnp_SecureHash"%string,
       JStr (createVnpaySignature env params (VNPAY_HASH_SECRET env) true))].

Definition callback_params (code : string) : jsobj :=
  [ ("vnp_TxnRef", JStr "ORDER_1_1746792007000");
    ("vnp_Amount", JStr "10000000");
    ("vnp_ResponseCode", JStr code);
    ("vnp_BankCode", JStr "NCB") ]%string.

(** The same callback with the amount altered after signing. *)
Definition tampered_callback : jsobj :=
  obj_set (gateway_callback sample_env (callback_params "00"))
    "vnp_Amount" (JStr "1").

(** The success callback with its response code altered after signing
    from the string [00] to the array [['00']], as the query parser builds
    it out of [vnp_ResponseCode[]=00]: the text of the value is the
    same. *)
Definition retyped_callback (env : Env) : jsobj :=
  obj_set (gateway_callback env (callback_params "00"))
    "vnp_ResponseCode" (JOther "00").

(** The same order, moved to [completed] by the admin and not yet picked
    up. *)
Definition ready_ops : list Op :=
  [ PostFoods admin "pho" 50000 1;
    PostOrders alice [{| food_id := 1; quantity := 2 |}] "ab12";
    PutAdminOrdersStatus admin 1 "completed" ].

Definition ready_db : DB := run sample_env ready_ops empty_db.

(** The menu alone, and the order on it. *)
Definition menu_db : DB :=
  run sample_env [PostFoods admin "pho" 50000 1] empty_db.

Definition pending_db : DB :=
  run sample_env
    [ PostFoods admin "pho" 50000 1;
      PostOrders alice [{| food_id := 1; quantity := 2 |}] "ab12" ]
    empty_db.

(** A menu and an order whose exact total leaves the range of the safe
    integers: 2147483647 portions at 2147483647. *)
Definition dear_menu_db : DB :=
  run sample_env [PostFoods admin "pho" 2147483647 1] empty_db.

Definition dear_items : list Item :=
  [{| food_id := 1; quantity := 2147483647 |}].



Definition ticket_ab12 (used : bool) : Ticket :=
  {| t_id := 1; t_order_id := 1; t_ticket_code := "ab12"; t_is_used := used |}.

Definition order_1 (s : OrderStatus) : Order :=
  {| o_id := 1; o_user_id := 2; o_total_price := 100000; o_status := s |}.

(** The five ways a request changes the tickets. *)
Inductive tickets_effect (env : Env) (d : DB) (op : Op) (d' : DB) : Prop :=
  | te_same : tickets d' = tickets d -> tickets_effect env d op d'
  | te_insert r :
      tickets d' = tickets d ++ [r] -> t_id r = next_ticket d ->
      t_is_used r = false -> tickets_effect env d op d'
  | te_delete p :
      tickets d' = sql_delete p (tickets d) -> tickets_effect env d op d'
  | te_scan u code ticket o :
      op = PostAdminScanQr u code ->
      tickets d'
      = sql_update (fun t => t_id t =? t_id ticket) (set_t_is_used true)
          (tickets d) ->
      In ticket (tickets d) -> In o (orders d) ->
      o_id o = t_order_id ticket -> o_status o = OCompleted ->
      tickets_effect env d op d'
  | te_verify u code t0 p :
      op = PostTicketsVerify u code ->
      tickets d'
      = sql_update (fun t => sql_text_eq env (t_ticket_code t) code)
          (set_t_is_used true) (tickets d) ->
      In t0 (tickets d) -> t_is_used t0 = false ->
      sql_text_eq env (t_ticket_code t0) code = true ->
      In p (payments d) -> p_order_id p = t_order_id t0 ->
      p_status p = PCompleted ->
      tickets_effect env d op d'.

(** * Further vocabulary *)

(** ** Consistency of the tables *)

Definition order_exists (oid : Z) (d : DB) : Prop :=
  exists o, In o (orders d) /\ o_id o = oid.

(** The line items summed the way the handler sums the items of a
    request: one after the other, in binary64. *)
Definition lines_total (start : number) (l : list OrderItem) : number :=
  fold_left
    (fun acc i =>
       num_add acc (num_mul (Number (oi_unit_price i))
                      (Number (oi_quantity i))))
    l start.

Definition items_total (oid : Z) (d : DB) : number :=
  lines_total (Number 0) (items_by_order oid d).

(** Every ticket, payment and line item belongs to an order of the store;
    every order has one ticket, and the total its line items add up to. *)
Definition Consistent (d : DB) : Prop :=
  (forall t, In t (tickets d) -> order_exists (t_order_id t) d)
  /\ (forall p, In p (payments d) -> order_exists (p_order_id p) d)
  /\ (forall i, In i (order_items d) -> order_exists (oi_order_id i) d)
  /\ (forall o, In o (orders d) -> exists t, tickets_by_order (o_id o) d = [t])
  /\ (forall o, In o (orders d) ->
        items_total (o_id o) d = Finite (o_total_price o)).

Definition priced_sum (start : number) (l : list PricedItem) : number :=
  fold_left
    (fun acc it =>
       num_add acc (num_mul (Number (pi_unit_price it))
                      (Number (quantity (pi_item it)))))
    l start.

(** The keys of the three other tables. *)
Definition Keys (d : DB) : Prop :=
  keys_ok f_id (food d) (next_food d)
  /\ keys_ok p_payment_id (payments d) (next_payment d)
  /\ keys_ok oi_id (order_items d) (next_item d).

(** ** Who may call what *)

(** The caller of a request to a route that is for the admin only. *)
Definition admin_route (op : Op) : option User :=
  match op with
  | PostFoods u _ _ _ | PutFoods u _ _ _ _ | DeleteFoods u _
  | PostTicketsVerify u _ | PostPaymentsConfirm u _
  | PutAdminOrdersStatus u _ _ | PostAdminScanQr u _ => Some u
  | _ => None
  end.

(** The caller and the order of a request to a route that looks the order
    up by its id and its owner. *)
Definition owner_route (op : Op) : option (User * Z) :=
  match op with
  | DeleteOrdersCancel u orderId | DeleteOrders u orderId => Some (u, orderId)
  | PostPayments _ u r => Some (u, order_id r)
  | _ => None
  end.

Definition not_found_or_not_authorized : Response :=
  Reply 404 (BError "Order not found or not authorized").

(** ** Texts *)

Definition is_digit (c : ascii) : bool :=
  let n := nat_of_ascii c in ((48 <=? n) && (n <=? 57))%nat.

(** A text of [n] decimal digits. *)
Definition n_digits (n : nat) (s : string) : bool :=
  Nat.eqb (String.length s) n && forallb is_digit (list_ascii_of_string s).

Definition has_space (s : string) : bool :=
  existsb (Ascii.eqb " ") (list_ascii_of_string s).

(** ** More sample data *)

Definition bob : User := {| user_id := 3; user_role := Customer |}.

(** The integers from [start] on, [n] of them. *)
Fixpoint zrange (start : Z) (n : nat) : list Z :=
  match n with
  | O => []
  | S n' => start :: zrange (start + 1) n'
  end.

(** An order with a cash payment that the admin has not confirmed yet. *)
Definition cash_pending_db : DB :=
  run sample_env
    [ PostFoods admin "pho" 50000 1;
      PostOrders alice [{| food_id := 1; quantity := 2 |}] "ab12";
      PostPayments noon alice (cash_req 1 100000) ]
    empty_db.

Definition online_payment_1 (s : PaymentStatus) : Payment :=
  {| p_payment_id := 1; p_order_id := 1; p_method := Online;
     p_amount := 100000; p_status := s;
     p_transaction_id := Some "ORDER_1_1746792007000"%string |}.

(** A callback with a valid signature and no transaction reference. *)
Definition callback_without_reference : jsobj :=
  gateway_callback sample_env [("vnp_ResponseCode"%string, JStr "00")].

(** * Properties *)

Create HintDb inv.

Ltac db_simpl :=
  cbn [food orders order_items payments tickets next_food next_order
       next_item next_payment next_ticket with_food with_orders
       with_order_items with_payments with_tickets update_order_status
       insert_order insert_order_item insert_ticket insert_payment
       fst snd] in *.

(** ** Lists and tables *)

Lemma filter_map_comm {A B} (p : B -> bool) (g : A -> B) (l : list A) :
  filter p (map g l) = map g (filter (fun x => p (g x)) l).
Proof.
  induction l as [|a l IH]; simpl; [reflexivity|].
  destruct (p (g a)); simpl; now rewrite IH.
Qed.

Lemma flat_map_map_comm {A B C} (f : B -> list C) (g : A -> B) (l : list A) :
  flat_map f (map g l) = flat_map (fun x => f (g x)) l.
Proof.
  induction l as [|a l IH]; simpl; [reflexivity|]. now rewrite IH.
Qed.

Lemma map_flat_map {A B C} (h : B -> C) (f : A -> list B) (l : list A) :
  map h (flat_map f l) = flat_map (fun x => map h (f x)) l.
Proof.
  induction l as [|a l IH]; simpl; [reflexivity|].
  now rewrite map_app, IH.
Qed.

Lemma flat_map_ext_in {A B} (f g : A -> list B) (l : list A) :
  (forall x, In x l -> f x = g x) -> flat_map f l = flat_map g l.
Proof.
  induction l as [|a l IH]; simpl; intros H; [reflexivity|].
  rewrite (H a) by now left. rewrite IH; [reflexivity|].
  intros x Hx. apply H. now right.
Qed.

(** ** Redemption *)

Lemma join_after_scan env code d oid tid :
  let d1 := update_order_status OScanned oid d in
  tickets_join_orders env code
    (with_tickets d1
       (sql_update (fun t => t_id t =? tid) (set_t_is_used true) (tickets d1))
       (next_ticket d1))
  = map (scan_row oid tid) (tickets_join_orders env code d).
Proof.
  unfold tickets_join_orders, update_order_status, sql_update, sql_select.
  cbn [tickets orders with_tickets with_orders].
  rewrite filter_map_comm, flat_map_map_comm, map_flat_map.
  erewrite filter_ext.
  - apply flat_map_ext_in. intros t _.
    rewrite filter_map_comm, !map_map.
    erewrite filter_ext.
    + apply map_ext_in. intros o Ho. apply filter_In in Ho.
      destruct Ho as [_ Ho]. apply Z.eqb_eq in Ho.
      unfold scan_row. cbn [fst snd]. rewrite <- Ho.
      destruct (o_id o =? oid); reflexivity.
    + intros o. cbn beta.
      destruct (t_id t =? tid), (o_id o =? oid); reflexivity.
  - intros t. cbn beta. destruct (t_id t =? tid); reflexivity.
Qed.

(** Claim C1.  When a scan of a ticket code succeeds, the next scan of the
    same code, by any admin, is refused with the "already used" message
    and leaves the whole store, the order and the ticket in it, as the
    first scan left it. *)
Theorem scan_twice env u u' code d :
  status_code (fst (post_admin_scan_qr env u code d)) = 200 ->
  is_admin u' = true ->
  post_admin_scan_qr env u' code (snd (post_admin_scan_qr env u code d))
  = (already_used, snd (post_admin_scan_qr env u code d)).
Proof.
  unfold post_admin_scan_qr at 1 3 4.
  destruct (negb (is_admin u)) eqn:Hadm; [discriminate|].
  destruct (String.eqb code "") eqn:Hcode; [discriminate|].
  destruct (tickets_join_orders env code d) as [|[ticket st] rows] eqn:Hrows;
    [discriminate|].
  destruct (t_is_used ticket || OrderStatus_eqb st OScanned)%bool eqn:Hused;
    [discriminate|].
  destruct st; try discriminate. intros _ Hadm'. cbn [snd].
  unfold post_admin_scan_qr. rewrite Hadm', Hcode. cbn [negb].
  rewrite join_after_scan, Hrows. cbn [map scan_row fst snd].
  rewrite Z.eqb_refl. reflexivity.
Qed.

(** ** Invariants of the reachable stores *)

Lemma map_update_key {A} (key : A -> Z) p f (t : list A) :
  (forall r, key (f r) = key r) ->
  map key (sql_update p f t) = map key t.
Proof.
  intros Hk. unfold sql_update. rewrite map_map. apply map_ext.
  intros r. destruct (p r); auto.
Qed.

Lemma NoDup_map_filter {A} (key : A -> Z) p (t : list A) :
  NoDup (map key t) -> NoDup (map key (filter p t)).
Proof.
  induction t as [|a t IH]; simpl; intros H; [constructor|].
  inversion H as [|x l Hnin Hnd]; subst.
  destruct (p a); simpl; auto.
  constructor; auto. intros Hin. apply Hnin.
  apply in_map_iff in Hin. destruct Hin as [r [Hr Hin]].
  apply filter_In in Hin. apply in_map_iff. exists r. tauto.
Qed.

Lemma keys_ok_update {A} (key : A -> Z) p f (t : list A) n :
  (forall r, key (f r) = key r) ->
  keys_ok key t n -> keys_ok key (sql_update p f t) n.
Proof.
  intros Hk [Hnd Hlt]. split.
  - now rewrite map_update_key.
  - intros r Hr. unfold sql_update in Hr. apply in_map_iff in Hr.
    destruct Hr as [r0 [<- Hr0]]. specialize (Hlt r0 Hr0).
    destruct (p r0); [rewrite Hk|]; assumption.
Qed.

Lemma keys_ok_delete {A} (key : A -> Z) p (t : list A) n :
  keys_ok key t n -> keys_ok key (sql_delete p t) n.
Proof.
  intros [Hnd Hlt]. split.
  - now apply NoDup_map_filter.
  - intros r Hr. apply filter_In in Hr. apply Hlt. tauto.
Qed.

Lemma keys_ok_insert {A} (key : A -> Z) (t : list A) r n :
  key r = n -> keys_ok key t n -> keys_ok key (t ++ [r]) (n + 1).
Proof.
  intros Hr [Hnd Hlt]. split.
  - rewrite map_app. simpl. apply NoDup_app; auto.
    + constructor; [intros []|constructor].
    + intros k Hk [<-|[]]. apply in_map_iff in Hk.
      destruct Hk as [r0 [Hk Hin]]. specialize (Hlt r0 Hin). lia.
  - intros r0 Hin. apply in_app_or in Hin. destruct Hin as [Hin|[<-|[]]].
    + specialize (Hlt r0 Hin). lia.
    + lia.
Qed.

Lemma keys_ok_unique {A} (key : A -> Z) (t : list A) n a b :
  keys_ok key t n -> In a t -> In b t -> key a = key b -> a = b.
Proof.
  intros [Hnd _]. induction t as [|x t IH]; simpl; [tauto|].
  inversion Hnd as [|y l Hnin Hnd']; subst.
  intros [->|Ha] [->|Hb] Hk; auto.
  - exfalso. apply Hnin. rewrite Hk. now apply in_map.
  - exfalso. apply Hnin. rewrite <- Hk. now apply in_map.
Qed.

Lemma one_payment_update p s t :
  one_payment_per_order t ->
  one_payment_per_order (sql_update p (set_p_status s) t).
Proof.
  intros H oid. specialize (H oid). unfold sql_update.
  rewrite filter_map_comm, length_map.
  erewrite filter_ext; [exact H|].
  intros r. cbn beta. destruct (p r); reflexivity.
Qed.

Lemma filter_filter_le {A} (p q : A -> bool) (t : list A) :
  (List.length (filter p (filter q t)) <= List.length (filter p t))%nat.
Proof.
  induction t as [|a t IH]; simpl; [lia|].
  destruct (q a); simpl; destruct (p a); simpl; lia.
Qed.

Lemma one_payment_delete p t :
  one_payment_per_order t -> one_payment_per_order (sql_delete p t).
Proof.
  intros H oid. specialize (H oid). unfold sql_delete.
  pose proof (filter_filter_le (fun p0 => p_order_id p0 =? oid)
                (fun r => negb (p r)) t). lia.
Qed.

Lemma one_payment_insert t r :
  one_payment_per_order t ->
  filter (fun p => p_order_id p =? p_order_id r) t = [] ->
  one_payment_per_order (t ++ [r]).
Proof.
  intros H Hnone oid. rewrite filter_app, length_app. simpl.
  destruct (p_order_id r =? oid) eqn:E; simpl.
  - apply Z.eqb_eq in E. subst oid. rewrite Hnone. simpl. lia.
  - specialize (H oid). lia.
Qed.

Lemma insert_items_frame oid l d :
  let d' := insert_items oid l d in
  food d' = food d /\ orders d' = orders d /\ payments d' = payments d
  /\ tickets d' = tickets d /\ next_order d' = next_order d
  /\ next_payment d' = next_payment d /\ next_ticket d' = next_ticket d
  /\ next_food d' = next_food d.
Proof.
  unfold insert_items. revert d.
  induction l as [|it l IH]; intros d; simpl; [tauto|].
  specialize (IH (insert_order_item oid (food_id (pi_item it))
                    (quantity (pi_item it)) (pi_unit_price it) d)).
  db_simpl. exact IH.
Qed.

Lemma Inv_frame d d' :
  tickets d' = tickets d -> next_ticket d' = next_ticket d ->
  orders d' = orders d -> next_order d' = next_order d ->
  payments d' = payments d ->
  Inv d -> Inv d'.
Proof.
  unfold Inv. intros -> -> -> -> ->. tauto.
Qed.

Lemma Inv_update_order_status s oid d :
  Inv d -> Inv (update_order_status s oid d).
Proof.
  unfold Inv. db_simpl. intros (Ht & Ho & Hp).
  split; [|split]; auto. apply keys_ok_update; auto.
Qed.

Lemma Inv_orders_update p s d :
  Inv d ->
  Inv (with_orders d (sql_update p (set_o_status s) (orders d))
         (next_order d)).
Proof.
  unfold Inv. db_simpl. intros (Ht & Ho & Hp).
  split; [|split]; auto. apply keys_ok_update; auto.
Qed.

Lemma Inv_tickets_update p b d :
  Inv d ->
  Inv (with_tickets d (sql_update p (set_t_is_used b) (tickets d))
         (next_ticket d)).
Proof.
  unfold Inv. db_simpl. intros (Ht & Ho & Hp).
  split; [|split]; auto. apply keys_ok_update; auto.
Qed.

Lemma Inv_tickets_delete p d :
  Inv d -> Inv (with_tickets d (sql_delete p (tickets d)) (next_ticket d)).
Proof.
  unfold Inv. db_simpl. intros (Ht & Ho & Hp).
  split; [|split]; auto. apply keys_ok_delete; auto.
Qed.

Lemma Inv_orders_delete p d :
  Inv d -> Inv (with_orders d (sql_delete p (orders d)) (next_order d)).
Proof.
  unfold Inv. db_simpl. intros (Ht & Ho & Hp).
  split; [|split]; auto. apply keys_ok_delete; auto.
Qed.

Lemma Inv_payments_delete p d :
  Inv d -> Inv (with_payments d (sql_delete p (payments d)) (next_payment d)).
Proof.
  unfold Inv. db_simpl. intros (Ht & Ho & Hp).
  split; [|split]; auto. apply one_payment_delete; auto.
Qed.

Lemma Inv_payments_update p s d :
  Inv d ->
  Inv (with_payments d (sql_update p (set_p_status s) (payments d))
         (next_payment d)).
Proof.
  unfold Inv. db_simpl. intros (Ht & Ho & Hp).
  split; [|split]; auto. apply one_payment_update; auto.
Qed.

Lemma Inv_with_order_items l n d : Inv d -> Inv (with_order_items d l n).
Proof. apply Inv_frame; reflexivity. Qed.

Lemma Inv_with_food l n d : Inv d -> Inv (with_food d l n).
Proof. apply Inv_frame; reflexivity. Qed.

Lemma Inv_insert_order uid total s d :
  Inv d -> Inv (snd (insert_order uid total s d)).
Proof.
  unfold Inv. db_simpl. intros (Ht & Ho & Hp).
  split; [|split]; auto. apply keys_ok_insert; auto.
Qed.

Lemma Inv_insert_ticket oid code b d :
  Inv d -> Inv (insert_ticket oid code b d).
Proof.
  unfold Inv. db_simpl. intros (Ht & Ho & Hp).
  split; [|split]; auto. apply keys_ok_insert; auto.
Qed.

Lemma Inv_insert_items oid l d : Inv d -> Inv (insert_items oid l d).
Proof.
  destruct (insert_items_frame oid l d) as (_ & Ho & Hp & Ht & Hno & _ & Hnt & _).
  now apply Inv_frame.
Qed.

Lemma Inv_insert_payment oid m a s txn d :
  Inv d -> payments_by_order oid d = [] ->
  Inv (snd (insert_payment oid m a s txn d)).
Proof.
  unfold Inv, payments_by_order, sql_select. db_simpl.
  intros (Ht & Ho & Hp) Hnone.
  split; [|split]; auto. apply one_payment_insert; auto.
Qed.

Lemma Inv_ensure_ticket oid now d : Inv d -> Inv (ensure_ticket oid now d).
Proof.
  unfold ensure_ticket. intros H.
  destruct (sql_select _ _); auto using Inv_insert_ticket.
Qed.

Lemma Inv_purge_stale oid d : Inv d -> Inv (purge_stale oid d).
Proof.
  unfold purge_stale. intros H.
  destruct (sql_select _ _) as [|p l]; auto.
  destruct (p_status p); auto using Inv_payments_delete.
Qed.

Lemma filter_delete_same {A} (p : A -> bool) (t : list A) :
  filter p (sql_delete p t) = [].
Proof.
  unfold sql_delete. induction t as [|a t IH]; simpl; [reflexivity|].
  destruct (p a) eqn:E; simpl; [assumption|]. now rewrite E.
Qed.

(** Once the first row of an order is not a completed payment, the purge
    leaves the order without payment rows. *)
Lemma purge_stale_none oid d :
  has_completed_first oid d = false ->
  payments_by_order oid (purge_stale oid d) = [].
Proof.
  unfold has_completed_first, purge_stale, payments_by_order.
  destruct (sql_select _ (payments d)) as [|p l] eqn:E; [intros _; exact E|].
  destruct (p_status p); try discriminate; intros _; db_simpl;
    apply filter_delete_same.
Qed.

#[local] Hint Resolve Inv_update_order_status Inv_orders_update
  Inv_tickets_update
  Inv_tickets_delete Inv_orders_delete Inv_payments_delete
  Inv_payments_update Inv_with_order_items Inv_with_food Inv_insert_order
  Inv_insert_ticket Inv_insert_items Inv_insert_payment Inv_ensure_ticket
  Inv_purge_stale : inv.

Lemma Inv_empty : Inv empty_db.
Proof.
  unfold Inv, keys_ok, one_payment_per_order. simpl.
  repeat split; try constructor; try tauto; lia.
Qed.

Lemma Inv_post_payments env c u r d :
  Inv d -> Inv (snd (post_payments env c u r d)).
Proof.
  intros H. unfold post_payments.
  destruct (_ || _ || _)%bool; auto.
  destruct (amount r <=? 0); auto.
  destruct (orders_of_user _ _ _); auto.
  destruct (has_completed_first _ _) eqn:Hc; auto.
  apply purge_stale_none in Hc.
  destruct (String.eqb (method r) "cash").
  - cbn [snd]. apply Inv_ensure_ticket, Inv_update_order_status.
    apply (Inv_insert_payment (order_id r) Cash (amount r) PPending None);
      auto with inv.
  - destruct (String.eqb (method r) "online"); cbn [snd]; auto with inv.
    destruct (build_redirect env c r) as [url txn]. cbn [snd].
    apply Inv_ensure_ticket.
    apply (Inv_insert_payment (order_id r) Online (amount r) PPending
             (Some txn)); auto with inv.
Qed.

Lemma Inv_handle env op d : Inv d -> Inv (snd (handle env op d)).
Proof.
  intros H. destruct op; cbn [handle].
  - unfold post_foods.
    destruct (negb _); auto. destruct (_ || _ || _)%bool; cbn [snd]; auto with inv.
  - unfold put_foods.
    destruct (negb _); auto. destruct (_ || _ || _)%bool; auto.
    destruct (Nat.eqb _ _); cbn [snd]; auto with inv.
  - unfold delete_foods.
    destruct (negb _); auto.
    destruct (Nat.eqb _ _); cbn [snd]; auto with inv.
  - unfold post_orders. destruct items; auto.
    destruct (price_items _ _ _ _) as [fid|[[total| |] priced]]; auto.
    cbn [snd]. apply Inv_insert_ticket, Inv_insert_items.
    apply (Inv_insert_order (user_id u) total OPending); auto.
  - unfold post_tickets_verify.
    destruct (negb _); auto. destruct (String.eqb _ _); auto.
    destruct (tickets_join_payments _ _ _ _) as [|[t ps] l]; auto.
    destruct (negb _); cbn [snd]; auto with inv.
  - unfold post_payments_confirm.
    destruct (negb _); auto. destruct (payment_id =? 0); auto.
    destruct (sql_select _ _) as [|p l]; auto.
    destruct (PaymentStatus_eqb _ _); cbn [snd]; auto with inv.
  - unfold put_admin_orders_status.
    destruct (negb _); auto. destruct (admin_status _); auto.
    destruct (sql_select _ _); cbn [snd]; auto with inv.
  - unfold delete_orders_cancel.
    destruct (orders_of_user _ _ _) as [|o l]; auto.
    destruct (negb _); cbn [snd]; auto.
    apply Inv_orders_delete.
    apply (Inv_payments_delete (fun p => p_order_id p =? orderId)).
    apply Inv_with_order_items.
    apply (Inv_tickets_delete (fun t => t_order_id t =? orderId)). auto.
  - now apply Inv_post_payments.
  - unfold get_vnpay_return.
    destruct (negb _); auto.
    destruct (obj_get _ _); auto.
    destruct (js_eq_str _ _); cbn [snd]; auto with inv.
  - unfold post_admin_scan_qr.
    destruct (negb _); auto. destruct (String.eqb _ _); auto.
    destruct (tickets_join_orders _ _ _) as [|[t st] l]; auto.
    destruct (_ || _)%bool; auto.
    destruct st; cbn [snd]; auto.
    apply (Inv_tickets_update (fun t0 => t_id t0 =? t_id t)). auto with inv.
  - unfold delete_orders.
    destruct (orders_of_user _ _ _); cbn [snd]; auto with inv.
Qed.

Lemma reachable_Inv env d : reachable env d -> Inv d.
Proof.
  induction 1; auto using Inv_empty, Inv_handle.
Qed.

Lemma reachable_run env ops d :
  reachable env d -> reachable env (run env ops d).
Proof.
  unfold run. revert d.
  induction ops as [|op ops IH]; intros d H; simpl; auto.
  apply IH. now constructor.
Qed.

(** ** Tickets: what a request does to the table *)

Lemma join_orders_head env code d t st l :
  tickets_join_orders env code d = (t, st) :: l ->
  In t (tickets d)
  /\ sql_text_eq env (t_ticket_code t) code = true
  /\ exists o, In o (orders d) /\ o_id o = t_order_id t /\ o_status o = st.
Proof.
  intros H.
  assert (Hin : In (t, st) (tickets_join_orders env code d))
    by (rewrite H; now left).
  unfold tickets_join_orders, sql_select in Hin.
  apply in_flat_map in Hin. destruct Hin as [t0 [Ht0 Hin]].
  apply filter_In in Ht0. destruct Ht0 as [Ht0 Hcode].
  apply in_map_iff in Hin. destruct Hin as [o [Heq Ho]].
  inversion Heq; subst. apply filter_In in Ho. destruct Ho as [Ho Hid].
  apply Z.eqb_eq in Hid. eauto 6.
Qed.

Lemma join_payments_head env code d t ps l :
  tickets_join_payments env code false d = (t, ps) :: l ->
  In t (tickets d)
  /\ sql_text_eq env (t_ticket_code t) code = true
  /\ t_is_used t = false
  /\ exists p, In p (payments d) /\ p_order_id p = t_order_id t
               /\ p_status p = ps.
Proof.
  intros H.
  assert (Hin : In (t, ps) (tickets_join_payments env code false d))
    by (rewrite H; now left).
  unfold tickets_join_payments, sql_select in Hin.
  apply in_flat_map in Hin. destruct Hin as [t0 [Ht0 Hin]].
  apply filter_In in Ht0. destruct Ht0 as [Ht0 Hcode].
  apply andb_true_iff in Hcode. destruct Hcode as [Hcode Hused].
  apply in_map_iff in Hin. destruct Hin as [p [Heq Hp]].
  inversion Heq; subst. apply filter_In in Hp. destruct Hp as [Hp Hid].
  apply Z.eqb_eq in Hid.
  destruct (t_is_used t) eqn:E; [discriminate|]. eauto 8.
Qed.

Lemma PaymentStatus_eqb_eq a b : PaymentStatus_eqb a b = true <-> a = b.
Proof. destruct a, b; simpl; split; congruence. Qed.

Lemma handle_tickets_effect env op d :
  tickets_effect env d op (snd (handle env op d)).
Proof.
  destruct op; cbn [handle].
  - unfold post_foods. destruct (negb _); [now apply te_same|].
    destruct (_ || _ || _)%bool; now apply te_same.
  - unfold put_foods. destruct (negb _); [now apply te_same|].
    destruct (_ || _ || _)%bool; [now apply te_same|].
    destruct (Nat.eqb _ _); now apply te_same.
  - unfold delete_foods. destruct (negb _); [now apply te_same|].
    destruct (Nat.eqb _ _); now apply te_same.
  - unfold post_orders. destruct items; [now apply te_same|].
    destruct (price_items _ _ _ _) as [fid|[[total| |] priced]];
      try now apply te_same.
    cbn [snd insert_order fst].
    match goal with |- context [insert_items ?o ?l ?d0] =>
      destruct (insert_items_frame o l d0) as (_ & _ & _ & Ht & _ & _ & Hn & _)
    end.
    eapply te_insert; db_simpl; [rewrite Ht; reflexivity| |reflexivity].
    cbn [t_id]. rewrite Hn. reflexivity.
  - unfold post_tickets_verify. destruct (negb _); [now apply te_same|].
    destruct (String.eqb _ _); [now apply te_same|].
    destruct (tickets_join_payments _ _ _ _) as [|[t ps] l] eqn:Hj;
      [now apply te_same|].
    destruct (negb _) eqn:Hps; [now apply te_same|].
    apply negb_false_iff, PaymentStatus_eqb_eq in Hps. subst ps.
    apply join_payments_head in Hj.
    destruct Hj as (Hin & Hcode & Hused & p & Hp & Hpo & Hpst).
    eapply te_verify; eauto.
  - unfold post_payments_confirm. destruct (negb _); [now apply te_same|].
    destruct (payment_id =? 0); [now apply te_same|].
    destruct (sql_select _ _); [now apply te_same|].
    destruct (PaymentStatus_eqb _ _); now apply te_same.
  - unfold put_admin_orders_status. destruct (negb _); [now apply te_same|].
    destruct (admin_status _); [|now apply te_same].
    destruct (sql_select _ _); now apply te_same.
  - unfold delete_orders_cancel.
    destruct (orders_of_user _ _ _); [now apply te_same|].
    destruct (negb _); [now apply te_same|].
    eapply te_delete. reflexivity.
  - unfold post_payments.
    destruct (_ || _ || _)%bool; [now apply te_same|].
    destruct (amount r <=? 0); [now apply te_same|].
    destruct (orders_of_user _ _ _); [now apply te_same|].
    destruct (has_completed_first _ _); [now apply te_same|].
    assert (Hp : tickets (purge_stale (order_id r) d) = tickets d
                 /\ next_ticket (purge_stale (order_id r) d) = next_ticket d).
    { unfold purge_stale. destruct (sql_select _ _) as [|p0 l0]; [tauto|].
      destruct (p_status p0); tauto. }
    destruct Hp as [Hp Hn].
    destruct (String.eqb (method r) "cash");
      [|destruct (String.eqb (method r) "online");
        [destruct (build_redirect env c r) as [url txn]|]];
      cbn [snd insert_payment fst]; try (apply te_same; assumption);
      unfold ensure_ticket; db_simpl;
      destruct (sql_select _ _);
      try (apply te_same; db_simpl; assumption);
      (eapply te_insert; db_simpl; [rewrite Hp; reflexivity| |reflexivity]);
      cbn [t_id]; assumption.
  - unfold get_vnpay_return. destruct (negb _); [now apply te_same|].
    destruct (obj_get _ _); try now apply te_same.
    destruct (js_eq_str _ _); now apply te_same.
  - unfold post_admin_scan_qr. destruct (negb _); [now apply te_same|].
    destruct (String.eqb _ _); [now apply te_same|].
    destruct (tickets_join_orders _ _ _) as [|[t st] l] eqn:Hj;
      [now apply te_same|].
    destruct (_ || _)%bool; [now apply te_same|].
    apply join_orders_head in Hj.
    destruct Hj as (Hin & Hcode & o & Ho & Hoid & Hst).
    destruct st; try now apply te_same.
    eapply te_scan with (ticket := t) (o := o); eauto.
  - unfold delete_orders.
    destruct (orders_of_user _ _ _); now apply te_same.
Qed.

Lemma filter_key_none {A} (key : A -> Z) (t : list A) k :
  ~ In k (map key t) -> filter (fun r => key r =? k) t = [].
Proof.
  induction t as [|x t IH]; simpl; intros H; [reflexivity|].
  destruct (key x =? k) eqn:E.
  - exfalso. apply H. left. now apply Z.eqb_eq.
  - apply IH. tauto.
Qed.

Lemma filter_key_singleton {A} (key : A -> Z) (t : list A) n a :
  keys_ok key t n -> In a t -> filter (fun r => key r =? key a) t = [a].
Proof.
  intros [Hnd _]. induction t as [|x t IH]; simpl; [tauto|].
  inversion Hnd as [|y l Hnin Hnd']; subst.
  intros [->|Ha].
  - rewrite Z.eqb_refl. f_equal. now apply filter_key_none.
  - destruct (key x =? key a) eqn:E.
    + exfalso. apply Hnin. apply Z.eqb_eq in E. rewrite E. now apply in_map.
    + now apply IH.
Qed.

(** ** Tickets: use is monotone and gated *)

(** In a reachable store, whatever the request, a ticket that is used
    stays used; and a ticket that becomes used does so either through the
    scan route, and then its order, the only row with that id, has the
    status [completed], or through the verify route, and then it carries
    the submitted code and an unused ticket with that code belongs to an
    order that has a payment with the status [completed]. *)
Theorem ticket_use_step env d op t t' :
  reachable env d ->
  In t (tickets d) ->
  In t' (tickets (snd (handle env op d))) ->
  t_id t' = t_id t ->
  (t_is_used t = true -> t_is_used t' = true)
  /\ (t_is_used t = false -> t_is_used t' = true ->
      (exists u code o,
          op = PostAdminScanQr u code
          /\ order_by_id (t_order_id t) d = [o]
          /\ o_status o = OCompleted)
      \/ (exists u code t0 p,
             op = PostTicketsVerify u code
             /\ sql_text_eq env (t_ticket_code t) code = true
             /\ In t0 (tickets d) /\ t_is_used t0 = false
             /\ sql_text_eq env (t_ticket_code t0) code = true
             /\ In p (payments d) /\ p_order_id p = t_order_id t0
             /\ p_status p = PCompleted)).
Proof.
  intros Hreach Ht Ht' Hid.
  pose proof (reachable_Inv env d Hreach) as (Hkt & Hko & _).
  destruct (handle_tickets_effect env op d)
    as [Hsame | r Hins Hr Hru | p Hdel
        | u code ticket o Hop Hupd Htk Ho Hoid Hst
        | u code t0 p Hop Hupd Ht0 Hu0 Hc0 Hp Hpo Hps].
  - rewrite Hsame in Ht'.
    assert (t' = t) by (eapply keys_ok_unique; eauto). subst t'.
    split; [auto|congruence].
  - rewrite Hins in Ht'. apply in_app_or in Ht'.
    destruct Ht' as [Ht'|[<-|[]]].
    + assert (t' = t) by (eapply keys_ok_unique; eauto). subst t'.
      split; [auto|congruence].
    + destruct Hkt as [_ Hlt]. specialize (Hlt t Ht). lia.
  - rewrite Hdel in Ht'. apply filter_In in Ht'. destruct Ht' as [Ht' _].
    assert (t' = t) by (eapply keys_ok_unique; eauto). subst t'.
    split; [auto|congruence].
  - rewrite Hupd in Ht'. unfold sql_update in Ht'.
    apply in_map_iff in Ht'. destruct Ht' as [t1 [Heq Ht1]].
    assert (t1 = t).
    { eapply keys_ok_unique; eauto. rewrite <- Hid, <- Heq.
      destruct (t_id t1 =? t_id ticket); reflexivity. }
    subst t1. destruct (t_id t =? t_id ticket) eqn:E; subst t'.
    + split; [reflexivity|]. intros _ _. left.
      apply Z.eqb_eq in E.
      assert (ticket = t) by (eapply keys_ok_unique; eauto). subst ticket.
      exists u, code, o. repeat split; auto.
      unfold order_by_id, sql_select. rewrite <- Hoid.
      eapply filter_key_singleton; eauto.
    + split; [auto|congruence].
  - rewrite Hupd in Ht'. unfold sql_update in Ht'.
    apply in_map_iff in Ht'. destruct Ht' as [t1 [Heq Ht1]].
    assert (t1 = t).
    { eapply keys_ok_unique; eauto. rewrite <- Hid, <- Heq.
      destruct (sql_text_eq env (t_ticket_code t1) code); reflexivity. }
    subst t1.
    destruct (sql_text_eq env (t_ticket_code t) code) eqn:E; subst t'.
    + split; [reflexivity|]. intros _ _. right.
      exists u, code, t0, p. repeat split; auto.
    + split; [auto|congruence].
Qed.

(** Claim C2 does not hold of the verify route.  After a cash payment
    that the admin has confirmed the order is still at [confirmed]: the
    scan route refuses its ticket, "pay before pickup", and writes
    nothing, and the verify route marks the same ticket used, since it
    looks at the status of the payment and not at the status of the
    order. *)
Theorem verify_marks_confirmed_order :
  reachable sample_env cash_paid_db
  /\ post_admin_scan_qr sample_env admin "ab12" cash_paid_db
     = (Reply 400 (BMessage "Vui lòng thanh toán trước khi nhận đồ ăn."),
        cash_paid_db)
  /\ fst (post_tickets_verify sample_env admin "ab12" cash_paid_db)
     = Reply 200 (BMessageOrder "Ticket verified successfully" 1)
  /\ exists t o t',
       In t (tickets cash_paid_db)
       /\ t_is_used t = false
       /\ order_by_id (t_order_id t) cash_paid_db = [o]
       /\ o_status o = OConfirmed
       /\ In t' (tickets (snd (handle sample_env
                                 (PostTicketsVerify admin "ab12")
                                 cash_paid_db)))
       /\ t_id t' = t_id t
       /\ t_is_used t' = true.
Proof.
  split; [apply reachable_run; constructor|].
  split; [vm_compute; reflexivity|].
  split; [vm_compute; reflexivity|].
  exists {| t_id := 1; t_order_id := 1; t_ticket_code := "ab12";
            t_is_used := false |},
         {| o_id := 1; o_user_id := 2; o_total_price := 100000;
            o_status := OConfirmed |},
         {| t_id := 1; t_order_id := 1; t_ticket_code := "ab12";
            t_is_used := true |}.
  vm_compute. repeat split; auto.
Qed.

(** ** Reconciliation of the gateway callback *)

Lemma obj_get_delete_other o k k' :
  k <> k' -> obj_get (obj_delete o k') k = obj_get o k.
Proof.
  intros Hne. unfold obj_get, obj_delete.
  induction o as [|[k0 v] o IH]; simpl; [reflexivity|].
  destruct (String.eqb k0 k') eqn:E'; simpl.
  - apply String.eqb_eq in E'. subst k0.
    destruct (String.eqb k' k) eqn:E; [|exact IH].
    apply String.eqb_eq in E. congruence.
  - destruct (String.eqb k0 k); [reflexivity|exact IH].
Qed.

Lemma js_eq_str_true v s : js_eq_str v s = true <-> v = JStr s.
Proof.
  destruct v; simpl; split; try discriminate.
  - intros H. apply String.eqb_eq in H. now subst.
  - intros H. inversion H. apply String.eqb_refl.
Qed.

(** A callback whose recomputed signature differs from the
    [vnp_SecureHash] it carries (or that carries none) is answered 400
    "Invalid signature" and the store is left as it was. *)
Lemma vnpay_return_invalid env query d :
  signature_valid env query = false ->
  get_vnpay_return env query d = (Reply 400 (BError "Invalid signature"), d).
Proof.
  unfold signature_valid, get_vnpay_return. intros ->. reflexivity.
Qed.

(** Claim C4 does not hold of every alteration.  Whatever the key and the
    digest: the success callback whose response code was altered after
    signing from the string [00] to the array [['00']] carries the
    signature of the original and passes the check, since the signed text
    is made of [String(value)]; the handler then compares the code with
    [===], takes the branch of a failed payment and sets the payments of
    the order to [cancelled], where the untouched callback completes
    them. *)
Theorem vnpay_return_accepts_retyped_code env d :
  obj_get (retyped_callback env) "vnp_ResponseCode"
  <> obj_get (gateway_callback env (callback_params "00")) "vnp_ResponseCode"
  /\ obj_get (retyped_callback env) "vnp_SecureHash"
     = obj_get (gateway_callback env (callback_params "00")) "vnp_SecureHash"
  /\ signature_valid env (retyped_callback env) = true
  /\ get_vnpay_return env (retyped_callback env) d
     = (Redirect "http://localhost:3001/orders?payment=cancelled",
        with_payments d
          (sql_update (fun p => ref_matches env (Some "1"%string) (p_order_id p))
             (set_p_status PCancelled) (payments d))
          (next_payment d))
  /\ fst (get_vnpay_return env (gateway_callback env (callback_params "00")) d)
     = Redirect "http://localhost:3001/orders?payment=success"
  /\ map p_status (payments online_pending_db) = [PPending]
  /\ map p_status
       (payments (snd (get_vnpay_return sample_env
                         (retyped_callback sample_env) online_pending_db)))
     = [PCancelled].
Proof.
  assert (Hdata :
    signData
      (obj_delete (obj_delete (retyped_callback env) "vnp_SecureHash")
         "vnp_SecureHashType")
      (orderedKeys
         (obj_delete (obj_delete (retyped_callback env) "vnp_SecureHash")
            "vnp_SecureHashType") true)
    = signData (callback_params "00")
        (orderedKeys (callback_params "00") true))
    by (vm_compute; reflexivity).
  assert (Hdata0 :
    signData
      (obj_delete
         (obj_delete (gateway_callback env (callback_params "00"))
            "vnp_SecureHash") "vnp_SecureHashType")
      (orderedKeys
         (obj_delete
            (obj_delete (gateway_callback env (callback_params "00"))
               "vnp_SecureHash") "vnp_SecureHashType") true)
    = signData (callback_params "00")
        (orderedKeys (callback_params "00") true))
    by (vm_compute; reflexivity).
  assert (Hsig : signature_valid env (retyped_callback env) = true).
  { unfold signature_valid, createVnpaySignature. rewrite Hdata.
    change (obj_get (retyped_callback env) "vnp_SecureHash")
      with (JStr (createVnpaySignature env (callback_params "00")
                    (VNPAY_HASH_SECRET env) true)).
    apply String.eqb_refl. }
  assert (Hsig0 : signature_valid env
                    (gateway_callback env (callback_params "00")) = true).
  { unfold signature_valid, createVnpaySignature. rewrite Hdata0.
    change (obj_get (gateway_callback env (callback_params "00"))
              "vnp_SecureHash")
      with (JStr (createVnpaySignature env (callback_params "00")
                    (VNPAY_HASH_SECRET env) true)).
    apply String.eqb_refl. }
  split; [discriminate|]. split; [reflexivity|]. split; [exact Hsig|].
  split; [|split; [|split]].
  - unfold get_vnpay_return. unfold signature_valid in Hsig.
    rewrite Hsig. reflexivity.
  - unfold get_vnpay_return. unfold signature_valid in Hsig0.
    rewrite Hsig0. reflexivity.
  - vm_compute. reflexivity.
  - vm_compute. reflexivity.
Qed.

(** Claim C3.  For a callback with a valid signature and a transaction
    reference: on the response code [00] every payment row of the
    referenced order is set to [completed] and the order to [completed];
    on any other code, or none, the payment rows are set to [cancelled]
    and the table of orders is left as it was. *)
Theorem vnpay_return_valid env query d ref :
  signature_valid env query = true ->
  obj_get query "vnp_TxnRef" = JStr ref ->
  let order_id := nth_error (split_on "_" ref) 1 in
  let r := get_vnpay_return env query d in
  (obj_get query "vnp_ResponseCode" = JStr "00" ->
   fst r = Redirect "http://localhost:3001/orders?payment=success"
   /\ payments (snd r)
      = sql_update (fun p => ref_matches env order_id (p_order_id p))
          (set_p_status PCompleted) (payments d)
   /\ orders (snd r)
      = sql_update (fun o => ref_matches env order_id (o_id o))
          (set_o_status OCompleted) (orders d)
   /\ (forall p, In p (payments (snd r)) ->
                 ref_matches env order_id (p_order_id p) = true ->
                 p_status p = PCompleted)
   /\ (forall o, In o (orders (snd r)) ->
                 ref_matches env order_id (o_id o) = true ->
                 o_status o = OCompleted))
  /\ (obj_get query "vnp_ResponseCode" <> JStr "00" ->
      fst r = Redirect "http://localhost:3001/orders?payment=cancelled"
      /\ payments (snd r)
         = sql_update (fun p => ref_matches env order_id (p_order_id p))
             (set_p_status PCancelled) (payments d)
      /\ (forall p, In p (payments (snd r)) ->
                    ref_matches env order_id (p_order_id p) = true ->
                    p_status p = PCancelled)
      /\ orders (snd r) = orders d).
Proof.
  intros Hsig Href order_id r. subst r.
  unfold signature_valid in Hsig. unfold get_vnpay_return.
  rewrite Hsig. cbn [negb].
  rewrite !obj_get_delete_other by discriminate.
  rewrite Href. fold order_id.
  split; intros Hcode.
  - rewrite Hcode. cbn [js_eq_str]. rewrite String.eqb_refl. db_simpl.
    repeat split; auto.
    + intros p Hp Hm. unfold sql_update in Hp. apply in_map_iff in Hp.
      destruct Hp as [p0 [<- _]].
      destruct (ref_matches env order_id (p_order_id p0)) eqn:E;
        [reflexivity|]. cbn beta iota in Hm. congruence.
    + intros o Ho Hm. unfold sql_update in Ho. apply in_map_iff in Ho.
      destruct Ho as [o0 [<- _]].
      destruct (ref_matches env order_id (o_id o0)) eqn:E;
        [reflexivity|]. cbn beta iota in Hm. congruence.
  - destruct (js_eq_str (obj_get query "vnp_ResponseCode") "00") eqn:E.
    + apply js_eq_str_true in E. contradiction.
    + db_simpl. repeat split; auto.
      intros p Hp Hm. unfold sql_update in Hp. apply in_map_iff in Hp.
      destruct Hp as [p0 [<- _]].
      destruct (ref_matches env order_id (p_order_id p0)) eqn:E0;
        [reflexivity|]. cbn beta iota in Hm. congruence.
Qed.

(** A callback with a valid signature and no usable transaction reference
    is answered 500 and writes nothing. *)
Lemma vnpay_return_no_reference env query d :
  signature_valid env query = true ->
  (forall ref, obj_get query "vnp_TxnRef" <> JStr ref) ->
  get_vnpay_return env query d = (server_error, d).
Proof.
  intros Hsig Href. unfold signature_valid in Hsig.
  unfold get_vnpay_return. rewrite Hsig. cbn [negb].
  rewrite !obj_get_delete_other by discriminate.
  destruct (obj_get query "vnp_TxnRef") as [| |ref|s]; try reflexivity.
  now destruct (Href ref).
Qed.

(** ** Cancellation *)

(** Claim C7.  When the caller owns the order: if its status is not
    [pending] the answer is 400 "Only pending orders can be cancelled" and
    nothing changes; if it is [pending], the ticket, line item, payment and
    order rows are deleted, and the four lookups by the order id come back
    empty. *)
Theorem cancel_pending_only u orderId d o rest :
  orders_of_user orderId (user_id u) d = o :: rest ->
  let r := delete_orders_cancel u orderId d in
  (o_status o <> OPending ->
   r = (Reply 400 (BError "Only pending orders can be cancelled"), d))
  /\ (o_status o = OPending ->
      fst r = Reply 200 (BMessage "Order cancelled successfully")
      /\ tickets_by_order orderId (snd r) = []
      /\ items_by_order orderId (snd r) = []
      /\ payments_by_order orderId (snd r) = []
      /\ order_by_id orderId (snd r) = []).
Proof.
  intros Ho r. subst r. unfold delete_orders_cancel. rewrite Ho.
  split; intros Hst.
  - destruct (o_status o); try reflexivity. congruence.
  - rewrite Hst. cbn [OrderStatus_eqb negb fst snd].
    unfold tickets_by_order, items_by_order, payments_by_order, order_by_id,
      sql_select.
    db_simpl. repeat split; apply filter_delete_same.
Qed.

(** ** Payments *)

Lemma purge_stale_frame oid d :
  let d' := purge_stale oid d in
  orders d' = orders d /\ tickets d' = tickets d
  /\ next_payment d' = next_payment d /\ next_ticket d' = next_ticket d.
Proof.
  unfold purge_stale. destruct (sql_select _ _) as [|p l]; [tauto|].
  destruct (p_status p); db_simpl; tauto.
Qed.

Lemma ensure_ticket_frame oid now d :
  let d' := ensure_ticket oid now d in
  orders d' = orders d /\ payments d' = payments d.
Proof.
  unfold ensure_ticket. destruct (sql_select _ _); db_simpl; tauto.
Qed.

Lemma orders_of_user_In orderId uid d o rest :
  orders_of_user orderId uid d = o :: rest ->
  In o (orders d) /\ o_id o = orderId /\ o_user_id o = uid.
Proof.
  intros H.
  assert (Hin : In o (orders_of_user orderId uid d)) by (rewrite H; now left).
  unfold orders_of_user, sql_select in Hin. apply filter_In in Hin.
  destruct Hin as [Hin Hb]. apply andb_true_iff in Hb.
  destruct Hb as [H1 H2]. apply Z.eqb_eq in H1, H2. auto.
Qed.

(** Claim C10.  A cash payment that is recorded (answer 200) sets the
    status of the order, which the caller owns, to [confirmed] whatever it
    was before: the table of orders is the old one with that row
    rewritten. *)
Theorem cash_payment_sets_confirmed env c u r d :
  method r = "cash"%string ->
  status_code (fst (post_payments env c u r d)) = 200 ->
  let d' := snd (post_payments env c u r d) in
  orders d'
  = sql_update (fun o => o_id o =? order_id r) (set_o_status OConfirmed)
      (orders d)
  /\ (exists o, In o (orders d) /\ o_id o = order_id r
                /\ o_user_id o = user_id u)
  /\ (forall o, In o (orders d') -> o_id o = order_id r ->
                o_status o = OConfirmed).
Proof.
  intros Hm. unfold post_payments. rewrite Hm.
  destruct (_ || _ || _)%bool; [discriminate|].
  destruct (amount r <=? 0); [discriminate|].
  destruct (orders_of_user _ _ _) as [|o rest] eqn:Ho; [discriminate|].
  destruct (has_completed_first _ _); [discriminate|].
  cbn [String.eqb Ascii.eqb Bool.eqb]. intros _.
  unfold insert_payment. cbn [fst snd].
  set (d' := ensure_ticket _ _ _).
  assert (Horders :
    orders d'
    = sql_update (fun o => o_id o =? order_id r) (set_o_status OConfirmed)
        (orders d)).
  { subst d'.
    match goal with |- orders (ensure_ticket ?a ?b ?x) = _ =>
      rewrite (proj1 (ensure_ticket_frame a b x)) end.
    db_simpl. now rewrite (proj1 (purge_stale_frame (order_id r) d)). }
  split; [exact Horders|]. split.
  - apply orders_of_user_In in Ho. exists o. tauto.
  - intros o' Hin Hid. rewrite Horders in Hin. unfold sql_update in Hin.
    apply in_map_iff in Hin. destruct Hin as [o0 [<- _]].
    destruct (o_id o0 =? order_id r) eqn:E; [reflexivity|].
    apply Z.eqb_neq in E. cbn beta iota in Hid. contradiction.
Qed.




(** ** Order creation *)

(** Up to 2^53 in magnitude an integer is its own binary64 value. *)
Lemma round_binary64_exact x : safe_integer x -> round_binary64 x = Finite x.
Proof.
  unfold safe_integer, round_binary64. intros Hx.
  destruct (Z.eq_dec (Z.abs x) (2 ^ 53)) as [He|Hne].
  - destruct (Z.abs_eq_or_opp x) as [H|H]; rewrite H in He.
    + subst x. reflexivity.
    + assert (x = - 2 ^ 53) by lia. subst x. reflexivity.
  - assert (Hlog : Z.log2 (Z.abs x) - 52 <= 0).
    { destruct (Z.eq_dec (Z.abs x) 0) as [H0|H0].
      - rewrite H0. cbn. lia.
      - assert (Z.log2 (Z.abs x) < 53); [|lia].
        apply Z.log2_lt_pow2; lia. }
    apply Z.leb_le in Hlog. cbv zeta. now rewrite Hlog.
Qed.

Lemma order_magnitude_nonneg d items : 0 <= order_magnitude d items.
Proof.
  induction items as [|it items IH]; simpl; [lia|].
  destruct (food_price d (food_id it)); lia.
Qed.

(** Within the safe integers the loop computes the exact sum. *)
Lemma price_items_total d items total acc :
  (forall it, In it items -> food_price d (food_id it) <> None) ->
  (forall it p, In it items -> food_price d (food_id it) = Some p ->
                safe_integer p /\ safe_integer (quantity it)) ->
  Z.abs total + order_magnitude d items <= 2 ^ 53 ->
  exists priced,
    price_items (food d) items (Finite total) acc
    = inr (Finite (total + order_total d items), acc ++ priced)
    /\ map pi_item priced = items
    /\ Forall (fun pi => food_price d (food_id (pi_item pi))
                         = Some (pi_unit_price pi)) priced.
Proof.
  revert total acc.
  induction items as [|it items IH]; intros total acc Hall Hsafe Hmag; simpl.
  - exists []. rewrite app_nil_r, Z.add_0_r. auto.
  - assert (Hit : food_price d (food_id it) <> None) by (apply Hall; now left).
    pose proof (Hsafe it) as Hs.
    simpl in Hmag. unfold food_price in Hit, Hs, Hmag.
    destruct (sql_select (fun f => f_id f =? food_id it) (food d))
      as [|f fs] eqn:Hsel; [congruence|].
    destruct (Hs (f_price f) (or_introl eq_refl) eq_refl) as [Hp Hq].
    pose proof (order_magnitude_nonneg d items) as Hnn.
    unfold Number.
    rewrite (round_binary64_exact (f_price f) Hp).
    rewrite (round_binary64_exact (quantity it) Hq).
    cbn [num_mul].
    rewrite (round_binary64_exact (f_price f * quantity it))
      by (unfold safe_integer; lia).
    cbn [num_add].
    rewrite (round_binary64_exact (total + f_price f * quantity it))
      by (unfold safe_integer; lia).
    destruct (IH (total + f_price f * quantity it)
                 (acc ++ [{| pi_item := it; pi_unit_price := f_price f |}]))
      as (priced & Heq & Hmap & Hall').
    { intros it' Hin. apply Hall. now right. }
    { intros it' p Hin. apply Hsafe. now right. }
    { lia. }
    exists ({| pi_item := it; pi_unit_price := f_price f |} :: priced).
    rewrite Heq. split; [|split].
    + f_equal. f_equal; [|now rewrite <- app_assoc].
      f_equal. unfold food_price. rewrite Hsel. lia.
    + simpl. now rewrite Hmap.
    + constructor; [|assumption]. simpl. unfold food_price.
      now rewrite Hsel.
Qed.

Lemma insert_items_rows oid l d :
  exists rows,
    order_items (insert_items oid l d) = order_items d ++ rows
    /\ map line_of_row rows
       = map (fun pi => (oid, food_id (pi_item pi), quantity (pi_item pi),
                         Some (pi_unit_price pi))) l.
Proof.
  unfold insert_items. revert d.
  induction l as [|it l IH]; intros d; simpl.
  - exists []. now rewrite app_nil_r.
  - destruct (IH (insert_order_item oid (food_id (pi_item it))
                    (quantity (pi_item it)) (pi_unit_price it) d))
      as (rows & Heq & Hmap).
    eexists (_ :: rows). rewrite Heq. db_simpl. rewrite <- app_assoc.
    split; [reflexivity|]. simpl. now rewrite Hmap.
Qed.

Lemma food_ops_keep_orders env op d :
  is_food_op op = true ->
  orders (snd (handle env op d)) = orders d
  /\ order_items (snd (handle env op d)) = order_items d.
Proof.
  destruct op; try discriminate; intros _; cbn [handle].
  - unfold post_foods. destruct (negb _); [tauto|].
    destruct (_ || _ || _)%bool; db_simpl; tauto.
  - unfold put_foods. destruct (negb _); [tauto|].
    destruct (_ || _ || _)%bool; [tauto|].
    destruct (Nat.eqb _ _); db_simpl; tauto.
  - unfold delete_foods. destruct (negb _); [tauto|].
    destruct (Nat.eqb _ _); db_simpl; tauto.
Qed.

(** Claim C5, amended.  For a list of items that is not empty and names
    existing foods, with prices and quantities among the safe integers and
    line amounts whose magnitudes sum to 2^53 at most, the order is stored
    with, and the answer carries, the sum over the items of catalog price
    times quantity; every line item stores the catalog price of its food at
    that moment; and no later request on the food catalog changes the table
    of orders or of line items. *)
Theorem create_order_total env u items code d :
  items <> [] ->
  (forall it, In it items -> food_price d (food_id it) <> None) ->
  (forall it p, In it items -> food_price d (food_id it) = Some p ->
                safe_integer p /\ safe_integer (quantity it)) ->
  order_magnitude d items <= 2 ^ 53 ->
  let r := post_orders u items code d in
  fst r = Reply 200 (BOrder (next_order d) (order_total d items) OPending code)
  /\ orders (snd r)
     = orders d ++ [{| o_id := next_order d; o_user_id := user_id u;
                       o_total_price := order_total d items;
                       o_status := OPending |}]
  /\ (exists rows,
        order_items (snd r) = order_items d ++ rows
        /\ map line_of_row rows = map (line_of d (next_order d)) items)
  /\ (forall op d2, is_food_op op = true ->
        orders (snd (handle env op d2)) = orders d2
        /\ order_items (snd (handle env op d2)) = order_items d2).
Proof.
  intros Hne Hall Hsafe Hmag r. subst r. unfold post_orders.
  destruct items as [|it0 items0] eqn:Hitems; [congruence|].
  rewrite <- Hitems in *. clear Hne.
  destruct (price_items_total d items 0 [] Hall Hsafe)
    as (priced & Heq & Hmap & Hp); [simpl; lia|].
  change (Number 0) with (Finite 0).
  rewrite Heq. cbn [app]. rewrite Z.add_0_l.
  unfold insert_order. cbn [fst snd].
  set (d1 := with_orders d _ _).
  destruct (insert_items_frame (next_order d) priced d1)
    as (_ & Ho & _ & _ & _ & _ & _ & _).
  destruct (insert_items_rows (next_order d) priced d1) as (rows & Hr & Hm).
  split; [reflexivity|]. split; [|split].
  - db_simpl. rewrite Ho. reflexivity.
  - exists rows. db_simpl. rewrite Hr. split; [reflexivity|].
    rewrite Hm, <- Hmap, map_map. apply map_ext_in.
    intros pi Hin. unfold line_of.
    rewrite Forall_forall in Hp. now rewrite (Hp pi Hin).
  - intros op d2. apply food_ops_keep_orders.
Qed.

(** Claim C5, as stated, fails beyond the safe integers: 2147483647
    portions of a dish at 2147483647 make 4611686014132420609, and the
    handler, which multiplies in binary64, stores and answers the number
    4611686014132420608 (written 4611686014132420600). *)
Lemma order_total_is_rounded :
  dear_items <> []
  /\ (forall it, In it dear_items ->
                 food_price dear_menu_db (food_id it) = Some 2147483647)
  /\ order_total dear_menu_db dear_items = 4611686014132420609
  /\ number_to_string (Finite 4611686014132420608)
     = "4611686014132420600"%string
  /\ fst (post_orders alice dear_items "ab12" dear_menu_db)
     = Reply 200 (BOrder 1 4611686014132420608 OPending "ab12")
  /\ orders (snd (post_orders alice dear_items "ab12" dear_menu_db))
     = [{| o_id := 1; o_user_id := 2; o_total_price := 4611686014132420608;
           o_status := OPending |}].
Proof.
  split; [discriminate|]. split; [intros it [<-|[]]; reflexivity|].
  vm_compute. auto.
Qed.

(** *** Stored prices are never rewritten *)

Lemma insert_items_new oid l d i :
  In i (order_items (insert_items oid l d)) ->
  In i (order_items d) \/ next_item d <= oi_id i.
Proof.
  unfold insert_items. revert d.
  induction l as [|it l IH]; intros d; simpl; [auto|].
  intros Hin. apply IH in Hin. db_simpl.
  destruct Hin as [Hin|Hge]; [|right; lia].
  apply in_app_or in Hin. destruct Hin as [Hin|[<-|[]]]; [auto|].
  right. cbn [oi_id]. lia.
Qed.

(** What a request does to the rows of the orders. *)
Lemma handle_orders_effect env op d :
  let d' := snd (handle env op d) in
  orders d' = orders d
  \/ (exists p s, orders d' = sql_update p (set_o_status s) (orders d))
  \/ (exists p, orders d' = sql_delete p (orders d))
  \/ (exists o, orders d' = orders d ++ [o] /\ o_id o = next_order d).
Proof.
  destruct op; cbn [handle]; cbn zeta.
  - unfold post_foods. destruct (negb _); [now left|].
    destruct (_ || _ || _)%bool; now left.
  - unfold put_foods. destruct (negb _); [now left|].
    destruct (_ || _ || _)%bool; [now left|].
    destruct (Nat.eqb _ _); now left.
  - unfold delete_foods. destruct (negb _); [now left|].
    destruct (Nat.eqb _ _); now left.
  - unfold post_orders. destruct items; [now left|].
    destruct (price_items _ _ _ _) as [fid|[[total| |] priced]];
      try now left.
    cbn [snd insert_order fst]. right. right. right.
    eexists. db_simpl.
    match goal with |- context [insert_items ?o ?l ?d0] =>
      rewrite (proj1 (proj2 (insert_items_frame o l d0))) end.
    db_simpl. split; reflexivity.
  - unfold post_tickets_verify. destruct (negb _); [now left|].
    destruct (String.eqb _ _); [now left|].
    destruct (tickets_join_payments _ _ _ _) as [|[t ps] l]; [now left|].
    destruct (negb _); now left.
  - unfold post_payments_confirm. destruct (negb _); [now left|].
    destruct (payment_id =? 0); [now left|].
    destruct (sql_select _ _); [now left|].
    destruct (PaymentStatus_eqb _ _); now left.
  - unfold put_admin_orders_status. destruct (negb _); [now left|].
    destruct (admin_status _); [|now left].
    destruct (sql_select _ _); [now left|].
    right. left. eexists _, _. reflexivity.
  - unfold delete_orders_cancel.
    destruct (orders_of_user _ _ _); [now left|].
    destruct (negb _); [now left|].
    right. right. left. eexists. reflexivity.
  - unfold post_payments.
    destruct (_ || _ || _)%bool; [now left|].
    destruct (amount r <=? 0); [now left|].
    destruct (orders_of_user _ _ _); [now left|].
    destruct (has_completed_first _ _); [now left|].
    pose proof (proj1 (purge_stale_frame (order_id r) d)) as Hp.
    destruct (String.eqb (method r) "cash");
      [|destruct (String.eqb (method r) "online");
        [destruct (build_redirect env c r) as [url txn]|]];
      cbn [snd insert_payment fst];
      try match goal with |- context [ensure_ticket ?a ?b ?x] =>
        rewrite (proj1 (ensure_ticket_frame a b x)) end;
      db_simpl; rewrite Hp.
    + right. left. eexists _, _. reflexivity.
    + now left.
    + now left.
  - unfold get_vnpay_return. destruct (negb _); [now left|].
    destruct (obj_get _ _); try now left.
    destruct (js_eq_str _ _); [|now left].
    right. left. eexists _, _. reflexivity.
  - unfold post_admin_scan_qr. destruct (negb _); [now left|].
    destruct (String.eqb _ _); [now left|].
    destruct (tickets_join_orders _ _ _) as [|[t st] l]; [now left|].
    destruct (_ || _)%bool; [now left|].
    destruct st; try now left.
    right. left. eexists _, _. reflexivity.
  - unfold delete_orders.
    destruct (orders_of_user _ _ _); [now left|].
    right. left. eexists _, _. reflexivity.
Qed.

(** Whatever the request: an order row of the new store is a row of the
    old one up to its status, or the row just inserted; a line item of the
    new store is a line item of the old one, or one just inserted. *)
Lemma stored_prices_never_change env op d :
  let d' := snd (handle env op d) in
  (forall o', In o' (orders d') ->
     (exists o, In o (orders d) /\ o_id o = o_id o'
                /\ o_user_id o = o_user_id o'
                /\ o_total_price o = o_total_price o')
     \/ o_id o' = next_order d)
  /\ (forall i, In i (order_items d') ->
        In i (order_items d) \/ next_item d <= oi_id i).
Proof.
  cbn zeta. split.
  - intros o' Hin.
    destruct (handle_orders_effect env op d)
      as [He | [(p & s & He) | [(p & He) | (o & He & Hid)]]];
      rewrite He in Hin.
    + left. exists o'. auto.
    + unfold sql_update in Hin. apply in_map_iff in Hin.
      destruct Hin as [o [<- Hin]]. left. exists o.
      destruct (p o); auto.
    + apply filter_In in Hin. left. exists o'. tauto.
    + apply in_app_or in Hin. destruct Hin as [Hin|[<-|[]]]; [|auto].
      left. exists o'. auto.
  - intros i. destruct op; cbn [handle].
    + unfold post_foods. destruct (negb _); [auto|].
      destruct (_ || _ || _)%bool; auto.
    + unfold put_foods. destruct (negb _); [auto|].
      destruct (_ || _ || _)%bool; [auto|].
      destruct (Nat.eqb _ _); auto.
    + unfold delete_foods. destruct (negb _); [auto|].
      destruct (Nat.eqb _ _); auto.
    + unfold post_orders. destruct items; [auto|].
      destruct (price_items _ _ _ _) as [fid|[[total| |] priced]]; auto.
      cbn [snd insert_order fst]. db_simpl. intros Hin.
      apply insert_items_new in Hin. exact Hin.
    + unfold post_tickets_verify. destruct (negb _); [auto|].
      destruct (String.eqb _ _); [auto|].
      destruct (tickets_join_payments _ _ _ _) as [|[t ps] l]; [auto|].
      destruct (negb _); auto.
    + unfold post_payments_confirm. destruct (negb _); [auto|].
      destruct (payment_id =? 0); [auto|].
      destruct (sql_select _ _); [auto|].
      destruct (PaymentStatus_eqb _ _); auto.
    + unfold put_admin_orders_status. destruct (negb _); [auto|].
      destruct (admin_status _); [|auto].
      destruct (sql_select _ _); auto.
    + unfold delete_orders_cancel.
      destruct (orders_of_user _ _ _); [auto|].
      destruct (negb _); [auto|]. db_simpl. intros Hin.
      apply filter_In in Hin. tauto.
    + unfold post_payments.
      destruct (_ || _ || _)%bool; [auto|].
      destruct (amount r <=? 0); [auto|].
      destruct (orders_of_user _ _ _); [auto|].
      destruct (has_completed_first _ _); [auto|].
      assert (Hp : order_items (purge_stale (order_id r) d) = order_items d).
      { unfold purge_stale. destruct (sql_select _ _) as [|p0 l0]; auto.
        destruct (p_status p0); auto. }
      assert (He : forall a b x, order_items (ensure_ticket a b x)
                                 = order_items x).
      { intros a b x. unfold ensure_ticket. destruct (sql_select _ _); auto. }
      destruct (String.eqb (method r) "cash");
        [|destruct (String.eqb (method r) "online");
          [destruct (build_redirect env c r) as [url txn]|]];
        cbn [snd insert_payment fst]; rewrite ?He; db_simpl; rewrite Hp; auto.
    + unfold get_vnpay_return. destruct (negb _); [auto|].
      destruct (obj_get _ _); auto.
      destruct (js_eq_str _ _); auto.
    + unfold post_admin_scan_qr. destruct (negb _); [auto|].
      destruct (String.eqb _ _); [auto|].
      destruct (tickets_join_orders _ _ _) as [|[t st] l]; [auto|].
      destruct (_ || _)%bool; [auto|].
      destruct st; auto.
    + unfold delete_orders. destruct (orders_of_user _ _ _); auto.
Qed.

(** Claim C8 does not hold of the main server: its handler accepts a
    quantity that is not positive and stores the order, its line item and
    its ticket, with the total 0 for the quantity 0 and a negative total
    for a negative quantity; the handler of the second server file answers
    400 to the same requests and writes nothing. *)
Theorem post_orders_accepts_nonpositive_quantity :
  let zero := [{| food_id := 1; quantity := 0 |}] in
  let minus := [{| food_id := 1; quantity := -1 |}] in
  (post_orders alice zero "ab12" menu_db
   = (Reply 200 (BOrder 1 0 OPending "ab12"),
      {| food := food menu_db;
         orders := [{| o_id := 1; o_user_id := 2; o_total_price := 0;
                       o_status := OPending |}];
         order_items := [{| oi_id := 1; oi_order_id := 1; oi_food_id := 1;
                            oi_quantity := 0; oi_unit_price := 50000 |}];
         payments := [];
         tickets := [{| t_id := 1; t_order_id := 1; t_ticket_code := "ab12";
                        t_is_used := false |}];
         next_food := 2; next_order := 2; next_item := 2; next_payment := 1;
         next_ticket := 2 |})
   /\ Variant.post_orders alice zero "ab12" menu_db
      = (Reply 400 (BError "Each item must have food_id and quantity > 0"),
         menu_db))
  /\ (fst (post_orders alice minus "ab12" menu_db)
      = Reply 200 (BOrder 1 (-50000) OPending "ab12")
      /\ orders (snd (post_orders alice minus "ab12" menu_db))
         = [{| o_id := 1; o_user_id := 2; o_total_price := -50000;
               o_status := OPending |}]
      /\ Variant.post_orders alice minus "ab12" menu_db
         = (Reply 400 (BError "Each item must have food_id and quantity > 0"),
            menu_db)).
Proof. vm_compute. auto. Qed.

(** ** The signed string *)





(** *** The parameter map *)





(** *** Sorting *)















(** *** The keys of a callback *)







(** *** The keys of an outbound request *)






(** *** What the two handlers of POST /api/orders refuse *)

Lemma price_items_missing d items total acc :
  (exists it, In it items /\ food_price d (food_id it) = None) ->
  exists fid, price_items (food d) items total acc = inl fid.
Proof.
  revert total acc. induction items as [|it items IH]; intros total acc.
  - intros [it [[] _]].
  - intros [it' [[<-|Hin] Hnone]]; simpl; unfold food_price in *.
    + destruct (sql_select _ (food d)); [eauto|discriminate].
    + destruct (sql_select (fun f => f_id f =? food_id it) (food d));
        [eauto|]. apply IH. exists it'. unfold food_price. auto.
Qed.

(** What the main handler of POST /api/orders refuses: an empty list with
    400, a food that does not exist with 404; and whenever its answer is
    not 200 it has written nothing. *)
Lemma post_orders_rejections u items code d :
  (items = [] ->
   post_orders u items code d = (Reply 400 (BError "Items are required"), d))
  /\ ((exists it, In it items /\ food_price d (food_id it) = None) ->
      status_code (fst (post_orders u items code d)) = 404
      /\ snd (post_orders u items code d) = d)
  /\ (status_code (fst (post_orders u items code d)) <> 200 ->
      snd (post_orders u items code d) = d).
Proof.
  split; [|split].
  - intros ->. reflexivity.
  - intros Hex. unfold post_orders.
    destruct items as [|it0 items0] eqn:E; [destruct Hex as [? [[] _]]|].
    rewrite <- E in *.
    destruct (price_items_missing d items (Number 0) [] Hex) as [fid ->]. auto.
  - unfold post_orders. destruct items; [reflexivity|].
    destruct (price_items _ _ _ _) as [fid|[[total| |] priced]];
      try reflexivity.
    cbn. congruence.
Qed.

Lemma variant_price_items_bad d items total :
  (exists it, In it items
              /\ (quantity it <= 0 \/ food_price d (food_id it) = None)) ->
  Variant.price_items (food d) items total = Variant.BadItem
  \/ exists fid, Variant.price_items (food d) items total = Variant.NoFood fid.
Proof.
  revert total. induction items as [|it items IH]; intros total.
  - intros [it [[] _]].
  - intros [it' [Hin Hbad]]. simpl.
    destruct ((food_id it =? 0) || (quantity it =? 0) || (quantity it <=? 0))%bool
      eqn:Hchk; [now left|].
    apply orb_false_iff in Hchk. destruct Hchk as [_ Hq].
    apply Z.leb_gt in Hq.
    destruct (sql_select (fun f => f_id f =? food_id it) (food d))
      as [|f fs] eqn:Hsel; [right; eauto|].
    apply IH. exists it'. destruct Hin as [<-|Hin]; [|auto].
    destruct Hbad as [Hbad|Hbad]; [lia|].
    unfold food_price in Hbad. rewrite Hsel in Hbad. discriminate.
Qed.

(** The handler of the second server file answers 400 and writes nothing
    when the list is empty, a quantity is not positive or a food does not
    exist. *)
Lemma variant_post_orders_rejections u items code d :
  (items = [] \/
   exists it, In it items
              /\ (quantity it <= 0 \/ food_price d (food_id it) = None)) ->
  status_code (fst (Variant.post_orders u items code d)) = 400
  /\ snd (Variant.post_orders u items code d) = d.
Proof.
  intros [->|Hex]; [now split|]. unfold Variant.post_orders.
  destruct items as [|it0 items0] eqn:E; [now split|]. rewrite <- E in *.
  destruct (variant_price_items_bad d items (Number 0) Hex) as [->|[fid ->]];
    now split.
Qed.

(** ** The statements on the sample runs *)

(** Claim C1 on a ticket that is ready for pickup. *)
Lemma scan_twice_witness :
  (status_code (fst (post_admin_scan_qr sample_env admin "ab12" ready_db)) = 200
   /\ is_admin admin = true)
  /\ post_admin_scan_qr sample_env admin "ab12"
       (snd (post_admin_scan_qr sample_env admin "ab12" ready_db))
     = (already_used,
        snd (post_admin_scan_qr sample_env admin "ab12" ready_db)).
Proof.
  split; [split; vm_compute; reflexivity|].
  apply scan_twice; vm_compute; reflexivity.
Defined.

(** The step of a ticket on the verify route after a confirmed cash
    payment. *)
Lemma ticket_use_step_witness :
  (reachable sample_env cash_paid_db
   /\ In (ticket_ab12 false) (tickets cash_paid_db)
   /\ In (ticket_ab12 true)
        (tickets (snd (handle sample_env (PostTicketsVerify admin "ab12")
                         cash_paid_db)))
   /\ t_id (ticket_ab12 true) = t_id (ticket_ab12 false))
  /\ exists t0 p,
       In t0 (tickets cash_paid_db) /\ t_is_used t0 = false
       /\ sql_text_eq sample_env (t_ticket_code t0) "ab12" = true
       /\ In p (payments cash_paid_db) /\ p_order_id p = t_order_id t0
       /\ p_status p = PCompleted.
Proof.
  assert (Hr : reachable sample_env cash_paid_db)
    by (apply reachable_run; constructor).
  assert (Ht : In (ticket_ab12 false) (tickets cash_paid_db))
    by (vm_compute; auto).
  assert (Ht' : In (ticket_ab12 true)
                  (tickets (snd (handle sample_env
                                   (PostTicketsVerify admin "ab12")
                                   cash_paid_db))))
    by (vm_compute; auto).
  split; [repeat split; assumption|].
  destruct (ticket_use_step sample_env cash_paid_db
              (PostTicketsVerify admin "ab12") (ticket_ab12 false)
              (ticket_ab12 true) Hr Ht Ht' eq_refl) as [_ H].
  destruct (H eq_refl eq_refl)
    as [(u & code & o & Hop & _) | (u & code & t0 & p & Hop & _ & Hrest)].
  - discriminate Hop.
  - inversion Hop; subst. exists t0, p. exact Hrest.
Defined.

(** Claim C3 on the success callback of a pending online payment. *)
Lemma vnpay_return_valid_witness :
  (signature_valid sample_env
     (gateway_callback sample_env (callback_params "00")) = true
   /\ obj_get (gateway_callback sample_env (callback_params "00"))
        "vnp_TxnRef" = JStr "ORDER_1_1746792007000")
  /\ fst (get_vnpay_return sample_env
            (gateway_callback sample_env (callback_params "00"))
            online_pending_db)
     = Redirect "http://localhost:3001/orders?payment=success"
  /\ orders (snd (get_vnpay_return sample_env
                    (gateway_callback sample_env (callback_params "00"))
                    online_pending_db))
     = [order_1 OCompleted].
Proof.
  assert (Hs : signature_valid sample_env
                 (gateway_callback sample_env (callback_params "00")) = true)
    by (vm_compute; reflexivity).
  assert (Hr : obj_get (gateway_callback sample_env (callback_params "00"))
                 "vnp_TxnRef" = JStr "ORDER_1_1746792007000")
    by (vm_compute; reflexivity).
  split; [split; assumption|].
  destruct (vnpay_return_valid sample_env _ online_pending_db _ Hs Hr)
    as [H _].
  destruct (H eq_refl) as (H1 & _ & H3 & _).
  split; [exact H1|].
  etransitivity; [exact H3|]. vm_compute. reflexivity.
Defined.

(** A callback whose amount was altered after signing is refused. *)
Lemma vnpay_return_invalid_witness :
  signature_valid sample_env tampered_callback = false
  /\ get_vnpay_return sample_env tampered_callback online_pending_db
     = (Reply 400 (BError "Invalid signature"), online_pending_db).
Proof.
  split; [vm_compute; reflexivity|].
  apply vnpay_return_invalid. vm_compute. reflexivity.
Defined.

(** Claim C5, amended, on two portions of a dish at 50000. *)
Lemma create_order_total_witness :
  ([{| food_id := 1; quantity := 2 |}] <> []
   /\ (forall it, In it [{| food_id := 1; quantity := 2 |}] ->
                  food_price menu_db (food_id it) <> None)
   /\ (forall it p, In it [{| food_id := 1; quantity := 2 |}] ->
                    food_price menu_db (food_id it) = Some p ->
                    safe_integer p /\ safe_integer (quantity it))
   /\ order_magnitude menu_db [{| food_id := 1; quantity := 2 |}] <= 2 ^ 53)
  /\ fst (post_orders alice [{| food_id := 1; quantity := 2 |}] "ab12" menu_db)
     = Reply 200 (BOrder 1 100000 OPending "ab12").
Proof.
  assert (H1 : [{| food_id := 1; quantity := 2 |}] <> []) by discriminate.
  assert (H2 : forall it, In it [{| food_id := 1; quantity := 2 |}] ->
                          food_price menu_db (food_id it) <> None).
  { intros it [<-|[]]. vm_compute. discriminate. }
  assert (H3 : forall it p, In it [{| food_id := 1; quantity := 2 |}] ->
                 food_price menu_db (food_id it) = Some p ->
                 safe_integer p /\ safe_integer (quantity it)).
  { intros it p [<-|[]] Hp. vm_compute in Hp. injection Hp as <-.
    split; vm_compute; discriminate. }
  assert (H4 : order_magnitude menu_db [{| food_id := 1; quantity := 2 |}]
               <= 2 ^ 53) by (vm_compute; discriminate).
  split; [exact (conj H1 (conj H2 (conj H3 H4)))|].
  destruct (create_order_total sample_env alice _ "ab12" menu_db H1 H2 H3 H4)
    as [H _].
  etransitivity; [exact H|]. vm_compute. reflexivity.
Defined.



(** Claim C7 on a pending order. *)
Lemma cancel_pending_only_witness :
  orders_of_user 1 (user_id alice) pending_db = [order_1 OPending]
  /\ tickets_by_order 1 (snd (delete_orders_cancel alice 1 pending_db)) = []
  /\ items_by_order 1 (snd (delete_orders_cancel alice 1 pending_db)) = []
  /\ payments_by_order 1 (snd (delete_orders_cancel alice 1 pending_db)) = []
  /\ order_by_id 1 (snd (delete_orders_cancel alice 1 pending_db)) = [].
Proof.
  assert (Ho : orders_of_user 1 (user_id alice) pending_db
               = [order_1 OPending]) by (vm_compute; reflexivity).
  split; [assumption|].
  destruct (cancel_pending_only alice 1 pending_db _ _ Ho) as [_ H].
  destruct (H eq_refl) as (_ & Hrest). exact Hrest.
Defined.

(** Claim C10 on an order that was already picked up. *)
Lemma cash_payment_sets_confirmed_witness :
  (method (cash_req 1 100000) = "cash"%string
   /\ status_code (fst (post_payments sample_env noon alice
                          (cash_req 1 100000) picked_up_db)) = 200)
  /\ orders picked_up_db = [order_1 OScanned]
  /\ orders (snd (post_payments sample_env noon alice (cash_req 1 100000)
                    picked_up_db))
     = [order_1 OConfirmed].
Proof.
  assert (Hs : status_code (fst (post_payments sample_env noon alice
                                   (cash_req 1 100000) picked_up_db)) = 200)
    by (vm_compute; reflexivity).
  split; [split; [reflexivity|assumption]|].
  split; [vm_compute; reflexivity|].
  destruct (cash_payment_sets_confirmed sample_env noon alice
              (cash_req 1 100000) picked_up_db eq_refl Hs) as [H _].
  etransitivity; [exact H|]. vm_compute. reflexivity.
Defined.


(** * Further properties *)

(** ** Consistency of the reachable stores *)

Lemma order_exists_ext d d' oid :
  map o_id (orders d') = map o_id (orders d) ->
  order_exists oid d -> order_exists oid d'.
Proof.
  intros Hm (o & Hin & Hid). unfold order_exists.
  assert (H : In oid (map o_id (orders d'))).
  { rewrite Hm. apply in_map_iff. eauto. }
  apply in_map_iff in H. destruct H as (o' & Hid' & Hin'). eauto.
Qed.

Lemma filter_update_key {A} (key : A -> Z) p f k (t : list A) :
  (forall r, key (f r) = key r) ->
  filter (fun r => key r =? k) (sql_update p f t)
  = sql_update p f (filter (fun r => key r =? k) t).
Proof.
  intros Hk. unfold sql_update. rewrite filter_map_comm. f_equal.
  apply filter_ext. intros r. destruct (p r); [rewrite Hk|]; reflexivity.
Qed.

Lemma filter_delete_other {A} (key : A -> Z) k k' (t : list A) :
  k <> k' ->
  filter (fun r => key r =? k) (sql_delete (fun r => key r =? k') t)
  = filter (fun r => key r =? k) t.
Proof.
  intros Hne. unfold sql_delete.
  induction t as [|a t IH]; simpl; [reflexivity|].
  destruct (key a =? k') eqn:E'; simpl.
  - apply Z.eqb_eq in E'.
    destruct (key a =? k) eqn:E; [apply Z.eqb_eq in E; congruence|exact IH].
  - destruct (key a =? k); [now rewrite IH|exact IH].
Qed.

Lemma length_filter_key {A} (key : A -> Z) k (t : list A) :
  List.length (filter (fun r => key r =? k) t)
  = List.length (filter (fun z => z =? k) (map key t)).
Proof. now rewrite filter_map_comm, length_map. Qed.

Lemma singleton_of_length {A} (l : list A) :
  List.length l = 1%nat -> exists a, l = [a].
Proof. destruct l as [|a [|b l]]; simpl; try discriminate. eauto. Qed.

(** A store that keeps the ids and totals of the orders, the order of every
    ticket and the line items of a consistent store, and whose payments
    belong to orders, is consistent. *)
Lemma Consistent_frame d d' :
  map o_id (orders d') = map o_id (orders d) ->
  (forall o', In o' (orders d') ->
     exists o, In o (orders d) /\ o_id o = o_id o'
               /\ o_total_price o = o_total_price o') ->
  map t_order_id (tickets d') = map t_order_id (tickets d) ->
  (forall p', In p' (payments d') ->
     (exists p, In p (payments d) /\ p_order_id p = p_order_id p')
     \/ order_exists (p_order_id p') d) ->
  order_items d' = order_items d ->
  Consistent d -> Consistent d'.
Proof.
  intros Hids Hord Htk Hpay Hitems (Ct & Cp & Ci & Cone & Ctot).
  unfold Consistent. repeat split.
  - intros t Hin. apply (order_exists_ext d d' _ Hids).
    assert (H : In (t_order_id t) (map t_order_id (tickets d')))
      by (now apply in_map).
    rewrite Htk in H. apply in_map_iff in H.
    destruct H as (t0 & <- & Hin0). auto.
  - intros p Hin. apply (order_exists_ext d d' _ Hids).
    destruct (Hpay p Hin) as [(p0 & Hin0 & <-)|H]; auto.
  - intros i Hin. apply (order_exists_ext d d' _ Hids).
    rewrite Hitems in Hin. auto.
  - intros o' Hin. destruct (Hord o' Hin) as (o & Hin0 & Hid & _).
    destruct (Cone o Hin0) as [t Ht]. apply singleton_of_length.
    unfold tickets_by_order, sql_select in *.
    rewrite length_filter_key, Htk, <- length_filter_key, <- Hid, Ht.
    reflexivity.
  - intros o' Hin. destruct (Hord o' Hin) as (o & Hin0 & Hid & Htot).
    rewrite <- Htot, <- Hid, <- (Ctot o Hin0).
    unfold items_total, items_by_order. now rewrite Hitems.
Qed.

Lemma orders_update_ids p s (t : list Order) :
  map o_id (sql_update p (set_o_status s) t) = map o_id t.
Proof. apply map_update_key. reflexivity. Qed.

Lemma orders_update_rows p s (t : list Order) o' :
  In o' (sql_update p (set_o_status s) t) ->
  exists o, In o t /\ o_id o = o_id o' /\ o_total_price o = o_total_price o'.
Proof.
  unfold sql_update. intros Hin. apply in_map_iff in Hin.
  destruct Hin as (o & <- & Hin). exists o. destruct (p o); auto.
Qed.

Lemma orders_same_rows (t : list Order) o' :
  In o' t ->
  exists o, In o t /\ o_id o = o_id o' /\ o_total_price o = o_total_price o'.
Proof. eauto. Qed.

Lemma payments_same_rows (d : DB) (t : list Payment) p' :
  In p' t ->
  (exists p, In p t /\ p_order_id p = p_order_id p')
  \/ order_exists (p_order_id p') d.
Proof. eauto. Qed.

Lemma payments_update_rows (d : DB) q s (t : list Payment) p' :
  In p' (sql_update q (set_p_status s) t) ->
  (exists p, In p t /\ p_order_id p = p_order_id p')
  \/ order_exists (p_order_id p') d.
Proof.
  unfold sql_update. intros Hin. apply in_map_iff in Hin.
  destruct Hin as (p & <- & Hin). left. exists p. destruct (q p); auto.
Qed.

Lemma payments_delete_rows (d : DB) q (t : list Payment) p' :
  In p' (sql_delete q t) ->
  (exists p, In p t /\ p_order_id p = p_order_id p')
  \/ order_exists (p_order_id p') d.
Proof.
  intros Hin. apply filter_In in Hin. left. exists p'. tauto.
Qed.

Lemma tickets_update_orders p b (t : list Ticket) :
  map t_order_id (sql_update p (set_t_is_used b) t) = map t_order_id t.
Proof. apply map_update_key. reflexivity. Qed.

Lemma Consistent_with_food l n d : Consistent d -> Consistent (with_food d l n).
Proof.
  apply Consistent_frame; db_simpl; auto using orders_same_rows,
    payments_same_rows.
Qed.

Lemma Consistent_orders_update p s d :
  Consistent d ->
  Consistent (with_orders d (sql_update p (set_o_status s) (orders d))
                (next_order d)).
Proof.
  apply Consistent_frame; db_simpl.
  - apply orders_update_ids.
  - apply orders_update_rows.
  - reflexivity.
  - apply payments_same_rows.
  - reflexivity.
Qed.

Lemma Consistent_update_order_status s oid d :
  Consistent d -> Consistent (update_order_status s oid d).
Proof. apply Consistent_orders_update. Qed.

Lemma Consistent_tickets_update p b d :
  Consistent d ->
  Consistent (with_tickets d (sql_update p (set_t_is_used b) (tickets d))
                (next_ticket d)).
Proof.
  apply Consistent_frame; db_simpl;
    auto using orders_same_rows, tickets_update_orders, payments_same_rows.
Qed.

Lemma Consistent_payments_update p s d :
  Consistent d ->
  Consistent (with_payments d (sql_update p (set_p_status s) (payments d))
                (next_payment d)).
Proof.
  apply Consistent_frame; db_simpl; try reflexivity.
  - apply orders_same_rows.
  - apply payments_update_rows.
Qed.

Lemma Consistent_payments_delete p d :
  Consistent d ->
  Consistent (with_payments d (sql_delete p (payments d)) (next_payment d)).
Proof.
  apply Consistent_frame; db_simpl; try reflexivity.
  - apply orders_same_rows.
  - apply payments_delete_rows.
Qed.

Lemma Consistent_purge_stale oid d :
  Consistent d -> Consistent (purge_stale oid d).
Proof.
  unfold purge_stale. intros H.
  destruct (sql_select _ _) as [|p l]; auto.
  destruct (p_status p); auto using Consistent_payments_delete.
Qed.

Lemma Consistent_insert_payment oid m a s txn d :
  order_exists oid d -> Consistent d ->
  Consistent (snd (insert_payment oid m a s txn d)).
Proof.
  intros Hex. apply Consistent_frame; db_simpl; auto using orders_same_rows.
  intros p' Hin. apply in_app_or in Hin. destruct Hin as [Hin|[<-|[]]].
  - left. eauto.
  - right. exact Hex.
Qed.

(** In a consistent store the order of a payment request has its ticket
    already: the handler issues none. *)
Lemma ensure_ticket_same oid now d :
  Consistent d -> order_exists oid d -> ensure_ticket oid now d = d.
Proof.
  intros (_ & _ & _ & Cone & _) (o & Hin & <-). unfold ensure_ticket.
  destruct (Cone o Hin) as [t Ht]. unfold tickets_by_order in Ht.
  now rewrite Ht.
Qed.

Lemma filter_none_forall {A} (p : A -> bool) (t : list A) :
  (forall r, In r t -> p r = false) -> filter p t = [].
Proof.
  induction t as [|a t IH]; simpl; intros H; [reflexivity|].
  rewrite (H a) by now left. apply IH. intros r Hr. apply H. now right.
Qed.

Lemma filter_all_forall {A} (p : A -> bool) (t : list A) :
  (forall r, In r t -> p r = true) -> filter p t = t.
Proof.
  induction t as [|a t IH]; simpl; intros H; [reflexivity|].
  rewrite (H a) by now left. f_equal. apply IH. intros r Hr. apply H.
  now right.
Qed.

Lemma Consistent_cancel orderId d :
  Consistent d ->
  Consistent
    (with_orders
       (with_payments
          (with_order_items
             (with_tickets d
                (sql_delete (fun t => t_order_id t =? orderId) (tickets d))
                (next_ticket d))
             (sql_delete (fun i => oi_order_id i =? orderId) (order_items d))
             (next_item d))
          (sql_delete (fun p => p_order_id p =? orderId) (payments d))
          (next_payment d))
       (sql_delete (fun o => o_id o =? orderId) (orders d))
       (next_order d)).
Proof.
  intros (Ct & Cp & Ci & Cone & Ctot).
  assert (Hex : forall oid, oid <> orderId -> order_exists oid d ->
                exists o, In o (sql_delete (fun o => o_id o =? orderId)
                                  (orders d)) /\ o_id o = oid).
  { intros oid Hne (o & Hin & Hid). exists o. split; [|assumption].
    apply filter_In. split; [assumption|].
    apply negb_true_iff, Z.eqb_neq. congruence. }
  unfold Consistent, order_exists, tickets_by_order, items_total,
    items_by_order, sql_select.
  db_simpl. repeat split.
  - intros t Hin. apply filter_In in Hin. destruct Hin as [Hin Hne].
    apply negb_true_iff, Z.eqb_neq in Hne. apply Hex; auto.
  - intros p Hin. apply filter_In in Hin. destruct Hin as [Hin Hne].
    apply negb_true_iff, Z.eqb_neq in Hne. apply Hex; auto.
  - intros i Hin. apply filter_In in Hin. destruct Hin as [Hin Hne].
    apply negb_true_iff, Z.eqb_neq in Hne. apply Hex; auto.
  - intros o Hin. apply filter_In in Hin. destruct Hin as [Hin Hne].
    apply negb_true_iff, Z.eqb_neq in Hne.
    rewrite (filter_delete_other t_order_id) by assumption.
    exact (Cone o Hin).
  - intros o Hin. apply filter_In in Hin. destruct Hin as [Hin Hne].
    apply negb_true_iff, Z.eqb_neq in Hne.
    rewrite (filter_delete_other oi_order_id) by assumption.
    exact (Ctot o Hin).
Qed.

Lemma price_items_sum foods items total acc t l :
  price_items foods items total acc = inr (t, l) ->
  exists priced, l = acc ++ priced /\ t = priced_sum total priced.
Proof.
  revert total acc. induction items as [|it items IH]; intros total acc; simpl.
  - intros H. inversion H; subst. exists []. rewrite app_nil_r. simpl.
    split; reflexivity.
  - destruct (sql_select _ foods) as [|f fs]; [discriminate|].
    intros H. apply IH in H. destruct H as (priced & -> & ->).
    exists ({| pi_item := it; pi_unit_price := f_price f |} :: priced).
    rewrite <- app_assoc. simpl. split; reflexivity.
Qed.

Lemma rows_of_priced oid rows priced :
  map line_of_row rows
  = map (fun pi => (oid, food_id (pi_item pi), quantity (pi_item pi),
                    Some (pi_unit_price pi))) priced ->
  (forall r, In r rows -> oi_order_id r = oid)
  /\ forall start, lines_total start rows = priced_sum start priced.
Proof.
  revert priced. induction rows as [|r rows IH]; intros [|pi priced]; simpl;
    try discriminate.
  - intros _. split; [tauto|reflexivity].
  - intros H. unfold line_of_row at 1 in H.
    injection H as H1 H2 H3 H4 H5.
    destruct (IH priced H5) as [Ha Hb]. split.
    + intros r' [<-|Hin]; auto.
    + intros start. unfold lines_total, priced_sum in *. simpl.
      rewrite H3, H4. apply Hb.
Qed.

Lemma Consistent_post_orders u items code d :
  Inv d -> Consistent d -> Consistent (snd (post_orders u items code d)).
Proof.
  intros (_ & [_ Hlt] & _) HC. unfold post_orders.
  destruct items as [|it0 items0]; [assumption|].
  destruct (price_items _ _ _ _) as [fid|[[total| |] priced]] eqn:Hprice;
    try assumption.
  apply price_items_sum in Hprice. destruct Hprice as (priced' & Hl & Htot).
  simpl in Hl. subst priced'.
  unfold insert_order. cbn [fst snd].
  set (new := {| o_id := next_order d; o_user_id := user_id u;
                 o_total_price := total; o_status := OPending |}).
  set (d1 := with_orders d (orders d ++ [new]) (next_order d + 1)).
  destruct (insert_items_frame (next_order d) priced d1)
    as (_ & Ho & Hp & Ht & _).
  destruct (insert_items_rows (next_order d) priced d1) as (rows & Hr & Hm).
  apply rows_of_priced in Hm. destruct Hm as [Hrows Hsum].
  destruct HC as (Ct & Cp & Ci & Cone & Ctot).
  assert (Hmono : forall oid, order_exists oid d ->
            exists o, In o (orders d ++ [new]) /\ o_id o = oid).
  { intros oid (o & Hin & Hid). exists o. split; [|assumption].
    apply in_or_app. now left. }
  assert (Hnew : exists o, In o (orders d ++ [new]) /\ o_id o = next_order d).
  { exists new. split; [|reflexivity]. apply in_or_app. right. now left. }
  assert (Hold : forall oid, order_exists oid d -> oid <> next_order d).
  { intros oid (o & Hin & <-). specialize (Hlt o Hin). lia. }
  unfold Consistent, order_exists, tickets_by_order, items_total,
    items_by_order, sql_select.
  db_simpl. rewrite Ho, Hp, Ht, Hr. subst d1. db_simpl.
  repeat split.
  - intros t Hin. apply in_app_or in Hin.
    destruct Hin as [Hin|[<-|[]]]; auto.
  - intros p Hin. auto.
  - intros i Hin. apply in_app_or in Hin. destruct Hin as [Hin|Hin]; auto.
    rewrite (Hrows i Hin). exact Hnew.
  - intros o Hin. apply in_app_or in Hin. rewrite filter_app. simpl.
    destruct Hin as [Hin|[<-|[]]].
    + assert (Hne : next_order d <> o_id o) by (specialize (Hlt o Hin); lia).
      apply Z.eqb_neq in Hne. rewrite Hne, app_nil_r. exact (Cone o Hin).
    + cbn [o_id new]. rewrite Z.eqb_refl.
      rewrite filter_none_forall; [simpl; eauto|].
      intros t Ht'. apply Z.eqb_neq. apply Hold. auto.
  - intros o Hin. apply in_app_or in Hin. rewrite filter_app.
    destruct Hin as [Hin|[<-|[]]].
    + rewrite (filter_none_forall _ rows).
      * rewrite app_nil_r. exact (Ctot o Hin).
      * intros r Hr'. apply Z.eqb_neq. rewrite (Hrows r Hr').
        specialize (Hlt o Hin). lia.
    + cbn [o_id o_total_price new].
      rewrite (filter_all_forall _ rows)
        by (intros r Hr'; apply Z.eqb_eq; auto).
      rewrite (filter_none_forall _ (order_items d)).
      * simpl. rewrite Hsum. symmetry. exact Htot.
      * intros i Hi. apply Z.eqb_neq. apply Hold. auto.
Qed.

Lemma Consistent_post_payments env c u r d :
  Consistent d -> Consistent (snd (post_payments env c u r d)).
Proof.
  intros H. unfold post_payments.
  destruct (_ || _ || _)%bool; auto.
  destruct (amount r <=? 0); auto.
  destruct (orders_of_user _ _ _) as [|o rest] eqn:Ho; auto.
  destruct (has_completed_first _ _); auto.
  apply orders_of_user_In in Ho. destruct Ho as (Hin & Hid & _).
  assert (Hex : order_exists (order_id r) (purge_stale (order_id r) d)).
  { exists o. rewrite (proj1 (purge_stale_frame (order_id r) d)). auto. }
  pose proof (Consistent_purge_stale (order_id r) d H) as H1.
  destruct (String.eqb (method r) "cash").
  - unfold insert_payment. cbn [fst snd].
    rewrite ensure_ticket_same.
    + apply Consistent_update_order_status.
      apply (Consistent_insert_payment (order_id r) Cash (amount r)
               PPending None _ Hex H1).
    + apply Consistent_update_order_status.
      apply (Consistent_insert_payment (order_id r) Cash (amount r)
               PPending None _ Hex H1).
    + destruct Hex as (o1 & Hin1 & Hid1).
      apply (order_exists_ext (purge_stale (order_id r) d)).
      * db_simpl. apply orders_update_ids.
      * exists o1. auto.
  - destruct (String.eqb (method r) "online"); cbn [snd]; auto.
    destruct (build_redirect env c r) as [url txn].
    unfold insert_payment. cbn [fst snd].
    rewrite ensure_ticket_same.
    + apply (Consistent_insert_payment (order_id r) Online (amount r)
               PPending (Some txn) _ Hex H1).
    + apply (Consistent_insert_payment (order_id r) Online (amount r)
               PPending (Some txn) _ Hex H1).
    + destruct Hex as (o1 & Hin1 & Hid1). exists o1. auto.
Qed.

Lemma Consistent_handle env op d :
  Inv d -> Consistent d -> Consistent (snd (handle env op d)).
Proof.
  intros HI H. destruct op; cbn [handle].
  - unfold post_foods.
    destruct (negb _); auto.
    destruct (_ || _ || _)%bool; cbn [snd]; auto using Consistent_with_food.
  - unfold put_foods.
    destruct (negb _); auto. destruct (_ || _ || _)%bool; auto.
    destruct (Nat.eqb _ _); cbn [snd]; auto using Consistent_with_food.
  - unfold delete_foods.
    destruct (negb _); auto.
    destruct (Nat.eqb _ _); cbn [snd]; auto using Consistent_with_food.
  - now apply Consistent_post_orders.
  - unfold post_tickets_verify.
    destruct (negb _); auto. destruct (String.eqb _ _); auto.
    destruct (tickets_join_payments _ _ _ _) as [|[t ps] l]; auto.
    destruct (negb _); cbn [snd]; auto using Consistent_tickets_update.
  - unfold post_payments_confirm.
    destruct (negb _); auto. destruct (payment_id =? 0); auto.
    destruct (sql_select _ _) as [|p l]; auto.
    destruct (PaymentStatus_eqb _ _); cbn [snd];
      auto using Consistent_payments_update.
  - unfold put_admin_orders_status.
    destruct (negb _); auto. destruct (admin_status _); auto.
    destruct (sql_select _ _); cbn [snd];
      auto using Consistent_update_order_status.
  - unfold delete_orders_cancel.
    destruct (orders_of_user _ _ _) as [|o l]; auto.
    destruct (negb _); cbn [snd]; auto.
    exact (Consistent_cancel orderId d H).
  - now apply Consistent_post_payments.
  - unfold get_vnpay_return.
    destruct (negb _); auto.
    destruct (obj_get _ _); auto.
    destruct (js_eq_str _ _); cbn [snd];
      auto using Consistent_payments_update.
    apply Consistent_orders_update, Consistent_payments_update. assumption.
  - unfold post_admin_scan_qr.
    destruct (negb _); auto. destruct (String.eqb _ _); auto.
    destruct (tickets_join_orders _ _ _) as [|[t st] l]; auto.
    destruct (_ || _)%bool; auto.
    destruct st; cbn [snd]; auto.
    apply (Consistent_tickets_update (fun t0 => t_id t0 =? t_id t)).
    now apply Consistent_update_order_status.
  - unfold delete_orders.
    destruct (orders_of_user _ _ _); cbn [snd];
      auto using Consistent_update_order_status.
Qed.

Lemma reachable_Consistent env d : reachable env d -> Consistent d.
Proof.
  induction 1 as [|d op Hr IH].
  - unfold Consistent. simpl. repeat split; intros ? [].
  - apply Consistent_handle; [now apply (reachable_Inv env)|assumption].
Qed.

(** ** Keys of the other tables *)

Lemma keys_ok_of_map {A} (key : A -> Z) (t t' : list A) n :
  map key t' = map key t -> keys_ok key t n -> keys_ok key t' n.
Proof.
  intros Hm [Hnd Hlt]. split; [now rewrite Hm|].
  intros r Hr.
  assert (H : In (key r) (map key t')) by now apply in_map.
  rewrite Hm in H. apply in_map_iff in H. destruct H as (r0 & <- & Hr0).
  auto.
Qed.

Lemma map_update_key_on {A} (key : A -> Z) p f (t : list A) :
  (forall r, p r = true -> key (f r) = key r) ->
  map key (sql_update p f t) = map key t.
Proof.
  intros Hk. unfold sql_update. rewrite map_map. apply map_ext.
  intros r. destruct (p r) eqn:E; auto.
Qed.

Lemma keys_ok_insert_items oid l d :
  keys_ok oi_id (order_items d) (next_item d) ->
  keys_ok oi_id (order_items (insert_items oid l d))
    (next_item (insert_items oid l d)).
Proof.
  unfold insert_items. revert d.
  induction l as [|it l IH]; intros d H; simpl; [assumption|].
  apply IH. db_simpl. apply keys_ok_insert; [reflexivity|assumption].
Qed.

Lemma Keys_frame d d' :
  food d' = food d -> next_food d' = next_food d ->
  payments d' = payments d -> next_payment d' = next_payment d ->
  order_items d' = order_items d -> next_item d' = next_item d ->
  Keys d -> Keys d'.
Proof. unfold Keys. intros -> -> -> -> -> ->. tauto. Qed.

Lemma Keys_payments d l n :
  keys_ok p_payment_id l n -> Keys d -> Keys (with_payments d l n).
Proof. unfold Keys. db_simpl. tauto. Qed.

Lemma Keys_post_payments env c u r d :
  Keys d -> Keys (snd (post_payments env c u r d)).
Proof.
  intros H. unfold post_payments.
  destruct (_ || _ || _)%bool; auto.
  destruct (amount r <=? 0); auto.
  destruct (orders_of_user _ _ _); auto.
  destruct (has_completed_first _ _); auto.
  assert (H1 : Keys (purge_stale (order_id r) d)).
  { unfold purge_stale. destruct (sql_select _ _) as [|p0 l0]; auto.
    destruct (p_status p0); auto;
      (apply Keys_payments; [apply keys_ok_delete; apply H|assumption]). }
  assert (He : forall a b x, Keys x -> Keys (ensure_ticket a b x)).
  { intros a b x Hx. unfold ensure_ticket.
    destruct (sql_select _ _); auto. }
  assert (Hi : forall m a s txn x, Keys x ->
                 Keys (snd (insert_payment (order_id r) m a s txn x))).
  { intros m a s txn x Hx. cbn [insert_payment snd].
    apply Keys_payments; [|assumption].
    apply keys_ok_insert; [reflexivity|apply Hx]. }
  destruct (String.eqb (method r) "cash").
  - unfold insert_payment. cbn [fst snd]. apply He.
    unfold update_order_status.
    generalize (Hi Cash (amount r) PPending None _ H1).
    apply Keys_frame; reflexivity.
  - destruct (String.eqb (method r) "online"); cbn [snd]; auto.
    destruct (build_redirect env c r) as [url txn].
    unfold insert_payment. cbn [fst snd]. apply He.
    apply (Hi Online (amount r) PPending (Some txn) _ H1).
Qed.

Lemma Keys_handle env op d : Keys d -> Keys (snd (handle env op d)).
Proof.
  intros H. pose proof H as (Hf & Hp & Hi). destruct op; cbn [handle].
  - unfold post_foods. destruct (negb _); auto.
    destruct (_ || _ || _)%bool; cbn [snd]; auto.
    unfold Keys. db_simpl. split; [|tauto]. apply keys_ok_insert; auto.
  - unfold put_foods. destruct (negb _); auto.
    destruct (_ || _ || _)%bool; auto.
    assert (Hk : keys_ok f_id
                   (sql_update (fun f => f_id f =? id)
                      (fun _ => {| f_id := id; f_name := name;
                                   f_price := price;
                                   f_category_id := category_id |})
                      (food d)) (next_food d)).
    { apply (keys_ok_of_map f_id (food d)); [|assumption].
      apply map_update_key_on. intros r Hr. apply Z.eqb_eq in Hr.
      now rewrite Hr. }
    destruct (Nat.eqb _ _); cbn [snd]; unfold Keys; db_simpl; tauto.
  - unfold delete_foods. destruct (negb _); auto.
    assert (Hk := keys_ok_delete f_id (fun f => f_id f =? id) _ _ Hf).
    destruct (Nat.eqb _ _); cbn [snd]; unfold Keys; db_simpl; tauto.
  - unfold post_orders. destruct items; auto.
    destruct (price_items _ _ _ _) as [fid|[[total| |] priced]]; auto.
    cbn [snd insert_order fst].
    set (d1 := with_orders d _ _).
    destruct (insert_items_frame (next_order d) priced d1)
      as (Hfo & _ & Hpa & _ & _ & Hnp & _ & Hnf).
    pose proof (keys_ok_insert_items (next_order d) priced d1 Hi) as Hit.
    unfold Keys. db_simpl. rewrite Hfo, Hpa, Hnp, Hnf. subst d1. db_simpl.
    tauto.
  - unfold post_tickets_verify. destruct (negb _); auto.
    destruct (String.eqb _ _); auto.
    destruct (tickets_join_payments _ _ _ _) as [|[t ps] l]; auto.
    destruct (negb _); cbn [snd]; auto.
  - unfold post_payments_confirm. destruct (negb _); auto.
    destruct (payment_id =? 0); auto.
    destruct (sql_select _ _) as [|p l]; auto.
    destruct (PaymentStatus_eqb _ _); cbn [snd]; auto.
    apply Keys_payments; [|assumption]. apply keys_ok_update; auto.
  - unfold put_admin_orders_status. destruct (negb _); auto.
    destruct (admin_status _); auto.
    destruct (sql_select _ _); cbn [snd]; auto.
  - unfold delete_orders_cancel.
    destruct (orders_of_user _ _ _) as [|o l]; auto.
    destruct (negb _); cbn [snd]; auto.
    unfold Keys. db_simpl.
    split; [assumption|split; apply keys_ok_delete; assumption].
  - now apply Keys_post_payments.
  - unfold get_vnpay_return. destruct (negb _); auto.
    destruct (obj_get _ _); auto.
    destruct (js_eq_str _ _); cbn [snd].
    + unfold Keys. db_simpl.
      split; [assumption|split; [|assumption]].
      apply keys_ok_update; auto.
    + apply Keys_payments; [|assumption]. apply keys_ok_update; auto.
  - unfold post_admin_scan_qr. destruct (negb _); auto.
    destruct (String.eqb _ _); auto.
    destruct (tickets_join_orders _ _ _) as [|[t st] l]; auto.
    destruct (_ || _)%bool; auto.
    destruct st; cbn [snd]; auto.
  - unfold delete_orders.
    destruct (orders_of_user _ _ _); cbn [snd]; auto.
Qed.

Lemma reachable_Keys env d : reachable env d -> Keys d.
Proof.
  induction 1 as [|d op Hr IH]; [|now apply Keys_handle].
  unfold Keys, keys_ok. simpl. repeat split; try constructor; intros ? [].
Qed.

(** ** The transitions of an order and of a payment *)

Lemma row_after_update {A} (key : A -> Z) (t : list A) n p f a a' :
  keys_ok key t n -> (forall r, key (f r) = key r) ->
  In a t -> In a' (sql_update p f t) -> key a' = key a ->
  a' = if p a then f a else a.
Proof.
  intros Hk Hf Ha Ha' Hid. unfold sql_update in Ha'.
  apply in_map_iff in Ha'. destruct Ha' as (a0 & <- & Ha0).
  assert (a0 = a).
  { eapply keys_ok_unique; eauto. rewrite <- Hid.
    destruct (p a0); [now rewrite Hf|reflexivity]. }
  now subst a0.
Qed.

Lemma row_after_delete {A} (key : A -> Z) (t : list A) n p a a' :
  keys_ok key t n ->
  In a t -> In a' (sql_delete p t) -> key a' = key a -> a' = a.
Proof.
  intros Hk Ha Ha' Hid. apply filter_In in Ha'. destruct Ha' as [Ha' _].
  eapply keys_ok_unique; eauto.
Qed.

Lemma row_after_insert {A} (key : A -> Z) (t : list A) n r a a' :
  keys_ok key t n -> key r = n ->
  In a t -> In a' (t ++ [r]) -> key a' = key a -> a' = a.
Proof.
  intros Hk Hr Ha Ha' Hid. apply in_app_or in Ha'.
  destruct Ha' as [Ha'|[<-|[]]].
  - eapply keys_ok_unique; eauto.
  - destruct Hk as [_ Hlt]. specialize (Hlt a Ha). lia.
Qed.

Lemma row_same {A} (key : A -> Z) (t : list A) n a a' :
  keys_ok key t n -> In a t -> In a' t -> key a' = key a -> a' = a.
Proof. intros. eapply keys_ok_unique; eauto. Qed.

(** In a reachable store the status of an order changes in five ways
    only: a cash payment recorded by its owner makes it [confirmed]; a
    success callback with a valid signature makes it [completed]; the
    admin sets it to one of the three statuses of the status route; a scan
    by the admin takes it from [completed] to [scanned]; DELETE
    /api/orders/:orderId by its owner makes it [cancelled]. *)
Theorem order_status_transitions env d op o o' :
  reachable env d ->
  In o (orders d) ->
  In o' (orders (snd (handle env op d))) ->
  o_id o' = o_id o ->
  o_status o' <> o_status o ->
  (exists c u r,
      op = PostPayments c u r /\ method r = "cash"%string
      /\ order_id r = o_id o /\ user_id u = o_user_id o
      /\ o_status o' = OConfirmed)
  \/ (exists q,
         op = GetVnpayReturn q /\ signature_valid env q = true
         /\ obj_get q "vnp_ResponseCode" = JStr "00"
         /\ o_status o' = OCompleted)
  \/ (exists u s,
         op = PutAdminOrdersStatus u (o_id o) s /\ is_admin u = true
         /\ admin_status s = Some (o_status o'))
  \/ (exists u code,
         op = PostAdminScanQr u code /\ is_admin u = true
         /\ o_status o = OCompleted /\ o_status o' = OScanned)
  \/ (exists u,
         op = DeleteOrders u (o_id o) /\ user_id u = o_user_id o
         /\ o_status o' = OCancelled).
Proof.
  intros Hreach Ho Ho' Hid Hst.
  pose proof (reachable_Inv env d Hreach) as (_ & Hko & _).
  assert (Hsame : In o' (orders d) -> False).
  { intros H. apply Hst. f_equal. eapply row_same; eauto. }
  assert (Hupd : forall p s,
            In o' (sql_update p (set_o_status s) (orders d)) ->
            p o = true /\ o_status o' = s).
  { intros p s H.
    rewrite (row_after_update o_id (orders d) _ p (set_o_status s) o o'
               Hko (fun r => eq_refl) Ho H Hid) in *.
    destruct (p o); [auto|]. now destruct Hst. }
  destruct op; cbn [handle] in Ho'.
  - exfalso. apply Hsame. revert Ho'. unfold post_foods.
    destruct (negb _); auto. destruct (_ || _ || _)%bool; auto.
  - exfalso. apply Hsame. revert Ho'. unfold put_foods.
    destruct (negb _); auto. destruct (_ || _ || _)%bool; auto.
    destruct (Nat.eqb _ _); auto.
  - exfalso. apply Hsame. revert Ho'. unfold delete_foods.
    destruct (negb _); auto. destruct (Nat.eqb _ _); auto.
  - exfalso. revert Ho'. unfold post_orders.
    destruct items; auto.
    destruct (price_items _ _ _ _) as [fid|[[total| |] priced]]; auto.
    cbn [snd insert_order fst]. db_simpl.
    match goal with |- context [insert_items ?a ?l ?x] =>
      rewrite (proj1 (proj2 (insert_items_frame a l x))) end.
    db_simpl. intros H. apply Hst. f_equal.
    eapply row_after_insert; eauto. reflexivity.
  - exfalso. apply Hsame. revert Ho'. unfold post_tickets_verify.
    destruct (negb _); auto. destruct (String.eqb _ _); auto.
    destruct (tickets_join_payments _ _ _ _) as [|[t ps] l]; auto.
    destruct (negb _); auto.
  - exfalso. apply Hsame. revert Ho'. unfold post_payments_confirm.
    destruct (negb _); auto. destruct (payment_id =? 0); auto.
    destruct (sql_select _ _); auto.
    destruct (PaymentStatus_eqb _ _); auto.
  - right. right. left. revert Ho'. unfold put_admin_orders_status.
    destruct (negb (is_admin u)) eqn:Ha; [intros H; now destruct (Hsame H)|].
    destruct (admin_status status) as [s|] eqn:Hs;
      [|intros H; now destruct (Hsame H)].
    destruct (sql_select _ _); [intros H; now destruct (Hsame H)|].
    cbn [snd]. db_simpl. intros H. apply Hupd in H. destruct H as [Hp ->].
    apply Z.eqb_eq in Hp. subst orderId. apply negb_false_iff in Ha.
    exists u, status. auto.
  - exfalso. revert Ho'. unfold delete_orders_cancel.
    destruct (orders_of_user _ _ _); auto.
    destruct (negb _); auto. cbn [snd]. db_simpl. intros H.
    apply Hst. f_equal. eapply row_after_delete; eauto.
  - left. revert Ho'. unfold post_payments.
    destruct (_ || _ || _)%bool; [intros H; now destruct (Hsame H)|].
    destruct (amount r <=? 0); [intros H; now destruct (Hsame H)|].
    destruct (orders_of_user _ _ _) as [|o1 rest] eqn:Hown;
      [intros H; now destruct (Hsame H)|].
    destruct (has_completed_first _ _); [intros H; now destruct (Hsame H)|].
    pose proof (proj1 (purge_stale_frame (order_id r) d)) as Hp.
    destruct (String.eqb (method r) "cash") eqn:Hm.
    + unfold insert_payment. cbn [fst snd].
      match goal with |- context [ensure_ticket ?a ?b ?x] =>
        rewrite (proj1 (ensure_ticket_frame a b x)) end.
      db_simpl. rewrite Hp. intros H. apply Hupd in H.
      destruct H as [Hpo ->]. apply Z.eqb_eq in Hpo.
      apply String.eqb_eq in Hm.
      apply orders_of_user_In in Hown. destruct Hown as (Hin1 & Hid1 & Hu1).
      assert (o1 = o) by (eapply row_same; eauto; congruence). subst o1.
      exists c, u, r. auto.
    + destruct (String.eqb (method r) "online").
      * destruct (build_redirect env c r) as [url txn].
        unfold insert_payment. cbn [fst snd].
        match goal with |- context [ensure_ticket ?a ?b ?x] =>
          rewrite (proj1 (ensure_ticket_frame a b x)) end.
        db_simpl. rewrite Hp. intros H. now destruct (Hsame H).
      * cbn [snd]. rewrite Hp. intros H. now destruct (Hsame H).
  - right. left. revert Ho'. unfold get_vnpay_return.
    destruct (negb _) eqn:Hsig; [intros H; now destruct (Hsame H)|].
    apply negb_false_iff in Hsig.
    rewrite !obj_get_delete_other by discriminate.
    destruct (obj_get query "vnp_TxnRef");
      try (intros H; now destruct (Hsame H)).
    destruct (js_eq_str (obj_get query "vnp_ResponseCode") "00") eqn:Hcode;
      [|intros H; now destruct (Hsame H)].
    cbn [snd]. db_simpl. intros H. apply Hupd in H. destruct H as [_ ->].
    apply js_eq_str_true in Hcode. exists query.
    unfold signature_valid. auto.
  - right. right. right. left. revert Ho'. unfold post_admin_scan_qr.
    destruct (negb (is_admin u)) eqn:Ha; [intros H; now destruct (Hsame H)|].
    destruct (String.eqb _ _); [intros H; now destruct (Hsame H)|].
    destruct (tickets_join_orders _ _ _) as [|[t st] l] eqn:Hj;
      [intros H; now destruct (Hsame H)|].
    destruct (_ || _)%bool; [intros H; now destruct (Hsame H)|].
    apply join_orders_head in Hj.
    destruct Hj as (_ & _ & o1 & Hin1 & Hid1 & Hst1).
    destruct st; try (intros H; now destruct (Hsame H)).
    cbn [snd]. db_simpl. intros H. apply Hupd in H. destruct H as [Hp ->].
    apply Z.eqb_eq in Hp.
    assert (o1 = o) by (eapply row_same; eauto; congruence). subst o1.
    apply negb_false_iff in Ha. exists u, ticket_code. auto.
  - right. right. right. right. revert Ho'. unfold delete_orders.
    destruct (orders_of_user _ _ _) as [|o1 rest] eqn:Hown;
      [intros H; now destruct (Hsame H)|].
    cbn [snd]. db_simpl. intros H. apply Hupd in H. destruct H as [Hp ->].
    apply Z.eqb_eq in Hp. subst orderId.
    apply orders_of_user_In in Hown. destruct Hown as (Hin1 & Hid1 & Hu1).
    assert (o1 = o) by (eapply row_same; eauto). subst o1.
    exists u. auto.
Qed.

Lemma purge_stale_payments oid d p :
  In p (payments (purge_stale oid d)) -> In p (payments d).
Proof.
  unfold purge_stale. destruct (sql_select _ _) as [|p0 l0]; auto.
  destruct (p_status p0); auto; db_simpl; intros H; apply filter_In in H;
    tauto.
Qed.

(** In a reachable store a payment row that stays in the table changes
    in its status only, and in two ways: the admin confirms a cash payment
    that is not completed, which completes it; a callback with a valid
    signature completes it on the code [00] and cancels it on any other. *)
Theorem payment_transitions env d op p p' :
  reachable env d ->
  In p (payments d) ->
  In p' (payments (snd (handle env op d))) ->
  p_payment_id p' = p_payment_id p ->
  p' <> p ->
  p' = set_p_status (p_status p') p
  /\ ((exists u,
          op = PostPaymentsConfirm u (p_payment_id p) /\ is_admin u = true
          /\ p_method p = Cash /\ p_status p <> PCompleted
          /\ p_status p' = PCompleted)
      \/ (exists q,
             op = GetVnpayReturn q /\ signature_valid env q = true
             /\ (obj_get q "vnp_ResponseCode" = JStr "00"
                 /\ p_status p' = PCompleted
                 \/ obj_get q "vnp_ResponseCode" <> JStr "00"
                    /\ p_status p' = PCancelled))).
Proof.
  intros Hreach Hp Hp' Hid Hne.
  pose proof (reachable_Keys env d Hreach) as (_ & Hkp & _).
  assert (Hsame : In p' (payments d) -> False).
  { intros H. apply Hne. eapply row_same; eauto. }
  assert (Hupd : forall q s,
            In p' (sql_update q (set_p_status s) (payments d)) ->
            q p = true /\ p' = set_p_status s p).
  { intros q s H.
    pose proof (row_after_update p_payment_id (payments d) _ q
                  (set_p_status s) p p' Hkp (fun r => eq_refl) Hp H Hid)
      as E.
    destruct (q p); [auto|]. now destruct Hne. }
  destruct op; cbn [handle] in Hp'.
  - exfalso. apply Hsame. revert Hp'. unfold post_foods.
    destruct (negb _); auto. destruct (_ || _ || _)%bool; auto.
  - exfalso. apply Hsame. revert Hp'. unfold put_foods.
    destruct (negb _); auto. destruct (_ || _ || _)%bool; auto.
    destruct (Nat.eqb _ _); auto.
  - exfalso. apply Hsame. revert Hp'. unfold delete_foods.
    destruct (negb _); auto. destruct (Nat.eqb _ _); auto.
  - exfalso. apply Hsame. revert Hp'. unfold post_orders.
    destruct items; auto.
    destruct (price_items _ _ _ _) as [fid|[[total| |] priced]]; auto.
    cbn [snd insert_order fst]. db_simpl.
    match goal with |- context [insert_items ?a ?l ?x] =>
      rewrite (proj1 (proj2 (proj2 (insert_items_frame a l x)))) end.
    db_simpl. auto.
  - exfalso. apply Hsame. revert Hp'. unfold post_tickets_verify.
    destruct (negb _); auto. destruct (String.eqb _ _); auto.
    destruct (tickets_join_payments _ _ _ _) as [|[t ps] l]; auto.
    destruct (negb _); auto.
  - revert Hp'. unfold post_payments_confirm.
    destruct (negb (is_admin u)) eqn:Ha; [intros H; now destruct (Hsame H)|].
    destruct (payment_id =? 0); [intros H; now destruct (Hsame H)|].
    destruct (sql_select _ _) as [|p1 l] eqn:Hsel;
      [intros H; now destruct (Hsame H)|].
    destruct (PaymentStatus_eqb (p_status p1) PCompleted) eqn:Hst;
      [intros H; now destruct (Hsame H)|].
    cbn [snd]. db_simpl. intros H. apply Hupd in H. destruct H as [Hq ->].
    apply Z.eqb_eq in Hq. split; [reflexivity|]. left.
    assert (Hin1 : In p1 (sql_select
                            (fun p => (p_payment_id p =? payment_id)
                                      && is_cash (p_method p))
                            (payments d))) by (rewrite Hsel; now left).
    apply filter_In in Hin1. destruct Hin1 as [Hin1 Hc].
    apply andb_true_iff in Hc. destruct Hc as [Hc1 Hc2].
    apply Z.eqb_eq in Hc1.
    assert (p1 = p) by (eapply row_same; eauto; congruence). subst p1.
    apply negb_false_iff in Ha. exists u. subst payment_id.
    repeat split; auto.
    + destruct (p_method p); [reflexivity|discriminate].
    + intros E. rewrite E in Hst. discriminate.
  - exfalso. apply Hsame. revert Hp'. unfold put_admin_orders_status.
    destruct (negb _); auto. destruct (admin_status _); auto.
    destruct (sql_select _ _); auto.
  - exfalso. revert Hp'. unfold delete_orders_cancel.
    destruct (orders_of_user _ _ _); auto.
    destruct (negb _); auto. cbn [snd]. db_simpl. intros H.
    apply Hne. eapply row_after_delete; eauto.
  - exfalso. revert Hp'. unfold post_payments.
    destruct (_ || _ || _)%bool; auto.
    destruct (amount r <=? 0); auto.
    destruct (orders_of_user _ _ _); auto.
    destruct (has_completed_first _ _); auto.
    pose proof (proj1 (proj2 (proj2 (purge_stale_frame (order_id r) d))))
      as Hn.
    assert (Hnew : forall m a s txn,
      In p' (payments (purge_stale (order_id r) d)
             ++ [{| p_payment_id := next_payment (purge_stale (order_id r) d);
                    p_order_id := order_id r; p_method := m; p_amount := a;
                    p_status := s; p_transaction_id := txn |}]) -> False).
    { intros m a s txn H. apply in_app_or in H.
      destruct H as [H|[<-|[]]].
      - apply Hsame. eapply purge_stale_payments; eauto.
      - cbn [p_payment_id] in Hid. rewrite Hn in Hid.
        destruct Hkp as [_ Hlt]. specialize (Hlt p Hp). lia. }
    destruct (String.eqb (method r) "cash").
    + unfold insert_payment. cbn [fst snd].
      match goal with |- context [ensure_ticket ?a ?b ?x] =>
        rewrite (proj2 (ensure_ticket_frame a b x)) end.
      db_simpl. apply Hnew.
    + destruct (String.eqb (method r) "online").
      * destruct (build_redirect env c r) as [url txn].
        unfold insert_payment. cbn [fst snd].
        match goal with |- context [ensure_ticket ?a ?b ?x] =>
          rewrite (proj2 (ensure_ticket_frame a b x)) end.
        db_simpl. apply Hnew.
      * cbn [snd]. intros H. apply Hsame.
        eapply purge_stale_payments; eauto.
  - revert Hp'. unfold get_vnpay_return.
    destruct (negb _) eqn:Hsig; [intros H; now destruct (Hsame H)|].
    apply negb_false_iff in Hsig.
    rewrite !obj_get_delete_other by discriminate.
    destruct (obj_get query "vnp_TxnRef");
      try (intros H; now destruct (Hsame H)).
    destruct (js_eq_str (obj_get query "vnp_ResponseCode") "00") eqn:Hcode;
      cbn [snd]; db_simpl; intros H; apply Hupd in H; destruct H as [_ ->];
      (split; [reflexivity|]); right; exists query;
      (split; [reflexivity|]); (split; [exact Hsig|]).
    + left. apply js_eq_str_true in Hcode. auto.
    + right. split; [|reflexivity]. intros E.
      apply js_eq_str_true in E. congruence.
  - exfalso. apply Hsame. revert Hp'. unfold post_admin_scan_qr.
    destruct (negb _); auto. destruct (String.eqb _ _); auto.
    destruct (tickets_join_orders _ _ _) as [|[t st] l]; auto.
    destruct (_ || _)%bool; auto. destruct st; auto.
  - exfalso. apply Hsame. revert Hp'. unfold delete_orders.
    destruct (orders_of_user _ _ _); auto.
Qed.

(** ** Authorization *)

(** The seven routes of the admin answer 403 to any other caller and
    leave the store as it is. *)
Theorem admin_routes_refuse_customers env op u d :
  admin_route op = Some u -> is_admin u = false ->
  handle env op d = (unauthorized, d).
Proof.
  destruct op; cbn [admin_route]; try discriminate;
    intros H Ha; inversion H; subst; cbn [handle];
    [ unfold post_foods | unfold put_foods | unfold delete_foods
    | unfold post_tickets_verify | unfold post_payments_confirm
    | unfold put_admin_orders_status | unfold post_admin_scan_qr ];
    rewrite Ha; reflexivity.
Qed.

Lemma orders_of_user_none oid uid d :
  (forall o, In o (orders d) -> o_id o = oid -> o_user_id o <> uid) ->
  orders_of_user oid uid d = [].
Proof.
  intros H. unfold orders_of_user, sql_select. apply filter_none_forall.
  intros o Hin. apply andb_false_iff.
  destruct (o_id o =? oid) eqn:E; [right|now left].
  apply Z.eqb_eq in E. apply Z.eqb_neq. auto.
Qed.

(** The routes that look an order up by its id and its owner, the two
    cancellations and the payment request, write nothing for a caller who
    owns no order of that id; the answer is 404 "Order not found or not
    authorized", or 400 when the payment request is malformed. *)
Theorem owner_routes_refuse_strangers env op u oid d :
  owner_route op = Some (u, oid) ->
  (forall o, In o (orders d) -> o_id o = oid -> o_user_id o <> user_id u) ->
  snd (handle env op d) = d
  /\ (fst (handle env op d) = not_found_or_not_authorized
      \/ status_code (fst (handle env op d)) = 400).
Proof.
  intros Hop Hown. apply orders_of_user_none in Hown.
  destruct op; cbn [owner_route] in Hop; try discriminate;
    inversion Hop; subst; cbn [handle].
  - unfold delete_orders_cancel. rewrite Hown. auto.
  - unfold post_payments.
    destruct (_ || _ || _)%bool; [auto|].
    destruct (amount r <=? 0); [auto|]. rewrite Hown. auto.
  - unfold delete_orders. rewrite Hown. auto.
Qed.

(** ** Confirming, verifying and cancelling, then trying again *)

Lemma confirm_success u payment_id d :
  status_code (fst (post_payments_confirm u payment_id d)) = 200 ->
  (payment_id =? 0) = false
  /\ (exists p l,
        sql_select (fun p => (p_payment_id p =? payment_id)
                             && is_cash (p_method p)) (payments d) = p :: l)
  /\ snd (post_payments_confirm u payment_id d)
     = with_payments d
         (sql_update (fun p => p_payment_id p =? payment_id)
            (set_p_status PCompleted) (payments d))
         (next_payment d).
Proof.
  unfold post_payments_confirm.
  destruct (negb (is_admin u)); [discriminate|].
  destruct (payment_id =? 0) eqn:Hz; [discriminate|].
  destruct (sql_select _ _) as [|p l] eqn:Hsel; [discriminate|].
  destruct (PaymentStatus_eqb (p_status p) PCompleted); [discriminate|].
  intros _. eauto.
Qed.

(** A cash payment is confirmed once: after a confirmation that answered
    200 the same request, by any admin, answers 400 "Payment already
    completed" and writes nothing; and the confirmation touches no order,
    ticket or line item. *)
Theorem confirm_twice u u' payment_id d :
  status_code (fst (post_payments_confirm u payment_id d)) = 200 ->
  is_admin u' = true ->
  let d' := snd (post_payments_confirm u payment_id d) in
  post_payments_confirm u' payment_id d'
  = (Reply 400 (BError "Payment already completed"), d')
  /\ orders d' = orders d /\ tickets d' = tickets d
  /\ order_items d' = order_items d.
Proof.
  intros Hs Ha. cbn zeta.
  destruct (confirm_success u payment_id d Hs) as (Hz & (p & l & Hsel) & ->).
  db_simpl. repeat split.
  unfold post_payments_confirm. rewrite Ha, Hz. cbn [negb]. db_simpl.
  unfold sql_select in *. unfold sql_update at 1.
  rewrite filter_map_comm.
  rewrite (filter_ext _ (fun p0 => (p_payment_id p0 =? payment_id)
                                   && is_cash (p_method p0))).
  - rewrite Hsel. cbn [map].
    assert (Hin : In p (filter (fun p0 => (p_payment_id p0 =? payment_id)
                                          && is_cash (p_method p0))
                          (payments d))) by (rewrite Hsel; now left).
    apply filter_In in Hin. destruct Hin as [_ Hc].
    apply andb_true_iff in Hc. destruct Hc as [-> _]. reflexivity.
  - intros a. destruct (p_payment_id a =? payment_id) eqn:E; cbn;
      rewrite E; reflexivity.
Qed.

Lemma verified_tickets_used env code (t : list Ticket) r :
  In r (sql_update (fun t => sql_text_eq env (t_ticket_code t) code)
          (set_t_is_used true) t) ->
  sql_text_eq env (t_ticket_code r) code = true -> t_is_used r = true.
Proof.
  unfold sql_update. intros Hin. apply in_map_iff in Hin.
  destruct Hin as (r0 & <- & _).
  destruct (sql_text_eq env (t_ticket_code r0) code) eqn:E; [reflexivity|].
  intros H. rewrite E in H. discriminate.
Qed.

Lemma verify_success env u ticket_code d :
  status_code (fst (post_tickets_verify env u ticket_code d)) = 200 ->
  String.eqb ticket_code "" = false
  /\ snd (post_tickets_verify env u ticket_code d)
     = with_tickets d
         (sql_update (fun t => sql_text_eq env (t_ticket_code t) ticket_code)
            (set_t_is_used true) (tickets d))
         (next_ticket d).
Proof.
  unfold post_tickets_verify.
  destruct (negb (is_admin u)); [discriminate|].
  destruct (String.eqb ticket_code "") eqn:Hcode; [discriminate|].
  destruct (tickets_join_payments _ _ _ _) as [|[t ps] l]; [discriminate|].
  destruct (negb _); [discriminate|]. auto.
Qed.

(** A ticket code that was verified is spent on both redemption routes:
    verifying it again answers 400 "Ticket not found or already used", a
    scan of it never answers 200, and neither writes anything; the
    verification itself touches no order or payment. *)
Theorem verify_then_no_redemption env u u' ticket_code d :
  status_code (fst (post_tickets_verify env u ticket_code d)) = 200 ->
  is_admin u' = true ->
  let d' := snd (post_tickets_verify env u ticket_code d) in
  post_tickets_verify env u' ticket_code d'
  = (Reply 400 (BError "Ticket not found or already used"), d')
  /\ status_code (fst (post_admin_scan_qr env u' ticket_code d')) <> 200
  /\ snd (post_admin_scan_qr env u' ticket_code d') = d'
  /\ orders d' = orders d /\ payments d' = payments d.
Proof.
  intros Hs Ha. cbn zeta.
  destruct (verify_success env u ticket_code d Hs) as (Hcode & ->).
  set (d' := with_tickets d _ _).
  assert (Hused : forall r, In r (tickets d') ->
            sql_text_eq env (t_ticket_code r) ticket_code = true ->
            t_is_used r = true).
  { subst d'. db_simpl. apply verified_tickets_used. }
  split; [|split; [|split; [|split; reflexivity]]].
  - unfold post_tickets_verify. rewrite Ha, Hcode. cbn [negb].
    unfold tickets_join_payments, sql_select.
    rewrite filter_none_forall; [reflexivity|].
    intros r Hr. apply andb_false_iff.
    destruct (sql_text_eq env (t_ticket_code r) ticket_code) eqn:E;
      [right|now left].
    rewrite (Hused r Hr E). reflexivity.
  - unfold post_admin_scan_qr. rewrite Ha, Hcode. cbn [negb].
    destruct (tickets_join_orders env ticket_code d') as [|[t0 st] rows]
      eqn:Hj; [discriminate|].
    apply join_orders_head in Hj. destruct Hj as (Hin & Hc & _).
    rewrite (Hused t0 Hin Hc). discriminate.
  - unfold post_admin_scan_qr. rewrite Ha, Hcode. cbn [negb].
    destruct (tickets_join_orders env ticket_code d') as [|[t0 st] rows]
      eqn:Hj; [reflexivity|].
    apply join_orders_head in Hj. destruct Hj as (Hin & Hc & _).
    rewrite (Hused t0 Hin Hc). reflexivity.
Qed.

(** After the soft cancellation, DELETE /api/orders/:orderId, which keeps
    the tickets, line items and payments of the order, the scan of a
    ticket of the order is refused and writes nothing. *)
Theorem soft_cancel_blocks_scan env u u' orderId code d t st rows :
  status_code (fst (delete_orders u orderId d)) = 200 ->
  let d' := snd (delete_orders u orderId d) in
  tickets_join_orders env code d' = (t, st) :: rows ->
  t_order_id t = orderId ->
  status_code (fst (post_admin_scan_qr env u' code d')) <> 200
  /\ snd (post_admin_scan_qr env u' code d') = d'
  /\ tickets d' = tickets d /\ order_items d' = order_items d
  /\ payments d' = payments d.
Proof.
  unfold delete_orders.
  destruct (orders_of_user _ _ _); [discriminate|].
  intros _. cbn zeta. cbn [snd]. intros Hj Hid.
  assert (Hst : st = OCancelled).
  { apply join_orders_head in Hj.
    destruct Hj as (_ & _ & o1 & Hin & Ho & <-).
    unfold update_order_status in Hin. db_simpl.
    unfold sql_update in Hin. apply in_map_iff in Hin.
    destruct Hin as (o0 & <- & _).
    destruct (o_id o0 =? orderId) eqn:E; [reflexivity|].
    apply Z.eqb_neq in E. cbn beta iota in Ho. congruence. }
  subst st.
  split; [|split; [|repeat split]];
    unfold post_admin_scan_qr;
    destruct (negb (is_admin u')); try discriminate; try reflexivity;
    destruct (String.eqb code ""); try discriminate; try reflexivity;
    rewrite Hj; destruct (t_is_used t); cbn; try discriminate;
    reflexivity.
Qed.

(** ** The payment adapter, outbound *)

(** *** Decimal writing *)

Lemma dec_safe z : safe_integer z -> dec z = digits z.
Proof.
  intros Hz. unfold dec, Number. rewrite (round_binary64_exact z Hz).
  unfold number_to_string. unfold safe_integer in Hz.
  apply Z.leb_le in Hz. now rewrite Hz.
Qed.

Lemma digits_inj a b : digits a = digits b -> a = b.
Proof.
  unfold digits. intros H.
  assert (Hn : forall z, Z.to_int z <> Decimal.Pos Decimal.Nil
                         /\ Z.to_int z <> Decimal.Neg Decimal.Nil).
  { intros [|p|p]; simpl; split; try discriminate; intros E; inversion E;
      now apply (Unsigned.to_uint_nonnil p). }
  assert (E : Some (Z.to_int a) = Some (Z.to_int b)).
  { rewrite <- (NilZero.isi (Z.to_int a)) by apply Hn.
    rewrite <- (NilZero.isi (Z.to_int b)) by apply Hn.
    now rewrite H. }
  inversion E as [E']. rewrite <- (DecimalZ.of_to a), <- (DecimalZ.of_to b).
  now rewrite E'.
Qed.

Lemma uint_no_underscore u :
  ~ In "_"%char (list_ascii_of_string (NilEmpty.string_of_uint u)).
Proof.
  induction u; simpl; [intros []|..];
    (intros [H|H]; [discriminate|auto]).
Qed.

Lemma digits_no_underscore z : ~ In "_"%char (list_ascii_of_string (digits z)).
Proof.
  unfold digits. destruct (Z.to_int z) as [u|u]; simpl.
  - destruct u; try apply uint_no_underscore.
    simpl. intros [H|[]]. discriminate.
  - intros [H|H]; [discriminate|]. revert H.
    destruct u; try apply uint_no_underscore.
    simpl. intros [H|[]]. discriminate.
Qed.

(** *** Splitting what was joined *)

Lemma split_on_first c s rest :
  ~ In c (list_ascii_of_string s) ->
  split_on c (String.append s (String c rest)) = s :: split_on c rest.
Proof.
  induction s as [|a s IH]; simpl; intros H.
  - now rewrite Ascii.eqb_refl.
  - destruct (Ascii.eqb a c) eqn:E.
    + apply Ascii.eqb_eq in E. subst. now destruct H; left.
    + rewrite IH by tauto. reflexivity.
Qed.

Lemma split_on_last c s :
  ~ In c (list_ascii_of_string s) -> split_on c s = [s].
Proof.
  induction s as [|a s IH]; simpl; intros H; [reflexivity|].
  destruct (Ascii.eqb a c) eqn:E.
  - apply Ascii.eqb_eq in E. subst. now destruct H; left.
  - rewrite IH by tauto. reflexivity.
Qed.

Lemma order_piece_of_reference oid now :
  safe_integer oid -> safe_integer now ->
  split_on "_" (String.concat "_" ["ORDER"%string; dec oid; dec now])
  = ["ORDER"%string; digits oid; digits now].
Proof.
  intros Ho Hn. rewrite (dec_safe oid Ho), (dec_safe now Hn).
  change (String.concat "_" ["ORDER"%string; digits oid; digits now])
    with (String.append "ORDER"
            (String "_" (String.append (digits oid)
                           (String "_" (digits now))))).
  rewrite (split_on_first "_" "ORDER")
    by (simpl; intros H; repeat (destruct H as [H|H]; [discriminate|]);
        exact H).
  rewrite (split_on_first "_" (digits oid)) by apply digits_no_underscore.
  rewrite split_on_last by apply digits_no_underscore. reflexivity.
Qed.

(** *** Objects *)

Lemma find_app {A} (f : A -> bool) (l1 l2 : list A) :
  find f (l1 ++ l2)
  = match find f l1 with Some x => Some x | None => find f l2 end.
Proof.
  induction l1 as [|a l1 IH]; simpl; [reflexivity|].
  destruct (f a); auto.
Qed.

Lemma obj_get_set_other o k k' v :
  k <> k' -> obj_get (obj_set o k' v) k = obj_get o k.
Proof.
  intros Hne. unfold obj_get, obj_set.
  destruct (find (fun kv => String.eqb (fst kv) k') o) eqn:Hf.
  - clear Hf. induction o as [|[k0 v0] o IH]; simpl; [reflexivity|].
    destruct (String.eqb k0 k') eqn:E'; simpl.
    + apply String.eqb_eq in E'. subst k0.
      destruct (String.eqb k' k) eqn:E;
        [apply String.eqb_eq in E; congruence|exact IH].
    + destruct (String.eqb k0 k); [reflexivity|exact IH].
  - rewrite find_app. simpl.
    destruct (find (fun kv => String.eqb (fst kv) k) o); [reflexivity|].
    destruct (String.eqb k' k) eqn:E; [|reflexivity].
    apply String.eqb_eq in E. congruence.
Qed.

Lemma obj_get_set_same o k v : obj_get (obj_set o k v) k = v.
Proof.
  unfold obj_get, obj_set.
  destruct (find (fun kv => String.eqb (fst kv) k) o) eqn:Hf.
  - induction o as [|[k0 v0] o IH]; simpl in *; [discriminate|].
    destruct (String.eqb k0 k) eqn:E; simpl.
    + now rewrite String.eqb_refl.
    + rewrite E. auto.
  - rewrite find_app, Hf. simpl. now rewrite String.eqb_refl.
Qed.

Lemma txn_ref_of_params env c r :
  obj_get (vnpParams_of env c r) "vnp_TxnRef"
  = JStr (String.concat "_"
            ["ORDER"%string; dec (order_id r); dec (now_txn c)]).
Proof. reflexivity. Qed.

Lemma command_of_params env c r :
  obj_get (vnpParams_of env c r) "vnp_Command" = JStr "pay".
Proof. reflexivity. Qed.

(** *** The redirect URL *)

Lemma append_assoc (a b c : string) :
  String.append (String.append a b) c = String.append a (String.append b c).
Proof. induction a as [|x a IH]; simpl; [reflexivity|now rewrite IH]. Qed.

Lemma concat_snoc sep (l : list string) x :
  l <> [] ->
  String.concat sep (l ++ [x])
  = String.append (String.concat sep l) (String.append sep x).
Proof.
  induction l as [|a l IH]; [congruence|]. intros _.
  destruct l as [|b l]; [reflexivity|].
  change (String.concat sep ((a :: b :: l) ++ [x]))
    with (String.append a
            (String.append sep (String.concat sep ((b :: l) ++ [x])))).
  rewrite IH by discriminate.
  change (String.concat sep (a :: b :: l))
    with (String.append a (String.append sep (String.concat sep (b :: l)))).
  now rewrite !append_assoc.
Qed.

Lemma canonical_not_secure_hash k :
  In k canonical_keys -> k <> "vnp_SecureHash"%string.
Proof.
  assert (H : forallb (fun k => negb (String.eqb k "vnp_SecureHash"))
                canonical_keys = true) by reflexivity.
  rewrite forallb_forall in H. intros Hin. specialize (H k Hin).
  apply negb_true_iff in H. now apply String.eqb_neq.
Qed.

(** The keys of the query string: the signed ones and the signature. *)
Lemma redirect_keys params sig :
  sig <> ""%string ->
  filter (fun key =>
            not_undefined (obj_get (obj_set params "vnp_SecureHash" (JStr sig)) key)
            && not_empty (obj_get (obj_set params "vnp_SecureHash" (JStr sig)) key)
            && not_null (obj_get (obj_set params "vnp_SecureHash" (JStr sig)) key))
         (canonical_keys ++ ["vnp_SecureHash"%string])
  = orderedKeys params false ++ ["vnp_SecureHash"%string].
Proof.
  intros Hsig. rewrite filter_app. f_equal.
  - unfold orderedKeys. apply filter_ext_in. intros k Hin.
    now rewrite obj_get_set_other by (now apply canonical_not_secure_hash).
  - cbn [filter]. rewrite obj_get_set_same.
    destruct sig; [congruence|reflexivity].
Qed.

Lemma signData_snoc params keys k :
  keys <> [] ->
  signData params (keys ++ [k])
  = String.append (signData params keys)
      (String.append "&" (query_pair params k)).
Proof.
  intros Hne. unfold signData. rewrite map_app. cbn [map].
  apply concat_snoc. destruct keys; [congruence|discriminate].
Qed.

Lemma signData_set_other params keys k v :
  ~ In k keys ->
  signData (obj_set params k v) keys = signData params keys.
Proof.
  intros Hnin. unfold signData. f_equal. apply map_ext_in. intros k' Hin.
  unfold query_pair. rewrite obj_get_set_other; [reflexivity|].
  intros ->. contradiction.
Qed.

Lemma orderedKeys_outbound_In params k :
  In k (orderedKeys params false) -> In k canonical_keys.
Proof. unfold orderedKeys. intros H. apply filter_In in H. tauto. Qed.

(** The URL the customer is sent to: the address of the gateway, the
    signed string as it was signed, and the signature, the last field. *)
Theorem redirect_url_is_signed_string env c r :
  let params := vnpParams_of env c r in
  let signed := signData params (orderedKeys params false) in
  let signature := hmac_sha512_hex env (VNPAY_HASH_SECRET env) signed in
  signature <> ""%string ->
  fst (build_redirect env c r)
  = String.append (js_to_string (of_env (VNPAY_URL env)))
      (String.append "?"
         (String.append signed
            (String.append "&vnp_SecureHash="
               (replace_pct20 (encodeURIComponent signature))))).
Proof.
  cbv zeta. unfold build_redirect, createVnpaySignature. cbn [fst].
  generalize (vnpParams_of env c r) (command_of_params env c r).
  intros params Hcmd Hsig.
  rewrite (redirect_keys params _ Hsig).
  assert (Hne : orderedKeys params false <> []).
  { assert (Hin : In "vnp_Command"%string (orderedKeys params false)).
    { unfold orderedKeys. apply filter_In. split.
      - unfold canonical_keys. right. left. reflexivity.
      - rewrite Hcmd. reflexivity. }
    intros E. rewrite E in Hin. destruct Hin. }
  rewrite (signData_snoc _ _ _ Hne).
  rewrite signData_set_other.
  - unfold query_pair. rewrite obj_get_set_same. reflexivity.
  - intros Hin. apply orderedKeys_outbound_In in Hin.
    now apply canonical_not_secure_hash in Hin.
Qed.

(** *** The transaction reference, out and back *)

Lemma txn_ref_pieces env c r :
  safe_integer (order_id r) -> safe_integer (now_txn c) ->
  snd (build_redirect env c r)
  = String.concat "_"
      ["ORDER"%string; digits (order_id r); digits (now_txn c)]
  /\ nth_error (split_on "_" (snd (build_redirect env c r))) 1
     = Some (digits (order_id r)).
Proof.
  intros Ho Hn.
  assert (H : snd (build_redirect env c r)
              = String.concat "_"
                  ["ORDER"%string; dec (order_id r); dec (now_txn c)]).
  { unfold build_redirect. cbn [snd].
    rewrite obj_get_set_other by discriminate.
    now rewrite txn_ref_of_params. }
  split.
  - rewrite H, (dec_safe _ Ho), (dec_safe _ Hn). reflexivity.
  - rewrite H, (order_piece_of_reference _ _ Ho Hn). reflexivity.
Qed.

(** The reference of an online payment is [ORDER_<id>_<time>], and what
    the callback handler takes for the order id, the piece after the first
    underscore, is the decimal writing of the id. *)
Theorem reference_names_the_order env c r :
  safe_integer (order_id r) -> safe_integer (now_txn c) ->
  snd (build_redirect env c r)
  = String.concat "_"
      ["ORDER"%string; digits (order_id r); digits (now_txn c)]
  /\ nth_error (split_on "_" (snd (build_redirect env c r))) 1
     = Some (digits (order_id r)).
Proof. apply txn_ref_pieces. Qed.

Lemma post_payments_online_success env c u r d :
  method r = "online"%string ->
  status_code (fst (post_payments env c u r d)) = 200 ->
  has_completed_first (order_id r) d = false
  /\ snd (post_payments env c u r d)
     = ensure_ticket (order_id r) (now_ticket c)
         (snd (insert_payment (order_id r) Online (amount r) PPending
                 (Some (snd (build_redirect env c r)))
                 (purge_stale (order_id r) d))).
Proof.
  intros Hm. unfold post_payments. rewrite Hm.
  destruct (_ || _ || _)%bool; [discriminate|].
  destruct (amount r <=? 0); [discriminate|].
  destruct (orders_of_user _ _ _); [discriminate|].
  destruct (has_completed_first _ _); [discriminate|].
  cbn [String.eqb Ascii.eqb Bool.eqb].
  destruct (build_redirect env c r) as [url txn].
  unfold insert_payment. cbn [fst snd]. auto.
Qed.

Lemma purge_stale_payments_of oid d :
  has_completed_first oid d = false ->
  payments (purge_stale oid d)
  = sql_delete (fun p => p_order_id p =? oid) (payments d).
Proof.
  unfold has_completed_first, purge_stale, sql_select.
  destruct (filter _ (payments d)) as [|p l] eqn:E.
  - intros _. unfold sql_delete. symmetry. apply filter_all_forall.
    intros q Hq. destruct (p_order_id q =? oid) eqn:Eq; [|reflexivity].
    assert (Hin : In q (filter (fun p => p_order_id p =? oid) (payments d)))
      by (apply filter_In; auto).
    rewrite E in Hin. destruct Hin.
  - destruct (p_status p); try discriminate; reflexivity.
Qed.

(** An online payment, then the success callback of the gateway that
    carries its reference: the order is completed and has the one payment
    of the request, completed. *)
Theorem online_payment_then_callback env c u r d q :
  method r = "online"%string ->
  status_code (fst (post_payments env c u r d)) = 200 ->
  safe_integer (order_id r) -> safe_integer (now_txn c) ->
  (forall id, sql_int_eq_text env id (digits (order_id r))
              = (id =? order_id r)) ->
  signature_valid env q = true ->
  obj_get q "vnp_TxnRef" = JStr (snd (build_redirect env c r)) ->
  obj_get q "vnp_ResponseCode" = JStr "00" ->
  let d1 := snd (post_payments env c u r d) in
  let res := get_vnpay_return env q d1 in
  fst res = Redirect "http://localhost:3001/orders?payment=success"
  /\ orders (snd res)
     = sql_update (fun o => o_id o =? order_id r) (set_o_status OCompleted)
         (orders d)
  /\ payments_by_order (order_id r) (snd res)
     = [{| p_payment_id := next_payment d; p_order_id := order_id r;
           p_method := Online; p_amount := amount r;
           p_status := PCompleted;
           p_transaction_id := Some (snd (build_redirect env c r)) |}]
  /\ tickets (snd res) = tickets d1.
Proof.
  intros Hm Hs Ho Hn Hsql Hsig Href Hcode. cbv zeta.
  destruct (post_payments_online_success env c u r d Hm Hs) as [Hc ->].
  destruct (txn_ref_pieces env c r Ho Hn) as [_ Hpiece].
  set (txn := snd (build_redirect env c r)) in *.
  set (d0 := ensure_ticket _ _ _).
  assert (Hord : orders d0 = orders d).
  { subst d0. rewrite (proj1 (ensure_ticket_frame _ _ _)).
    unfold insert_payment. db_simpl.
    apply (proj1 (purge_stale_frame (order_id r) d)). }
  assert (Hpay : payments d0
                 = sql_delete (fun p => p_order_id p =? order_id r)
                     (payments d)
                   ++ [{| p_payment_id := next_payment d;
                          p_order_id := order_id r; p_method := Online;
                          p_amount := amount r; p_status := PPending;
                          p_transaction_id := Some txn |}]).
  { subst d0. rewrite (proj2 (ensure_ticket_frame _ _ _)).
    unfold insert_payment. db_simpl.
    rewrite (purge_stale_payments_of _ _ Hc).
    now rewrite (proj1 (proj2 (proj2 (purge_stale_frame (order_id r) d)))). }
  unfold get_vnpay_return. unfold signature_valid in Hsig.
  rewrite Hsig. cbn [negb].
  rewrite !obj_get_delete_other by discriminate.
  rewrite Href, Hpiece, Hcode. cbn [js_eq_str]. rewrite String.eqb_refl.
  cbn [ref_matches fst snd]. db_simpl.
  split; [reflexivity|]. split; [|split; [|reflexivity]].
  - rewrite Hord. unfold sql_update. apply map_ext. intros o.
    now rewrite Hsql.
  - unfold payments_by_order, sql_select. db_simpl.
    rewrite (filter_update_key p_order_id) by reflexivity.
    rewrite Hpay, filter_app, filter_delete_same. cbn [filter p_order_id app].
    rewrite Z.eqb_refl. unfold sql_update. cbn [map p_order_id].
    now rewrite Hsql, Z.eqb_refl.
Qed.

(** ** What the reachable stores have in common *)

(** Every ticket, payment and line item of a reachable store belongs to an
    order of the store, and every order has exactly one ticket. *)
Theorem reachable_references env d :
  reachable env d ->
  (forall t, In t (tickets d) -> order_exists (t_order_id t) d)
  /\ (forall p, In p (payments d) -> order_exists (p_order_id p) d)
  /\ (forall i, In i (order_items d) -> order_exists (oi_order_id i) d)
  /\ (forall o, In o (orders d) ->
        exists t, tickets_by_order (o_id o) d = [t]).
Proof.
  intros H. destruct (reachable_Consistent env d H) as (A & B & C & D & _).
  auto.
Qed.

(** The total an order is stored with stays the sum of its line items,
    added up the way the handler did, whatever happens to the order. *)
Theorem total_is_sum_of_lines env d o :
  reachable env d -> In o (orders d) ->
  items_total (o_id o) d = Finite (o_total_price o).
Proof.
  intros H. destruct (reachable_Consistent env d H) as (_ & _ & _ & _ & E).
  apply E.
Qed.

(** The payment handler's "a ticket is issued when the order has none"
    never issues one in a reachable store: the order has its ticket since
    it was placed. *)
Theorem payment_issues_no_ticket env c u r d :
  reachable env d ->
  tickets (snd (post_payments env c u r d)) = tickets d
  /\ next_ticket (snd (post_payments env c u r d)) = next_ticket d.
Proof.
  intros Hr. pose proof (reachable_Consistent env d Hr) as HC.
  unfold post_payments.
  destruct (_ || _ || _)%bool; [auto|].
  destruct (amount r <=? 0); [auto|].
  destruct (orders_of_user _ _ _) as [|o rest] eqn:Ho; [auto|].
  destruct (has_completed_first _ _); [auto|].
  apply orders_of_user_In in Ho. destruct Ho as (Hin & Hid & _).
  destruct (purge_stale_frame (order_id r) d) as (Hpo & Hpt & _ & Hpn).
  assert (Hex : order_exists (order_id r) (purge_stale (order_id r) d)).
  { exists o. rewrite Hpo. auto. }
  pose proof (Consistent_purge_stale (order_id r) d HC) as H1.
  destruct (String.eqb (method r) "cash").
  - unfold insert_payment. cbn [fst snd].
    rewrite ensure_ticket_same.
    + db_simpl. auto.
    + apply Consistent_update_order_status.
      apply (Consistent_insert_payment (order_id r) Cash (amount r)
               PPending None _ Hex H1).
    + destruct Hex as (o1 & Hin1 & Hid1).
      apply (order_exists_ext (purge_stale (order_id r) d)).
      * db_simpl. apply orders_update_ids.
      * exists o1. auto.
  - destruct (String.eqb (method r) "online"); cbn [snd]; [|auto].
    destruct (build_redirect env c r) as [url txn].
    unfold insert_payment. cbn [fst snd].
    rewrite ensure_ticket_same.
    + db_simpl. auto.
    + apply (Consistent_insert_payment (order_id r) Online (amount r)
               PPending (Some txn) _ Hex H1).
    + destruct Hex as (o1 & Hin1 & Hid1). exists o1. auto.
Qed.

(** ** The texts of the payment request *)

Lemma n_digits_append n m a b :
  n_digits n a = true -> n_digits m b = true ->
  n_digits (n + m) (String.append a b) = true.
Proof.
  unfold n_digits. rewrite !andb_true_iff, !Nat.eqb_eq. intros [Hl Ha].
  revert n Hl. induction a as [|x a IH]; simpl; intros n Hl [Hm Hb].
  - subst n. simpl. auto.
  - apply andb_true_iff in Ha. destruct Ha as [Hx Ha].
    destruct n as [|n]; [discriminate|]. injection Hl as Hl.
    destruct (IH Ha n Hl (conj Hm Hb)) as [H1 H2].
    simpl. rewrite Hx, H1, H2. auto.
Qed.

Lemma zrange_In z start n :
  start <= z < start + Z.of_nat n -> In z (zrange start n).
Proof.
  revert start. induction n as [|n IH]; intros start H; [lia|].
  simpl. destruct (Z.eq_dec start z) as [->|Hne]; [now left|].
  right. apply IH. lia.
Qed.

Lemma checked_range (f : Z -> bool) start n :
  forallb f (zrange start n) = true ->
  forall z, start <= z < start + Z.of_nat n -> f z = true.
Proof.
  intros H z Hz. rewrite forallb_forall in H. now apply H, zrange_In.
Qed.

Lemma pad2_digits n : 0 <= n <= 99 -> n_digits 2 (pad2 n) = true.
Proof.
  intros Hn.
  apply (checked_range (fun n => n_digits 2 (pad2 n)) 0 (Z.to_nat 100));
    [vm_compute; reflexivity|lia].
Qed.

Lemma year_digits n : 1000 <= n <= 9999 -> n_digits 4 (dec n) = true.
Proof.
  intros Hn.
  apply (checked_range (fun n => n_digits 4 (dec n)) 1000 (Z.to_nat 9000));
    [vm_compute; reflexivity|lia].
Qed.

(** [vnp_CreateDate] is made of fourteen digits, YYYYMMDDHHmmss, for the
    fields of a date between the years 1000 and 9999. *)
Theorem createDate_fourteen_digits c :
  1000 <= getFullYear c <= 9999 -> 0 <= getMonth c <= 11 ->
  1 <= getDate c <= 31 -> 0 <= getHours c <= 23 ->
  0 <= getMinutes c <= 59 -> 0 <= getSeconds c <= 59 ->
  n_digits 14 (createDate c) = true.
Proof.
  intros Hy Hmo Hd Hh Hmi Hs. unfold createDate.
  change (String.concat "" ?l) with
    (String.append (dec (getFullYear c))
       (String.append (pad2 (getMonth c + 1))
          (String.append (pad2 (getDate c))
             (String.append (pad2 (getHours c))
                (String.append (pad2 (getMinutes c))
                   (pad2 (getSeconds c))))))).
  apply (n_digits_append 4 10); [now apply year_digits|].
  apply (n_digits_append 2 8); [apply pad2_digits; lia|].
  apply (n_digits_append 2 6); [apply pad2_digits; lia|].
  apply (n_digits_append 2 4); [apply pad2_digits; lia|].
  apply (n_digits_append 2 2); apply pad2_digits; lia.
Qed.

Lemma split_on_nonempty c s : split_on c s <> [].
Proof.
  destruct s as [|a s]; simpl; [discriminate|].
  destruct (Ascii.eqb a c); [discriminate|].
  destruct (split_on c s); discriminate.
Qed.

Lemma split_on_pieces c s piece :
  In piece (split_on c s) -> ~ In c (list_ascii_of_string piece).
Proof.
  revert piece. induction s as [|a s IH]; simpl; intros piece.
  - intros [<-|[]]. simpl. tauto.
  - destruct (Ascii.eqb a c) eqn:E.
    + intros [<-|H]; [simpl; tauto|now apply IH].
    + destruct (split_on c s) as [|h t] eqn:Hs.
      * intros [<-|[]]. simpl. intros [->|[]].
        now rewrite Ascii.eqb_refl in E.
      * intros [<-|H]; [|apply IH; now right].
        simpl. intros [->|H]; [now rewrite Ascii.eqb_refl in E|].
        revert H. apply IH. now left.
Qed.

Lemma last_default_or_In {A} (l : list A) d : last l d = d \/ In (last l d) l.
Proof.
  induction l as [|a l IH]; [now left|].
  destruct l as [|b l]; [right; now left|].
  destruct IH as [H|H]; [left; exact H|right; right; exact H].
Qed.

Lemma has_space_false s :
  ~ In " "%char (list_ascii_of_string s) -> has_space s = false.
Proof.
  unfold has_space. intros H.
  destruct (existsb _ _) eqn:E; [|reflexivity].
  apply existsb_exists in E. destruct E as (x & Hin & Hx).
  apply Ascii.eqb_eq in Hx. subst x. contradiction.
Qed.

(** Neither of the two names taken out of the full name holds a space; a
    full name that is blank gives no name. *)
Theorem billing_names_no_space fullname :
  has_space (fst (billing_names fullname)) = false
  /\ has_space (snd (billing_names fullname)) = false
  /\ (trim fullname = ""%string ->
      billing_names fullname = (""%string, ""%string)).
Proof.
  unfold billing_names.
  destruct (negb (String.eqb fullname "")
            && negb (String.eqb (trim fullname) ""))%bool eqn:E.
  - pose proof (split_on_pieces " " (trim fullname)) as Hp.
    destruct (split_on " " (trim fullname)) as [|first rest] eqn:Hs.
    + now destruct (split_on_nonempty " " (trim fullname)).
    + cbn [fst snd]. split; [|split].
      * apply has_space_false, Hp. now left.
      * destruct (last_default_or_In rest ""%string) as [->|H];
          [reflexivity|].
        apply has_space_false, Hp. now right.
      * intros Ht. rewrite Ht in E. rewrite andb_comm in E. discriminate.
  - auto.
Qed.

(** ** The further statements on the sample runs *)

Lemma reachable_references_witness :
  reachable sample_env cash_paid_db
  /\ exists t, tickets_by_order 1 cash_paid_db = [t].
Proof.
  assert (Hr : reachable sample_env cash_paid_db)
    by (apply reachable_run; constructor).
  split; [assumption|].
  destruct (reachable_references sample_env cash_paid_db Hr)
    as (_ & _ & _ & H).
  apply (H (order_1 OConfirmed)). vm_compute. auto.
Defined.

Lemma total_is_sum_of_lines_witness :
  (reachable sample_env cash_paid_db
   /\ In (order_1 OConfirmed) (orders cash_paid_db))
  /\ items_total 1 cash_paid_db = Finite 100000.
Proof.
  assert (Hr : reachable sample_env cash_paid_db)
    by (apply reachable_run; constructor).
  assert (Hin : In (order_1 OConfirmed) (orders cash_paid_db))
    by (vm_compute; auto).
  split; [split; assumption|].
  exact (total_is_sum_of_lines sample_env cash_paid_db _ Hr Hin).
Defined.

Lemma payment_issues_no_ticket_witness :
  reachable sample_env pending_db
  /\ tickets (snd (post_payments sample_env noon alice (cash_req 1 100000)
                     pending_db))
     = tickets pending_db.
Proof.
  assert (Hr : reachable sample_env pending_db)
    by (apply reachable_run; constructor).
  split; [assumption|].
  exact (proj1 (payment_issues_no_ticket sample_env noon alice
                  (cash_req 1 100000) pending_db Hr)).
Defined.

Lemma order_status_transitions_witness :
  (reachable sample_env pending_db
   /\ In (order_1 OPending) (orders pending_db)
   /\ In (order_1 OConfirmed)
        (orders (snd (handle sample_env
                        (PostPayments noon alice (cash_req 1 100000))
                        pending_db)))
   /\ o_id (order_1 OConfirmed) = o_id (order_1 OPending)
   /\ o_status (order_1 OConfirmed) <> o_status (order_1 OPending))
  /\ exists c u r,
       PostPayments noon alice (cash_req 1 100000) = PostPayments c u r
       /\ method r = "cash"%string /\ user_id u = 2.
Proof.
  assert (Hr : reachable sample_env pending_db)
    by (apply reachable_run; constructor).
  assert (H1 : In (order_1 OPending) (orders pending_db))
    by (vm_compute; auto).
  assert (H2 : In (order_1 OConfirmed)
                 (orders (snd (handle sample_env
                                 (PostPayments noon alice (cash_req 1 100000))
                                 pending_db))))
    by (vm_compute; auto).
  assert (H3 : o_status (order_1 OConfirmed) <> o_status (order_1 OPending))
    by discriminate.
  split; [repeat split; assumption|].
  destruct (order_status_transitions sample_env pending_db _ _ _
              Hr H1 H2 eq_refl H3)
    as [(c & u & r & Hop & Hm & _ & Hu & _)
       |[(q & Hop & _)|[(u & s & Hop & _)|[(u & code & Hop & _)
       |(u & Hop & _)]]]];
    try discriminate Hop.
  exists c, u, r. auto.
Defined.

Lemma payment_transitions_witness :
  (reachable sample_env online_pending_db
   /\ In (online_payment_1 PPending) (payments online_pending_db)
   /\ In (online_payment_1 PCompleted)
        (payments (snd (handle sample_env
                          (GetVnpayReturn
                             (gateway_callback sample_env
                                (callback_params "00")))
                          online_pending_db)))
   /\ online_payment_1 PCompleted <> online_payment_1 PPending)
  /\ online_payment_1 PCompleted
     = set_p_status PCompleted (online_payment_1 PPending).
Proof.
  assert (Hr : reachable sample_env online_pending_db)
    by (apply reachable_run; constructor).
  assert (H1 : In (online_payment_1 PPending) (payments online_pending_db))
    by (vm_compute; auto).
  assert (H2 : In (online_payment_1 PCompleted)
                 (payments (snd (handle sample_env
                                   (GetVnpayReturn
                                      (gateway_callback sample_env
                                         (callback_params "00")))
                                   online_pending_db))))
    by (vm_compute; auto).
  assert (H3 : online_payment_1 PCompleted <> online_payment_1 PPending)
    by discriminate.
  split; [repeat split; assumption|].
  exact (proj1 (payment_transitions sample_env online_pending_db _ _ _
                  Hr H1 H2 eq_refl H3)).
Defined.

Lemma admin_routes_refuse_customers_witness :
  (admin_route (PostFoods alice "pho" 50000 1) = Some alice
   /\ is_admin alice = false)
  /\ handle sample_env (PostFoods alice "pho" 50000 1) empty_db
     = (unauthorized, empty_db).
Proof.
  split; [split; reflexivity|].
  apply (admin_routes_refuse_customers sample_env _ alice); reflexivity.
Defined.

Lemma owner_routes_refuse_strangers_witness :
  (owner_route (DeleteOrders bob 1) = Some (bob, 1)
   /\ forall o, In o (orders pending_db) -> o_id o = 1 ->
                o_user_id o <> user_id bob)
  /\ snd (handle sample_env (DeleteOrders bob 1) pending_db) = pending_db.
Proof.
  assert (H : forall o, In o (orders pending_db) -> o_id o = 1 ->
                        o_user_id o <> user_id bob).
  { intros o Hin _. vm_compute in Hin. destruct Hin as [<-|[]].
    discriminate. }
  split; [split; [reflexivity|exact H]|].
  exact (proj1 (owner_routes_refuse_strangers sample_env (DeleteOrders bob 1)
                  bob 1 pending_db eq_refl H)).
Defined.

Lemma confirm_twice_witness :
  (status_code (fst (post_payments_confirm admin 1 cash_pending_db)) = 200
   /\ is_admin admin = true)
  /\ post_payments_confirm admin 1
       (snd (post_payments_confirm admin 1 cash_pending_db))
     = (Reply 400 (BError "Payment already completed"),
        snd (post_payments_confirm admin 1 cash_pending_db)).
Proof.
  assert (H : status_code (fst (post_payments_confirm admin 1 cash_pending_db))
              = 200) by (vm_compute; reflexivity).
  split; [split; [exact H|reflexivity]|].
  exact (proj1 (confirm_twice admin admin 1 cash_pending_db H eq_refl)).
Defined.

Lemma verify_then_no_redemption_witness :
  (status_code (fst (post_tickets_verify sample_env admin "ab12" cash_paid_db))
   = 200
   /\ is_admin admin = true)
  /\ status_code
       (fst (post_admin_scan_qr sample_env admin "ab12"
               (snd (post_tickets_verify sample_env admin "ab12"
                       cash_paid_db)))) <> 200.
Proof.
  assert (H : status_code (fst (post_tickets_verify sample_env admin "ab12"
                                  cash_paid_db)) = 200)
    by (vm_compute; reflexivity).
  split; [split; [exact H|reflexivity]|].
  exact (proj1 (proj2 (verify_then_no_redemption sample_env admin admin
                         "ab12" cash_paid_db H eq_refl))).
Defined.

Lemma soft_cancel_blocks_scan_witness :
  (status_code (fst (delete_orders alice 1 pending_db)) = 200
   /\ tickets_join_orders sample_env "ab12"
        (snd (delete_orders alice 1 pending_db))
      = [(ticket_ab12 false, OCancelled)]
   /\ t_order_id (ticket_ab12 false) = 1)
  /\ snd (post_admin_scan_qr sample_env admin "ab12"
            (snd (delete_orders alice 1 pending_db)))
     = snd (delete_orders alice 1 pending_db).
Proof.
  assert (H1 : status_code (fst (delete_orders alice 1 pending_db)) = 200)
    by (vm_compute; reflexivity).
  assert (H2 : tickets_join_orders sample_env "ab12"
                 (snd (delete_orders alice 1 pending_db))
               = [(ticket_ab12 false, OCancelled)])
    by (vm_compute; reflexivity).
  split; [split; [exact H1|split; [exact H2|reflexivity]]|].
  exact (proj1 (proj2 (soft_cancel_blocks_scan sample_env alice admin 1 "ab12"
                         pending_db _ _ _ H1 H2 eq_refl))).
Defined.

Lemma variant_post_orders_rejections_witness :
  (exists it, In it [{| food_id := 1; quantity := 0 |}]
              /\ (quantity it <= 0 \/ food_price menu_db (food_id it) = None))
  /\ snd (Variant.post_orders alice [{| food_id := 1; quantity := 0 |}] "ab12"
            menu_db) = menu_db.
Proof.
  assert (H : exists it, In it [{| food_id := 1; quantity := 0 |}]
                /\ (quantity it <= 0
                    \/ food_price menu_db (food_id it) = None)).
  { exists {| food_id := 1; quantity := 0 |}. split; [now left|].
    left. simpl. lia. }
  split; [exact H|].
  exact (proj2 (variant_post_orders_rejections alice _ "ab12" menu_db
                  (or_intror H))).
Defined.

Lemma vnpay_return_no_reference_witness :
  (signature_valid sample_env callback_without_reference = true
   /\ forall ref, obj_get callback_without_reference "vnp_TxnRef" <> JStr ref)
  /\ get_vnpay_return sample_env callback_without_reference online_pending_db
     = (server_error, online_pending_db).
Proof.
  assert (H1 : signature_valid sample_env callback_without_reference = true)
    by (vm_compute; reflexivity).
  assert (H2 : forall ref,
                 obj_get callback_without_reference "vnp_TxnRef" <> JStr ref)
    by (intros ref; vm_compute; discriminate).
  split; [split; assumption|].
  exact (vnpay_return_no_reference sample_env _ online_pending_db H1 H2).
Defined.

Lemma redirect_url_is_signed_string_witness :
  hmac_sha512_hex sample_env (VNPAY_HASH_SECRET sample_env)
    (signData (vnpParams_of sample_env noon (online_req 1 100000))
       (orderedKeys (vnpParams_of sample_env noon (online_req 1 100000))
          false))
  <> ""%string
  /\ fst (build_redirect sample_env noon (online_req 1 100000))
     = String.append "https://sandbox.vnpayment.vn/paymentv2/vpcpay.html?"
         (String.append
            (signData (vnpParams_of sample_env noon (online_req 1 100000))
               (orderedKeys
                  (vnpParams_of sample_env noon (online_req 1 100000)) false))
            (String.append "&vnp_SecureHash="
               (replace_pct20
                  (encodeURIComponent
                     (createVnpaySignature sample_env
                        (vnpParams_of sample_env noon (online_req 1 100000))
                        "SECRET" false))))).
Proof.
  assert (H : hmac_sha512_hex sample_env (VNPAY_HASH_SECRET sample_env)
                (signData (vnpParams_of sample_env noon (online_req 1 100000))
                   (orderedKeys
                      (vnpParams_of sample_env noon (online_req 1 100000))
                      false))
              <> ""%string) by (vm_compute; discriminate).
  split; [exact H|].
  etransitivity;
    [exact (redirect_url_is_signed_string sample_env noon
              (online_req 1 100000) H)|].
  vm_compute. reflexivity.
Defined.

Lemma reference_names_the_order_witness :
  (safe_integer (order_id (online_req 1 100000))
   /\ safe_integer (now_txn noon))
  /\ snd (build_redirect sample_env noon (online_req 1 100000))
     = "ORDER_1_1746792007000"%string.
Proof.
  assert (H1 : safe_integer (order_id (online_req 1 100000)))
    by (vm_compute; discriminate).
  assert (H2 : safe_integer (now_txn noon)) by (vm_compute; discriminate).
  split; [split; assumption|].
  etransitivity;
    [exact (proj1 (reference_names_the_order sample_env noon
                     (online_req 1 100000) H1 H2))|].
  vm_compute. reflexivity.
Defined.

Lemma online_payment_then_callback_witness :
  (method (online_req 1 100000) = "online"%string
   /\ status_code (fst (post_payments sample_env noon alice
                          (online_req 1 100000) pending_db)) = 200
   /\ safe_integer (order_id (online_req 1 100000))
   /\ safe_integer (now_txn noon)
   /\ (forall id, sql_int_eq_text sample_env id
                    (digits (order_id (online_req 1 100000)))
                  = (id =? order_id (online_req 1 100000)))
   /\ signature_valid sample_env
        (gateway_callback sample_env (callback_params "00")) = true
   /\ obj_get (gateway_callback sample_env (callback_params "00"))
        "vnp_TxnRef"
      = JStr (snd (build_redirect sample_env noon (online_req 1 100000)))
   /\ obj_get (gateway_callback sample_env (callback_params "00"))
        "vnp_ResponseCode" = JStr "00")
  /\ orders
       (snd (get_vnpay_return sample_env
               (gateway_callback sample_env (callback_params "00"))
               (snd (post_payments sample_env noon alice
                       (online_req 1 100000) pending_db))))
     = [order_1 OCompleted].
Proof.
  assert (H2 : status_code (fst (post_payments sample_env noon alice
                                   (online_req 1 100000) pending_db)) = 200)
    by (vm_compute; reflexivity).
  assert (H3 : safe_integer (order_id (online_req 1 100000)))
    by (vm_compute; discriminate).
  assert (H4 : safe_integer (now_txn noon)) by (vm_compute; discriminate).
  assert (H5 : forall id, sql_int_eq_text sample_env id
                            (digits (order_id (online_req 1 100000)))
                          = (id =? order_id (online_req 1 100000))).
  { intros id. cbn [sql_int_eq_text sample_env order_id online_req].
    destruct (Z.eqb_spec id 1) as [->|Hne]; [reflexivity|].
    apply String.eqb_neq. intros E. apply Hne. now apply digits_inj. }
  assert (H6 : signature_valid sample_env
                 (gateway_callback sample_env (callback_params "00")) = true)
    by (vm_compute; reflexivity).
  assert (H7 : obj_get (gateway_callback sample_env (callback_params "00"))
                 "vnp_TxnRef"
               = JStr (snd (build_redirect sample_env noon
                              (online_req 1 100000))))
    by (vm_compute; reflexivity).
  split; [exact (conj eq_refl (conj H2 (conj H3 (conj H4 (conj H5
                   (conj H6 (conj H7 eq_refl)))))))|].
  etransitivity;
    [exact (proj1 (proj2 (online_payment_then_callback sample_env noon alice
                            (online_req 1 100000) pending_db _
                            eq_refl H2 H3 H4 H5 H6 H7 eq_refl)))|].
  vm_compute. reflexivity.
Defined.

Lemma createDate_fourteen_digits_witness :
  (1000 <= getFullYear noon <= 9999 /\ 0 <= getMonth noon <= 11
   /\ 1 <= getDate noon <= 31 /\ 0 <= getHours noon <= 23
   /\ 0 <= getMinutes noon <= 59 /\ 0 <= getSeconds noon <= 59)
  /\ n_digits 14 (createDate noon) = true
  /\ createDate noon = "20250509120007"%string.
Proof.
  assert (H : 1000 <= getFullYear noon <= 9999 /\ 0 <= getMonth noon <= 11
              /\ 1 <= getDate noon <= 31 /\ 0 <= getHours noon <= 23
              /\ 0 <= getMinutes noon <= 59 /\ 0 <= getSeconds noon <= 59)
    by (cbn; lia).
  split; [exact H|]. split; [|reflexivity].
  destruct H as (H1 & H2 & H3 & H4 & H5 & H6).
  exact (createDate_fourteen_digits noon H1 H2 H3 H4 H5 H6).
Defined.
